(** * CODAGE11 3D pricer: the estimator and the pricer of [main.py]

    The two pure functions of the server, [analyze_3d_file_simple] and
    [calculate_price], are embedded over a model of Python's [float]
    (IEEE 754 binary64, round to nearest, ties to even): a value is
    NaN, an infinity or a rational, and every arithmetic operation is
    the exact rational operation followed by [round64].  The sign of
    zero is not represented: no comparison of the program observes it,
    and Python's division raises on either zero.

    Exceptions are explicit: a function that can raise returns a
    [result].  Python's [int] is [Z]; the dicts of the program are
    records, the catalog [MATERIALS] an association list.  The handler
    of the route [/api/analyze], which calls the two functions, is
    embedded over the library functions that it uses; the page routes
    and the placeholder quote store of the server are not part of the
    development.

    Part I holds the program and every definition; Part II the
    properties: the rounding [round64] is monotone and fixes its own
    results, whence the operations on floats are monotone where no NaN
    arises, whence the properties of the estimator and of the pricer. *)

From Stdlib Require Import ZArith QArith Qround Qpower Lqa Lia.
From Stdlib Require Import Bool String List SpecFloat.
Import ListNotations.

Local Open Scope Q_scope.

(** * Part I: the program and its data *)

(** ** Rounding a rational to the nearest integer, ties to even *)

Module Rounding.

Definition round_half_even (q : Q) : Z :=
  let f := Qfloor q in
  match Qcompare (q - inject_Z f) (1 # 2) with
  | Lt => f
  | Gt => (f + 1)%Z
  | Eq => if Z.even f then f else (f + 1)%Z
  end.

(** [floor (log2 q)] for a positive rational. *)
Definition ilog2 (q : Q) : Z :=
  let k := (Z.log2 (Qnum q) - Z.log2 (Zpos (Qden q)))%Z in
  if Qle_bool (2 ^ k) q then k else (k - 1)%Z.

(** binary64: 53 bits of precision, least exponent of a subnormal
    -1074, overflow at 2^1024. *)
Definition cexp (q : Q) : Z := Z.max (ilog2 q - 52) (-1074).

Definition round_pos (q : Q) : Q :=
  let e := cexp q in inject_Z (round_half_even (q / 2 ^ e)) * 2 ^ e.

End Rounding.

(** ** Python's [float] *)

Module Float.
Import Rounding.

Inductive float : Type :=
| NaN
| Inf (negative : bool)
| Fin (q : Q).

(** A rounded magnitude of 2^1024 or more overflows to an infinity. *)
Definition clamp (negative : bool) (v : Q) : float :=
  if Qle_bool (2 ^ 1024) v then Inf negative
  else Fin (Qred (if negative then - v else v)).

(** Round to nearest binary64, ties to even. *)
Definition round64 (q : Q) : float :=
  match Qcompare q 0 with
  | Eq => Fin 0
  | Gt => clamp false (round_pos q)
  | Lt => clamp true (round_pos (- q))
  end.

(** A decimal literal of the source denotes the nearest binary64. *)
Definition lit (q : Q) : float := round64 q.

Definition FMAX : float := Fin (Qred ((2 ^ 53 - 1) * 2 ^ 971)).

Definition is_nan (x : float) : bool :=
  match x with NaN => true | _ => false end.

Definition is_finite (x : float) : bool :=
  match x with Fin _ => true | _ => false end.

Definition is_zero (x : float) : bool :=
  match x with Fin q => Qeq_bool q 0 | _ => false end.

Definition Qneg_bool (q : Q) : bool := negb (Qle_bool 0 q).

(** *** Comparisons: every comparison with NaN is false *)

Definition fle (x y : float) : bool :=
  match x, y with
  | NaN, _ | _, NaN => false
  | Inf true, _ => true
  | _, Inf false => true
  | Inf false, _ => false
  | _, Inf true => false
  | Fin a, Fin b => Qle_bool a b
  end.

Definition flt (x y : float) : bool :=
  match x, y with
  | NaN, _ | _, NaN => false
  | Inf false, _ => false
  | _, Inf true => false
  | Inf true, _ => true
  | _, Inf false => true
  | Fin a, Fin b => negb (Qle_bool b a)
  end.

Definition fgt (x y : float) : bool := flt y x.
Definition fge (x y : float) : bool := fle y x.

(** *** Arithmetic *)

Definition fneg (x : float) : float :=
  match x with
  | NaN => NaN
  | Inf s => Inf (negb s)
  | Fin q => Fin (- q)
  end.

Definition fadd (x y : float) : float :=
  match x, y with
  | NaN, _ | _, NaN => NaN
  | Inf s, Inf t => if Bool.eqb s t then Inf s else NaN
  | Inf s, Fin _ => Inf s
  | Fin _, Inf t => Inf t
  | Fin a, Fin b => round64 (a + b)
  end.

Definition fmul (x y : float) : float :=
  match x, y with
  | NaN, _ | _, NaN => NaN
  | Inf s, Inf t => Inf (xorb s t)
  | Inf s, Fin b => if Qeq_bool b 0 then NaN else Inf (xorb s (Qneg_bool b))
  | Fin a, Inf t => if Qeq_bool a 0 then NaN else Inf (xorb (Qneg_bool a) t)
  | Fin a, Fin b => round64 (a * b)
  end.

(** The IEEE quotient by a divisor that is not zero. *)
Definition fquot (x y : float) : float :=
  match x, y with
  | NaN, _ | _, NaN => NaN
  | Inf _, Inf _ => NaN
  | Inf s, Fin b => Inf (xorb s (Qneg_bool b))
  | Fin _, Inf _ => Fin 0
  | Fin a, Fin b => round64 (a / b)
  end.

(** [round(x, ndigits)] with an explicit [ndigits >= 0]: NaN and the
    infinities round to themselves; a finite [x] goes to the nearest
    decimal with [ndigits] digits (ties to even, on the exact value of
    [x]) and from there to the nearest binary64. *)
Definition round_nd (x : float) (ndigits : Z) : float :=
  match x with
  | Fin q =>
      let s := inject_Z (10 ^ ndigits) in
      round64 (inject_Z (round_half_even (q * s)) / s)
  | _ => x
  end.

(** [float(n)] for a Python [int]. *)
Definition of_int (n : Z) : float := round64 (inject_Z n).

Declare Scope float_scope.
Delimit Scope float_scope with F.
Bind Scope float_scope with float.
Notation "x <= y" := (fle x y = true) : float_scope.
Notation "x < y" := (flt x y = true) : float_scope.
Notation "x + y" := (fadd x y) : float_scope.
Notation "x * y" := (fmul x y) : float_scope.

(** [Fin q] stands for a binary64 number when rounding leaves [q]
    unchanged; every operation above returns such a number. *)
Definition is_binary64 (x : float) : bool :=
  match x with
  | Fin q => match round64 q with Fin r => Qeq_bool r q | _ => false end
  | _ => true
  end.

End Float.

(** ** The reference operations of the Standard Library

    [SpecFloat] specifies IEEE 754 arithmetic on mantissas and
    exponents; the operations above are compared with it on the
    numbers that the program and the examples below use. *)

Module Reference.
Import Float.

Definition to_spec (x : float) : spec_float :=
  match x with
  | NaN => S754_nan
  | Inf s => S754_infinity s
  | Fin q =>
      let q' := Qred q in
      binary_normalize 53 1024 (Qnum q') (- Z.log2 (Zpos (Qden q'))) false
  end.

Definition of_spec (x : spec_float) : float :=
  match x with
  | S754_zero _ => Fin 0
  | S754_infinity s => Inf s
  | S754_nan => NaN
  | S754_finite s m e =>
      Fin (Qred ((if s then -1 else 1) * inject_Z (Zpos m) * 2 ^ e))
  end.

(** The same value; NaN is the same as NaN. *)
Definition same (x y : float) : bool :=
  match x, y with
  | NaN, NaN => true
  | Inf s, Inf t => Bool.eqb s t
  | Fin a, Fin b => Qeq_bool a b
  | _, _ => false
  end.

Definition samples : list float :=
  [ NaN; Inf false; Inf true; Fin 0; lit 1; lit 1000; lit (1 # 10);
    lit (2 # 10); lit (6 # 10); lit (124 # 100); lit (-50);
    FMAX; Fin (2 ^ (-1074)); Fin (- 2 ^ 1023) ].

Definition agree (x y : float) : bool :=
  same (of_spec (SFadd 53 1024 (to_spec x) (to_spec y))) (fadd x y) &&
  same (of_spec (SFmul 53 1024 (to_spec x) (to_spec y))) (fmul x y) &&
  (is_zero y ||
   same (of_spec (SFdiv 53 1024 (to_spec x) (to_spec y))) (fquot x y)) &&
  Bool.eqb (SFleb (to_spec x) (to_spec y)) (fle x y) &&
  Bool.eqb (SFltb (to_spec x) (to_spec y)) (flt x y).

End Reference.

(** ** The Python operations the program uses *)

Module Python.
Import Rounding Float.

Inductive exn : Type :=
| ValueError (msg : string)
| KeyError (msg : string)
| ZeroDivisionError (msg : string)
| OverflowError (msg : string).

(** [str(e)] *)
Definition str (e : exn) : string :=
  match e with
  | ValueError msg | KeyError msg
  | ZeroDivisionError msg | OverflowError msg => msg
  end.

Inductive result (A : Type) : Type :=
| Ok (a : A)
| Raise (e : exn).
Arguments Ok {A} a.
Arguments Raise {A} e.

Definition bind {A B : Type} (r : result A) (k : A -> result B) : result B :=
  match r with
  | Ok a => k a
  | Raise e => Raise e
  end.

Notation "x <- r ;; k" := (bind r (fun x => k))
  (at level 61, r at next level, right associativity).

(** [try: body except Exception as e: raise ValueError(h e)] *)
Definition try_except {A : Type} (body : result A) (h : exn -> string) : result A :=
  match body with
  | Ok a => Ok a
  | Raise e => Raise (ValueError (h e))
  end.

(** A dict with string keys, in insertion order. *)
Definition dict (V : Type) : Type := list (string * V).

Fixpoint dict_get {V : Type} (d : dict V) (key : string) : option V :=
  match d with
  | [] => None
  | (k, v) :: rest => if String.eqb key k then Some v else dict_get rest key
  end.

(** [key in d] *)
Definition dict_mem {V : Type} (d : dict V) (key : string) : bool :=
  match dict_get d key with Some _ => true | None => false end.

(** [d[key]] *)
Definition dict_getitem {V : Type} (d : dict V) (key : string) : result V :=
  match dict_get d key with
  | Some v => Ok v
  | None => Raise (KeyError key)
  end.

(** [x / y] on floats raises on a zero divisor, whatever [x] is. *)
Definition float_div (x y : float) : result float :=
  if is_zero y then Raise (ZeroDivisionError "float division by zero")
  else Ok (fquot x y).

(** [n / d] on ints is the correctly rounded quotient, and raises when
    it is too large for a float. *)
Definition int_truediv (n d : Z) : result float :=
  if (d =? 0)%Z then Raise (ZeroDivisionError "division by zero")
  else match round64 (inject_Z n / inject_Z d) with
       | Fin q => Ok (Fin q)
       | _ => Raise (OverflowError "integer division result too large for a float")
       end.

(** The conversion of an int operand in mixed arithmetic. *)
Definition float_of_int (n : Z) : result float :=
  match of_int n with
  | Fin q => Ok (Fin q)
  | _ => Raise (OverflowError "int too large to convert to float")
  end.

(** [int(x)] truncates towards zero. *)
Definition int_of_float (x : float) : result Z :=
  match x with
  | NaN => Raise (ValueError "cannot convert float NaN to integer")
  | Inf _ => Raise (OverflowError "cannot convert float infinity to integer")
  | Fin q => Ok (if Qle_bool 0 q then Qfloor q else Qceiling q)
  end.

(** [max(a, b)] and [min(a, b)] keep the first argument unless the
    second compares strictly beyond it. *)
Definition py_max (a b : float) : float := if fgt b a then b else a.
Definition py_min (a b : float) : float := if flt b a then b else a.

End Python.

(** ** The program: [main.py] *)

Module Pricer.
Import Rounding Float Python.
Local Open Scope string_scope.

(** *** Material properties and pricing *)

Record mat_props : Type := {
  name : string;
  density : float;
  price_per_kg : float;
  print_speed_modifier : float;
  support_difficulty : float
}.

(** The dict [MATERIALS], in the order of the source. *)
Definition MATERIALS : dict mat_props :=
  [ ("PLA",
     {| name := "PLA (Standard)";
        density := lit (124 # 100);
        price_per_kg := lit 25;
        print_speed_modifier := lit 1;
        support_difficulty := lit 1 |});
    ("ABS",
     {| name := "ABS (High Strength)";
        density := lit (104 # 100);
        price_per_kg := lit 30;
        print_speed_modifier := lit (9 # 10);
        support_difficulty := lit (12 # 10) |});
    ("PETG",
     {| name := "PETG (Chemical Resistant)";
        density := lit (127 # 100);
        price_per_kg := lit 35;
        print_speed_modifier := lit (8 # 10);
        support_difficulty := lit (11 # 10) |});
    ("TPU",
     {| name := "TPU (Flexible)";
        density := lit (12 # 10);
        price_per_kg := lit 45;
        print_speed_modifier := lit (5 # 10);
        support_difficulty := lit (15 # 10) |}) ].

Record pricing_config : Type := {
  base_print_time_per_cm3 : float;
  machine_cost_per_hour : float;
  post_processing_base : float;
  support_cost_multiplier : float;
  margin : float;
  minimum_price : float
}.

Definition PRICING_CONFIG : pricing_config := {|
  base_print_time_per_cm3 := lit 2;
  machine_cost_per_hour := lit 15;
  post_processing_base := lit 5;
  support_cost_multiplier := lit (3 # 10);
  margin := lit (25 # 100);
  minimum_price := lit 5
|}.

(** *** The analysis record *)

Record dimensions : Type := { dim_x : float; dim_y : float; dim_z : float }.

Record analysis : Type := {
  volume_cm3 : float;
  surface_area_cm2 : float;
  dimensions_cm : dimensions;
  face_count : Z;
  vertex_count : Z;
  complexity_factor : float;
  is_watertight : bool;
  needs_supports : bool;
  analysis_method : string
}.

Section Estimator.

(** [x ** y] is the C library's [pow], which IEEE 754 does not pin
    down; the estimator uses it for the displayed dimensions only, on
    a base that is at least 1, where it raises nothing. *)
Variable float_pow : float -> float -> float.

(** The file extension is computed from [file_path] and never used. *)
Definition analyze_3d_file_simple (file_path : string) (file_size : Z)
  : result analysis :=
  try_except
    (q <- int_truediv file_size 100000 ;;
     let estimated_volume_cm3 := py_max (lit 1) (q * of_int 10)%F in
     let estimated_surface_area := (estimated_volume_cm3 * of_int 6)%F in
     third <- int_truediv 1 3 ;;
     let cube_side := float_pow estimated_volume_cm3 third in
     let dimensions_cm := {|
       dim_x := round_nd (cube_side * lit (12 # 10))%F 2;
       dim_y := round_nd (cube_side * lit (8 # 10))%F 2;
       dim_z := round_nd (cube_side * lit 1)%F 2 |} in
     c <- int_truediv file_size 1000000 ;;
     let complexity_factor := py_min (lit 1) c in
     f <- int_truediv file_size 50 ;;
     face_count <- int_of_float f ;;
     fc <- float_of_int face_count ;;
     vertex_count <- int_of_float (fc * lit (6 # 10))%F ;;
     let is_watertight := true in
     let needs_supports := fgt complexity_factor (lit (3 # 10)) in
     Ok {| volume_cm3 := round_nd estimated_volume_cm3 3;
           surface_area_cm2 := round_nd estimated_surface_area 2;
           dimensions_cm := dimensions_cm;
           face_count := face_count;
           vertex_count := vertex_count;
           complexity_factor := round_nd complexity_factor 3;
           is_watertight := is_watertight;
           needs_supports := needs_supports;
           analysis_method := "simplified_demo" |})
    (fun e => "Error analyzing 3D file: " ++ str e).

End Estimator.

(** *** The quote *)

(** The sections of the returned dict are records; [name] and
    [material] are qualified where two sections share a key. *)
Record quote_material : Type := {
  type : string;
  material_name : string;
  weight_g : float;
  cost : float
}.

Record quote_print_time : Type := { hours : float; minutes : float }.

Record quote_costs : Type := {
  costs_material : float;
  machine_time : float;
  post_processing : float;
  subtotal : float;
  costs_margin : float;
  total : float
}.

Record quote_parameters : Type := {
  infill_percent : float;
  layer_height_mm : float;
  includes_supports : bool
}.

Record quote : Type := {
  material : quote_material;
  print_time : quote_print_time;
  costs : quote_costs;
  parameters : quote_parameters
}.

(** The infill multiplier of [calculate_price], the first step of its
    material usage, as a function of the requested infill. *)
Definition infill_multiplier (infill : float) : result float :=
  i <- float_div infill (of_int 100) ;;
  Ok (lit (1 # 10) + i * lit (9 # 10))%F.  (* 10% minimum + infill% *)

Definition calculate_price (a : analysis) (material : string)
    (infill layer_height : float) (include_supports : option bool)
  : result quote :=
  if negb (dict_mem MATERIALS material)
  then Raise (ValueError ("Unknown material: " ++ material))
  else
    mat_props <- dict_getitem MATERIALS material ;;
    let volume_cm3 := volume_cm3 a in
    (* Auto-detect supports if not specified *)
    let include_supports :=
      match include_supports with
      | None => needs_supports a
      | Some b => b
      end in
    (* Calculate material usage *)
    infill_multiplier <- infill_multiplier infill ;;
    let effective_volume := (volume_cm3 * infill_multiplier)%F in
    (* Add support material if needed *)
    let effective_volume :=
      if include_supports
      then (effective_volume + volume_cm3 * lit (15 # 100))%F
      else effective_volume in
    (* Calculate material weight and cost *)
    let weight_g := (effective_volume * density mat_props)%F in
    weight_kg <- float_div weight_g (of_int 1000) ;;
    let material_cost := (weight_kg * price_per_kg mat_props)%F in
    (* Calculate print time *)
    let base_time_minutes :=
      (volume_cm3 * base_print_time_per_cm3 PRICING_CONFIG)%F in
    (* Apply modifiers *)
    layer_modifier <- float_div (lit (2 # 10)) layer_height ;;
    let speed_modifier := print_speed_modifier mat_props in
    let complexity_modifier :=
      (of_int 1 + complexity_factor a * lit (5 # 10))%F in
    let support_modifier :=
      if include_supports then (of_int 1 + lit (3 # 10))%F else of_int 1 in
    total_time_minutes <-
      float_div (base_time_minutes * layer_modifier *
                 complexity_modifier * support_modifier)%F speed_modifier ;;
    total_time_hours <- float_div total_time_minutes (of_int 60) ;;
    (* Calculate machine time cost *)
    let machine_cost :=
      (total_time_hours * machine_cost_per_hour PRICING_CONFIG)%F in
    (* Post-processing cost *)
    let post_processing := post_processing_base PRICING_CONFIG in
    let post_processing :=
      if include_supports
      then (post_processing +
            material_cost * support_cost_multiplier PRICING_CONFIG)%F
      else post_processing in
    (* Total before margin *)
    let subtotal := (material_cost + machine_cost + post_processing)%F in
    (* Apply margin *)
    let margin_amount := (subtotal * margin PRICING_CONFIG)%F in
    let total_price := (subtotal + margin_amount)%F in
    (* Apply minimum price *)
    let total_price := py_max total_price (minimum_price PRICING_CONFIG) in
    Ok {| material := {|
            type := material;
            material_name := name mat_props;
            weight_g := round_nd weight_g 2;
            cost := round_nd material_cost 2 |};
          print_time := {|
            hours := round_nd total_time_hours 2;
            minutes := round_nd total_time_minutes 0 |};
          costs := {|
            costs_material := round_nd material_cost 2;
            machine_time := round_nd machine_cost 2;
            post_processing := round_nd post_processing 2;
            subtotal := round_nd subtotal 2;
            costs_margin := round_nd margin_amount 2;
            total := round_nd total_price 2 |};
          parameters := {|
            infill_percent := infill;
            layer_height_mm := layer_height;
            includes_supports := include_supports |} |}.

End Pricer.

(** ** The values computed by a run of [calculate_price] *)

Module PricerValues.
Import Rounding Float Python Pricer.
Local Open Scope string_scope.

(** What the catalog guarantees of a material. *)
Record good_material (p : mat_props) : Prop := {
  density_pos : (Fin 0 < density p)%F;
  density_finite : is_finite (density p) = true;
  price_pos : (Fin 0 < price_per_kg p)%F;
  price_finite : is_finite (price_per_kg p) = true;
  speed_pos : (Fin 0 < print_speed_modifier p)%F;
  speed_finite : is_finite (print_speed_modifier p) = true
}.

(** The supports flag after auto-detection. *)
Definition resolve_supports (a : analysis) (include_supports : option bool) : bool :=
  match include_supports with
  | None => needs_supports a
  | Some b => b
  end.

(** The values of the local variables of [calculate_price] on a run
    that raises nothing. *)
Section Locals.

Variables (p : mat_props) (a : analysis) (infill layer_height : float).
Variable inc : bool.

Definition infill_multiplier_v : float :=
  (lit (1 # 10) + fquot infill (of_int 100) * lit (9 # 10))%F.

Definition effective_volume_v : float :=
  let e := (volume_cm3 a * infill_multiplier_v)%F in
  if inc then (e + volume_cm3 a * lit (15 # 100))%F else e.

Definition weight_g_v : float := (effective_volume_v * density p)%F.

Definition material_cost_v : float :=
  (fquot weight_g_v (of_int 1000) * price_per_kg p)%F.

Definition base_time_minutes_v : float :=
  (volume_cm3 a * base_print_time_per_cm3 PRICING_CONFIG)%F.

Definition layer_modifier_v : float := fquot (lit (2 # 10)) layer_height.

Definition complexity_modifier_v : float :=
  (of_int 1 + complexity_factor a * lit (5 # 10))%F.

Definition support_modifier_v : float :=
  if inc then (of_int 1 + lit (3 # 10))%F else of_int 1.

Definition total_time_minutes_v : float :=
  fquot (base_time_minutes_v * layer_modifier_v *
         complexity_modifier_v * support_modifier_v)%F
        (print_speed_modifier p).

Definition total_time_hours_v : float := fquot total_time_minutes_v (of_int 60).

Definition machine_cost_v : float :=
  (total_time_hours_v * machine_cost_per_hour PRICING_CONFIG)%F.

Definition post_processing_v : float :=
  if inc
  then (post_processing_base PRICING_CONFIG +
        material_cost_v * support_cost_multiplier PRICING_CONFIG)%F
  else post_processing_base PRICING_CONFIG.

Definition subtotal_v : float :=
  (material_cost_v + machine_cost_v + post_processing_v)%F.

Definition margin_amount_v : float := (subtotal_v * margin PRICING_CONFIG)%F.

Definition total_price_v : float :=
  py_max (subtotal_v + margin_amount_v)%F (minimum_price PRICING_CONFIG).

End Locals.

(** The time before the support modifier and the speed are applied. *)
Definition scaled_time (a : analysis) (l : float) : float :=
  (base_time_minutes_v a * layer_modifier_v l * complexity_modifier_v a)%F.

(** Fifty times the largest float: up to this size every quotient of
    the estimator is finite. *)
Definition size_bound : Z := 50 * ((2 ^ 53 - 1) * 2 ^ 971).

(** An analysis record of the given volume and complexity; the other
    fields are those of a one-centimetre cube. *)
Definition sample_analysis (volume complexity : float) (supports : bool)
  : analysis :=
  {| volume_cm3 := volume;
     surface_area_cm2 := lit 6;
     dimensions_cm :=
       {| dim_x := lit (12 # 10); dim_y := lit (8 # 10); dim_z := lit 1 |};
     face_count := 0;
     vertex_count := 0;
     complexity_factor := complexity;
     is_watertight := true;
     needs_supports := supports;
     analysis_method := "simplified_demo" |}.

Definition unit_cube : analysis := sample_analysis (lit 1) (lit 0) false.

(** The stand-in for the C library's [pow] used where a concrete run
    is evaluated; no property below depends on it. *)
Definition pow_stub (x y : float) : float := x.

End PricerValues.

(** ** The sizes for which the estimator returns *)

Module EstimatorValues.
Local Open Scope string_scope.

(** From this size on the quotient [file_size / 50] rounds to an
    infinity: 2^1024 - 2^970 is half-way between the largest float and
    2^1024, and the tie goes to 2^1024. *)
Definition size_limit : Z := 50 * (2 ^ 1024 - 2 ^ 970).

Definition overflow_message : string :=
  "integer division result too large for a float".

End EstimatorValues.

(** ** The route [/api/analyze] *)

Module Server.
Import Rounding Float Python Pricer.
Local Open Scope string_scope.

(** The only exception that leaves the handler. *)
Inductive http_exception : Type :=
| HTTPException (status_code : Z) (detail : string).

Inductive response (A : Type) : Type :=
| Return (a : A)
| RaiseHTTP (e : http_exception).
Arguments Return {A} a.
Arguments RaiseHTTP {A} e.

(** What the handler uses of the upload: its name, a [str], and the
    bytes that [file.read()] returns. *)
Record upload_file : Type := {
  upload_filename : string;
  upload_content : list Byte.byte
}.

(** The returned dict; its key [analysis] is qualified, the name being
    that of the record type. *)
Record analyze_response : Type := {
  filename : string;
  file_size_bytes : Z;
  response_analysis : analysis;
  pricing : quote;
  status : string
}.

(** The set [allowed_extensions], in the order of the source. *)
Definition allowed_extensions : list string :=
  [".stl"; ".obj"; ".ply"; ".step"; ".stp"].

(** [x in allowed_extensions] *)
Definition set_mem (x : string) (s : list string) : bool :=
  existsb (String.eqb x) s.

Section Handler.

Variable float_pow : float -> float -> float.

(** [os.path.splitext] depends on the platform and [str.lower] on the
    Unicode tables; the name of the temporary file is chosen by the
    operating system from the suffix; the order in which [join]
    iterates over the set is not fixed by Python.  The handler is
    embedded for any of them. *)
Variable splitext : string -> string * string.
Variable lower : string -> string.
Variable temporary_file_name : string -> string.
Variable iteration_order : list string -> list string.

(** The form fields are arguments.  Reading the upload and writing
    the temporary file are taken to succeed; unlinking the file in the
    [finally] clause leaves no trace in the result. *)
Definition analyze_file (file : upload_file) (material : string)
    (infill layer_height : float) (include_supports : option bool)
  : response analyze_response :=
  (* Validate file type *)
  let file_extension := snd (splitext (lower (upload_filename file))) in
  if negb (set_mem file_extension allowed_extensions)
  then RaiseHTTP (HTTPException 400
         ("Unsupported file type. Allowed: " ++
          String.concat ", " (iteration_order allowed_extensions)))
  else
    (* Create temporary file *)
    let content := upload_content file in
    let tmp_file_path := temporary_file_name file_extension in
    let len_content := Z.of_nat (List.length content) in
    match
      (* Analyze the 3D file (simplified version) *)
      analysis <- analyze_3d_file_simple float_pow tmp_file_path len_content ;;
      (* Calculate pricing *)
      pricing <- calculate_price analysis material infill layer_height
                   include_supports ;;
      Ok {| filename := upload_filename file;
            file_size_bytes := len_content;
            response_analysis := analysis;
            pricing := pricing;
            status := "success" |}
    with
    | Ok r => Return r
    | Raise (ValueError msg) => RaiseHTTP (HTTPException 400 msg)
    | Raise e => RaiseHTTP (HTTPException 500 ("Internal error: " ++ str e))
    end.

End Handler.

(** Stand-ins for the library functions where a concrete run is
    evaluated: the extension is what follows the last dot of a name
    without directories, and the name is taken to be in lower case
    already. *)
Fixpoint last_dot (s : string) : option string :=
  match s with
  | EmptyString => None
  | String c rest =>
      match last_dot rest with
      | Some ext => Some ext
      | None => if String.eqb (String c EmptyString) "." then Some s else None
      end
  end.

Definition splitext_stub (s : string) : string * string :=
  match last_dot s with
  | Some ext => (substring 0 (String.length s - String.length ext) s, ext)
  | None => (s, "")
  end.

Definition lower_stub (s : string) : string := s.
Definition temporary_file_name_stub (suffix : string) : string :=
  "/tmp/tmp0" ++ suffix.
Definition iteration_order_stub (s : list string) : list string := s.

End Server.

(** * Part II: properties *)

(** ** Rounding *)

Module RoundingFacts.
Import Rounding.

Lemma floor_bounds (q : Q) :
  inject_Z (Qfloor q) <= q /\ q < inject_Z (Qfloor q) + 1.
Proof.
  split; [apply Qfloor_le|].
  generalize (Qlt_floor q). rewrite inject_Z_plus. auto.
Qed.

Lemma round_half_even_cases (q : Q) :
  round_half_even q = Qfloor q \/ round_half_even q = (Qfloor q + 1)%Z.
Proof.
  unfold round_half_even.
  destruct (Qcompare _ _); [destruct (Z.even _)|..]; auto.
Qed.

Lemma round_half_even_mono (a b : Q) :
  a <= b -> (round_half_even a <= round_half_even b)%Z.
Proof.
  intros Hab.
  pose proof (Qfloor_resp_le _ _ Hab) as Hf.
  destruct (Z.eq_dec (Qfloor a) (Qfloor b)) as [E|N].
  - unfold round_half_even. rewrite <- E.
    destruct (Qcompare_spec (a - inject_Z (Qfloor a)) (1 # 2)) as [Ha|Ha|Ha];
      destruct (Qcompare_spec (b - inject_Z (Qfloor a)) (1 # 2)) as [Hb|Hb|Hb];
      try destruct (Z.even (Qfloor a)); try lia; exfalso; lra.
  - destruct (round_half_even_cases a) as [->| ->];
      destruct (round_half_even_cases b) as [->| ->]; lia.
Qed.

#[global] Instance round_half_even_comp : Proper (Qeq ==> eq) round_half_even.
Proof.
  intros x y E.
  assert (H1 : x <= y) by lra. assert (H2 : y <= x) by lra.
  apply round_half_even_mono in H1, H2. lia.
Qed.

Lemma round_half_even_Z (z : Z) : round_half_even (inject_Z z) = z.
Proof.
  unfold round_half_even. rewrite Qfloor_Z.
  destruct (Qcompare_spec (inject_Z z - inject_Z z) (1 # 2)) as [H|H|H];
    try reflexivity; exfalso; lra.
Qed.

Lemma round_half_even_ge (z : Z) (q : Q) :
  inject_Z z <= q -> (z <= round_half_even q)%Z.
Proof.
  intros H. pose proof (round_half_even_mono _ _ H) as M.
  now rewrite round_half_even_Z in M.
Qed.

Lemma round_half_even_le (z : Z) (q : Q) :
  q <= inject_Z z -> (round_half_even q <= z)%Z.
Proof.
  intros H. pose proof (round_half_even_mono _ _ H) as M.
  now rewrite round_half_even_Z in M.
Qed.

(** *** Quotients of rationals *)

Lemma Qdiv_le_mono_l (a b c : Q) : 0 < c -> a <= b -> a / c <= b / c.
Proof.
  intros Hc H. unfold Qdiv. apply Qmult_le_compat_r; [assumption|].
  apply Qlt_le_weak, Qinv_lt_0_compat, Hc.
Qed.

Lemma Qdiv_le_anti_r (c a b : Q) : 0 <= c -> 0 < a -> a <= b -> c / b <= c / a.
Proof.
  intros Hc Ha H. apply Qle_shift_div_l; [assumption|].
  assert (E : c / b * a == c * (a / b)) by (field; lra).
  assert (B : a / b <= 1) by (apply Qle_shift_div_r; lra).
  assert (B0 : 0 <= a / b) by (apply Qle_shift_div_l; lra).
  rewrite E. nra.
Qed.

Lemma Qdiv_nonneg (a b : Q) : 0 <= a -> 0 < b -> 0 <= a / b.
Proof. intros Ha Hb. apply Qle_shift_div_l; lra. Qed.

(** *** Powers of two *)

Lemma pow2_pos (k : Z) : 0 < 2 ^ k.
Proof. apply Qpower_0_lt. reflexivity. Qed.

Lemma pow2_add (a b : Z) : 2 ^ (a + b) == 2 ^ a * 2 ^ b.
Proof. apply Qpower_plus. discriminate. Qed.

Lemma pow2_succ (k : Z) : 2 ^ (k + 1) == 2 * 2 ^ k.
Proof. rewrite pow2_add. change (2 ^ 1) with 2. ring. Qed.

Lemma pow2_le (a b : Z) : (a <= b)%Z -> 2 ^ a <= 2 ^ b.
Proof. intros H. apply Qpower_le_compat_l; [assumption|discriminate]. Qed.

Lemma pow2_lt_inv (a b : Z) : 2 ^ a < 2 ^ b -> (a < b)%Z.
Proof. intros H. apply (Qpower_lt_compat_l_inv 2); [assumption|reflexivity]. Qed.

Lemma pow2_inject (k : Z) : (0 <= k)%Z -> inject_Z (2 ^ k) == 2 ^ k.
Proof. intros H. now rewrite Zpower_Qpower. Qed.

(** *** The binary logarithm *)

Lemma ilog2_spec (q : Q) :
  0 < q -> 2 ^ ilog2 q <= q /\ q < 2 ^ (ilog2 q + 1).
Proof.
  intros Hq. unfold ilog2.
  destruct q as [n d]. cbn [Qnum Qden].
  assert (Hn : (0 < n)%Z) by (unfold Qlt in Hq; cbn in Hq; lia).
  set (a := Z.log2 n). set (b := Z.log2 (Zpos d)).
  destruct (Z.log2_spec n Hn) as [Ha1 Ha2]. fold a in Ha1, Ha2.
  destruct (Z.log2_spec (Zpos d) eq_refl) as [Hb1 Hb2]. fold b in Hb1, Hb2.
  assert (Ha0 : (0 <= a)%Z) by apply Z.log2_nonneg.
  assert (Hb0 : (0 <= b)%Z) by apply Z.log2_nonneg.
  assert (A1 : 2 ^ a <= inject_Z n).
  { rewrite <- pow2_inject by assumption. now rewrite <- Zle_Qle. }
  assert (A2 : inject_Z n < 2 * 2 ^ a).
  { rewrite <- pow2_succ, <- pow2_inject by lia. rewrite <- Zlt_Qlt.
    now rewrite <- Z.add_1_r in Ha2. }
  assert (B1 : 2 ^ b <= inject_Z (Zpos d)).
  { rewrite <- pow2_inject by assumption. now rewrite <- Zle_Qle. }
  assert (B2 : inject_Z (Zpos d) < 2 * 2 ^ b).
  { rewrite <- pow2_succ, <- pow2_inject by lia. rewrite <- Zlt_Qlt.
    now rewrite <- Z.add_1_r in Hb2. }
  pose proof (pow2_pos a) as Pa. pose proof (pow2_pos b) as Pb.
  pose proof (pow2_pos (a - b)) as Pk.
  assert (K : 2 ^ a == 2 ^ (a - b) * 2 ^ b).
  { rewrite <- pow2_add. now replace (a - b + b)%Z with a by ring. }
  assert (D : 0 < inject_Z (Zpos d)) by lra.
  assert (Q1 : n # d == inject_Z n / inject_Z (Zpos d)) by apply Qmake_Qdiv.
  assert (U : n # d < 2 * 2 ^ (a - b)).
  { rewrite Q1. apply Qlt_shift_div_r; [assumption|]. nra. }
  assert (L : 2 ^ (a - b) * (1 # 2) < n # d).
  { rewrite Q1. apply Qlt_shift_div_l; [assumption|]. nra. }
  destruct (Qle_bool (2 ^ (a - b)) (n # d)) eqn:E.
  - apply Qle_bool_iff in E. split; [assumption|]. now rewrite pow2_succ.
  - assert (E' : n # d < 2 ^ (a - b)).
    { apply Qnot_le_lt. intros C. apply Qle_bool_iff in C. congruence. }
    replace (a - b - 1 + 1)%Z with (a - b)%Z by ring.
    split; [|assumption].
    assert (S : 2 ^ (a - b) == 2 * 2 ^ (a - b - 1)).
    { rewrite <- pow2_succ. now replace (a - b - 1 + 1)%Z with (a - b)%Z by ring. }
    pose proof (pow2_pos (a - b - 1)). lra.
Qed.

Lemma ilog2_mono (a b : Q) : 0 < a -> a <= b -> (ilog2 a <= ilog2 b)%Z.
Proof.
  intros Ha Hab.
  destruct (ilog2_spec a Ha) as [La _].
  destruct (ilog2_spec b) as [_ Ub]; [lra|].
  assert (H : 2 ^ ilog2 a < 2 ^ (ilog2 b + 1)) by lra.
  apply pow2_lt_inv in H. lia.
Qed.

Lemma cexp_mono (a b : Q) : 0 < a -> a <= b -> (cexp a <= cexp b)%Z.
Proof.
  intros Ha Hab. unfold cexp. pose proof (ilog2_mono a b Ha Hab). lia.
Qed.

(** *** Rounding of a positive rational is monotone *)

Lemma round_pos_mono (a b : Q) : 0 < a -> a <= b -> round_pos a <= round_pos b.
Proof.
  intros Ha Hab. assert (Hb : 0 < b) by lra.
  pose proof (cexp_mono a b Ha Hab) as He.
  unfold round_pos.
  set (ea := cexp a) in *. set (eb := cexp b) in *.
  pose proof (pow2_pos ea) as Pa. pose proof (pow2_pos eb) as Pb.
  destruct (Z.eq_dec ea eb) as [E|N].
  - rewrite <- E. apply Qmult_le_compat_r; [|lra].
    rewrite <- Zle_Qle. apply round_half_even_mono.
    apply Qle_shift_div_l; [assumption|].
    rewrite Qmult_comm, Qmult_div_r; [assumption|lra].
  - assert (Hlt : (ea + 1 <= eb)%Z) by lia.
    assert (Ua : inject_Z (round_half_even (a / 2 ^ ea)) <= 2 ^ 53).
    { rewrite <- (pow2_inject 53) by lia. rewrite <- Zle_Qle.
      apply round_half_even_le. rewrite pow2_inject by lia.
      apply Qle_shift_div_r; [assumption|].
      destruct (ilog2_spec a Ha) as [_ U].
      assert (2 ^ (ilog2 a + 1) <= 2 ^ (53 + ea)).
      { apply pow2_le. unfold ea, cexp. lia. }
      rewrite (pow2_add 53 ea) in H. lra. }
    assert (Lb : 2 ^ 52 <= inject_Z (round_half_even (b / 2 ^ eb))).
    { rewrite <- (pow2_inject 52) by lia. rewrite <- Zle_Qle.
      apply round_half_even_ge. rewrite pow2_inject by lia.
      apply Qle_shift_div_l; [assumption|].
      destruct (ilog2_spec b Hb) as [L _].
      assert (Eb : eb = (ilog2 b - 52)%Z).
      { unfold eb, cexp in *. fold ea in Hlt.
        assert (-1074 <= ea)%Z by (unfold ea, cexp; lia). lia. }
      assert (2 ^ (52 + eb) == 2 ^ ilog2 b).
      { rewrite Eb. now replace (52 + (ilog2 b - 52))%Z with (ilog2 b) by ring. }
      rewrite (pow2_add 52 eb) in H. lra. }
    assert (Hp : 2 ^ 53 * 2 ^ ea <= 2 ^ 52 * 2 ^ eb).
    { rewrite <- !pow2_add. apply pow2_le. lia. }
    set (x := inject_Z (round_half_even (a / 2 ^ ea))) in *.
    set (y := inject_Z (round_half_even (b / 2 ^ eb))) in *.
    assert (x * 2 ^ ea <= 2 ^ 53 * 2 ^ ea) by (apply Qmult_le_compat_r; lra).
    assert (2 ^ 52 * 2 ^ eb <= y * 2 ^ eb) by (apply Qmult_le_compat_r; lra).
    lra.
Qed.

(** *** Rounding fixes the numbers of the format *)

Lemma ilog2_lt (q : Q) (k : Z) : 0 < q -> q < 2 ^ k -> (ilog2 q < k)%Z.
Proof.
  intros Hq H. destruct (ilog2_spec q Hq) as [L _].
  apply pow2_lt_inv. lra.
Qed.

Lemma round_pos_mantissa (q : Q) :
  0 < q -> (round_half_even (q / 2 ^ cexp q) <= 2 ^ 53)%Z.
Proof.
  intros Hq. apply round_half_even_le. rewrite pow2_inject by lia.
  apply Qle_shift_div_r; [apply pow2_pos|].
  destruct (ilog2_spec q Hq) as [_ U].
  assert (H : 2 ^ (ilog2 q + 1) <= 2 ^ (53 + cexp q)).
  { apply pow2_le. unfold cexp. lia. }
  rewrite (pow2_add 53 (cexp q)) in H. lra.
Qed.

Lemma cexp_ge (q : Q) : (-1074 <= cexp q)%Z.
Proof. unfold cexp. lia. Qed.

(** A number [m * 2^e] with [0 < m < 2^53] and [e >= -1074] is its
    own rounding. *)
Lemma round_pos_fixed (v : Q) (m e : Z) :
  (0 < m < 2 ^ 53)%Z -> (-1074 <= e)%Z -> v == inject_Z m * 2 ^ e ->
  round_pos v == v.
Proof.
  intros Hm He Hv.
  pose proof (pow2_pos e) as Pe.
  assert (M0 : 0 < inject_Z m).
  { change 0 with (inject_Z 0). rewrite <- Zlt_Qlt. lia. }
  assert (M1 : inject_Z m < 2 ^ 53).
  { rewrite <- pow2_inject by lia. rewrite <- Zlt_Qlt. lia. }
  assert (V0 : 0 < v) by (rewrite Hv; nra).
  assert (Hc : (cexp v <= e)%Z).
  { assert (ilog2 v < 53 + e)%Z; [|unfold cexp; lia].
    apply ilog2_lt; [assumption|]. rewrite pow2_add, Hv. nra. }
  unfold round_pos. set (c := cexp v) in *.
  pose proof (pow2_pos c) as Pc.
  assert (S : 2 ^ e == 2 ^ (e - c) * 2 ^ c).
  { rewrite <- pow2_add. now replace (e - c + c)%Z with e by ring. }
  assert (D : v / 2 ^ c == inject_Z (m * 2 ^ (e - c))).
  { rewrite inject_Z_mult, pow2_inject by lia.
    rewrite Hv, S. field. lra. }
  rewrite D, round_half_even_Z, inject_Z_mult, pow2_inject by lia.
  rewrite Hv, S. ring.
Qed.

Lemma round_pos_idem (q v : Q) :
  0 < q -> v == round_pos q -> round_pos v == v.
Proof.
  intros Hq Hv.
  pose proof (round_pos_mantissa q Hq) as Um.
  pose proof (cexp_ge q) as He.
  assert (Lm : (0 <= round_half_even (q / 2 ^ cexp q))%Z).
  { apply round_half_even_ge. change (inject_Z 0) with 0.
    apply Qle_shift_div_l; [apply pow2_pos|]. lra. }
  unfold round_pos in Hv.
  set (m := round_half_even (q / 2 ^ cexp q)) in *.
  set (e := cexp q) in *.
  assert (C : (m = 0 \/ 0 < m < 2 ^ 53 \/ m = 2 ^ 53)%Z) by lia.
  destruct C as [C|[C|C]].
  - rewrite C in Hv. change (inject_Z 0) with 0 in Hv.
    assert (V0 : v == 0) by (rewrite Hv; ring).
    unfold round_pos.
    assert (K : v / 2 ^ cexp v == inject_Z 0).
    { generalize (2 ^ cexp v). intros d.
      change (inject_Z 0) with 0. unfold Qdiv. rewrite V0. ring. }
    rewrite K, round_half_even_Z. change (inject_Z 0) with 0.
    rewrite Qmult_0_l. now symmetry.
  - now apply (round_pos_fixed _ m e).
  - apply (round_pos_fixed _ (2 ^ 52) (e + 1)); [lia|lia|].
    rewrite Hv, C, pow2_succ.
    change (inject_Z (2 ^ 53)) with (2 * inject_Z (2 ^ 52)).
    ring.
Qed.

Lemma round_pos_nonneg (q : Q) : 0 < q -> 0 <= round_pos q.
Proof.
  intros Hq. unfold round_pos. pose proof (pow2_pos (cexp q)) as P.
  apply Qmult_le_0_compat; [|lra].
  change 0 with (inject_Z 0). rewrite <- Zle_Qle.
  apply round_half_even_ge. change (inject_Z 0) with 0.
  apply Qle_shift_div_l; [assumption|]. lra.
Qed.

End RoundingFacts.

(** ** Order and monotonicity of the float operations *)

Module FloatFacts.
Import Rounding RoundingFacts Float.

(** *** Boolean tests on rationals *)

Lemma Qle_bool_false (a b : Q) : Qle_bool a b = false <-> b < a.
Proof.
  split; intros H.
  - apply Qnot_le_lt. intros C. apply Qle_bool_iff in C. congruence.
  - destruct (Qle_bool a b) eqn:E; [|reflexivity].
    apply Qle_bool_iff in E. lra.
Qed.

Lemma Qeq_bool_false (a b : Q) : Qeq_bool a b = false <-> ~ a == b.
Proof.
  split; intros H.
  - now apply Qeq_bool_neq.
  - destruct (Qeq_bool a b) eqn:E; [|reflexivity].
    apply Qeq_bool_iff in E. contradiction.
Qed.

(** Turn the boolean tests of the context and of the goal into
    propositions on rationals. *)
Ltac qprop :=
  unfold Qneg_bool in *;
  repeat match goal with
  | H : negb _ = true |- _ => apply negb_true_iff in H
  | H : negb _ = false |- _ => apply negb_false_iff in H
  | H : Qle_bool _ _ = true |- _ => apply Qle_bool_iff in H
  | H : Qle_bool _ _ = false |- _ => apply Qle_bool_false in H
  | H : Qeq_bool _ _ = true |- _ => apply Qeq_bool_iff in H
  | H : Qeq_bool _ _ = false |- _ => apply Qeq_bool_false in H
  | |- negb _ = true => apply negb_true_iff
  | |- negb _ = false => apply negb_false_iff
  | |- Qle_bool _ _ = true => apply Qle_bool_iff
  | |- Qle_bool _ _ = false => apply Qle_bool_false
  | |- Qeq_bool _ _ = true => apply Qeq_bool_iff
  | |- Qeq_bool _ _ = false => apply Qeq_bool_false
  end.

(** Case analysis on every float of the context. *)
Ltac fcases :=
  repeat match goal with
  | x : float |- _ => destruct x as [|[|]|?]
  end;
  cbn [fle flt fgt fge fadd fmul fquot fneg is_nan is_finite is_zero round_nd
       Bool.eqb xorb negb] in *;
  try discriminate; try reflexivity.

(** *** The order *)

Lemma fle_not_nan (x y : float) : (x <= y)%F -> is_nan x = false /\ is_nan y = false.
Proof. intros H. fcases; auto. Qed.

Lemma flt_not_nan (x y : float) : (x < y)%F -> is_nan x = false /\ is_nan y = false.
Proof. intros H. fcases; auto. Qed.

Lemma fle_refl (x : float) : is_nan x = false -> (x <= x)%F.
Proof. intros H. fcases. qprop. lra. Qed.

Lemma fle_trans (x y z : float) : (x <= y)%F -> (y <= z)%F -> (x <= z)%F.
Proof. intros H1 H2. fcases. qprop. lra. Qed.

Lemma flt_fle (x y : float) : (x < y)%F -> (x <= y)%F.
Proof. intros H. fcases. qprop. lra. Qed.

Lemma flt_fle_trans (x y z : float) : (x < y)%F -> (y <= z)%F -> (x < z)%F.
Proof. intros H1 H2. fcases. qprop. lra. Qed.

Lemma fle_flt_trans (x y z : float) : (x <= y)%F -> (y < z)%F -> (x < z)%F.
Proof. intros H1 H2. fcases. qprop. lra. Qed.

Lemma flt_false_fle (x y : float) :
  flt x y = false -> is_nan x = false -> is_nan y = false -> (y <= x)%F.
Proof. intros H Hx Hy. fcases. qprop. lra. Qed.

Lemma fle_false_flt (x y : float) :
  fle x y = false -> is_nan x = false -> is_nan y = false -> (y < x)%F.
Proof. intros H Hx Hy. fcases. qprop. lra. Qed.

Lemma flt_irrefl_le (x y : float) : (x <= y)%F -> flt y x = false.
Proof. intros H. fcases. qprop. lra. Qed.

(** *** [round64] is monotone *)

Lemma clamp_not_nan (s : bool) (v : Q) : is_nan (clamp s v) = false.
Proof. unfold clamp. now destruct (Qle_bool _ _). Qed.

Lemma clamp_pos_mono (u v : Q) : u <= v -> (clamp false u <= clamp false v)%F.
Proof.
  intros H. unfold clamp.
  destruct (Qle_bool (2 ^ 1024) u) eqn:Eu, (Qle_bool (2 ^ 1024) v) eqn:Ev;
    cbn [fle]; try reflexivity; qprop; [lra|].
  rewrite !Qred_correct. assumption.
Qed.

Lemma clamp_neg_mono (u v : Q) : u <= v -> (clamp true v <= clamp true u)%F.
Proof.
  intros H. unfold clamp.
  destruct (Qle_bool (2 ^ 1024) u) eqn:Eu, (Qle_bool (2 ^ 1024) v) eqn:Ev;
    cbn [fle]; try reflexivity; qprop; [lra|].
  rewrite !Qred_correct. lra.
Qed.

Lemma clamp_pos_nonneg (v : Q) : 0 <= v -> (Fin 0 <= clamp false v)%F.
Proof.
  intros H. unfold clamp. destruct (Qle_bool _ _); cbn [fle]; [reflexivity|].
  qprop. now rewrite Qred_correct.
Qed.

Lemma clamp_neg_nonpos (v : Q) : 0 <= v -> (clamp true v <= Fin 0)%F.
Proof.
  intros H. unfold clamp. destruct (Qle_bool _ _); cbn [fle]; [reflexivity|].
  qprop. rewrite Qred_correct. lra.
Qed.

Lemma round64_not_nan (q : Q) : is_nan (round64 q) = false.
Proof.
  unfold round64. destruct (Qcompare q 0); auto using clamp_not_nan.
Qed.

Lemma round64_nonneg (q : Q) : 0 <= q -> (Fin 0 <= round64 q)%F.
Proof.
  intros H. unfold round64.
  destruct (Qcompare_spec q 0) as [E|E|E]; [reflexivity|lra|].
  apply clamp_pos_nonneg. now apply round_pos_nonneg.
Qed.

Lemma round64_nonpos (q : Q) : q <= 0 -> (round64 q <= Fin 0)%F.
Proof.
  intros H. unfold round64.
  destruct (Qcompare_spec q 0) as [E|E|E]; [reflexivity| |lra].
  apply clamp_neg_nonpos. apply round_pos_nonneg. lra.
Qed.

Theorem round64_mono (a b : Q) : a <= b -> (round64 a <= round64 b)%F.
Proof.
  intros H.
  destruct (Qlt_le_dec 0 a) as [Ha|Ha].
  - unfold round64.
    destruct (Qcompare_spec a 0) as [E|E|E]; try lra.
    destruct (Qcompare_spec b 0) as [E'|E'|E']; try lra.
    apply clamp_pos_mono. now apply round_pos_mono.
  - destruct (Qlt_le_dec b 0) as [Hb|Hb].
    + unfold round64.
      destruct (Qcompare_spec a 0) as [E|E|E]; try lra.
      destruct (Qcompare_spec b 0) as [E'|E'|E']; try lra.
      apply clamp_neg_mono. apply round_pos_mono; lra.
    + apply fle_trans with (Fin 0);
        [now apply round64_nonpos | now apply round64_nonneg].
Qed.

Lemma fle_round64_pinf (q : Q) : (round64 q <= Inf false)%F.
Proof. pose proof (round64_not_nan q). now destruct (round64 q) as [|[|]|]. Qed.

Lemma fle_minf_round64 (q : Q) : (Inf true <= round64 q)%F.
Proof. pose proof (round64_not_nan q). now destruct (round64 q) as [|[|]|]. Qed.

(** *** Rounding fixes the numbers of the format *)

Lemma clamp_binary64 (s : bool) (q : Q) :
  0 < q -> is_binary64 (clamp s (round_pos q)) = true.
Proof.
  intros Hq. unfold clamp.
  destruct (Qle_bool (2 ^ 1024) (round_pos q)) eqn:E; [reflexivity|].
  apply Qle_bool_false in E.
  pose proof (round_pos_nonneg q Hq) as R0.
  set (R := round_pos q) in *.
  cbn [is_binary64]. unfold round64.
  destruct s.
  - assert (V : Qred (- R) == - R) by apply Qred_correct.
    destruct (Qcompare_spec (Qred (- R)) 0) as [C|C|C].
    + qprop. lra.
    + assert (F : round_pos (- Qred (- R)) == - Qred (- R)).
      { apply (round_pos_idem q); [assumption|]. fold R. lra. }
      unfold clamp.
      destruct (Qle_bool (2 ^ 1024) (round_pos (- Qred (- R)))) eqn:E';
        [qprop; lra|].
      qprop. rewrite Qred_correct. lra.
    + lra.
  - assert (V : Qred R == R) by apply Qred_correct.
    destruct (Qcompare_spec (Qred R) 0) as [C|C|C].
    + qprop. lra.
    + lra.
    + assert (F : round_pos (Qred R) == Qred R).
      { apply (round_pos_idem q); [assumption|]. fold R. lra. }
      unfold clamp.
      destruct (Qle_bool (2 ^ 1024) (round_pos (Qred R))) eqn:E';
        [qprop; lra|].
      qprop. rewrite Qred_correct. lra.
Qed.

Theorem round64_binary64 (q : Q) : is_binary64 (round64 q) = true.
Proof.
  unfold round64.
  destruct (Qcompare_spec q 0) as [C|C|C].
  - reflexivity.
  - apply clamp_binary64. lra.
  - now apply clamp_binary64.
Qed.

Lemma binary64_round (q : Q) :
  is_binary64 (Fin q) = true ->
  (Fin q <= round64 q)%F /\ (round64 q <= Fin q)%F.
Proof.
  cbn [is_binary64]. destruct (round64 q) as [|s|r]; try discriminate.
  intros H. cbn [fle]. qprop. split; qprop; lra.
Qed.

(** *** The operations are monotone *)

(** Split on the tests left in a goal after [fcases]. *)
Ltac ftest_eq a b :=
  let E := fresh "E" in
  destruct (Qeq_bool a b) eqn:E;
  [apply Qeq_bool_iff in E | apply Qeq_bool_false in E].

Ltac ftest_neg a :=
  let E := fresh "E" in
  destruct (Qneg_bool a) eqn:E; unfold Qneg_bool in E;
  [apply negb_true_iff, Qle_bool_false in E
  |apply negb_false_iff, Qle_bool_iff in E].

Ltac ftests :=
  repeat match goal with
  | H : context [Qeq_bool ?a ?b] |- _ => ftest_eq a b
  | |- context [Qeq_bool ?a ?b] => ftest_eq a b
  | H : context [Qneg_bool ?a] |- _ => ftest_neg a
  | |- context [Qneg_bool ?a] => ftest_neg a
  end;
  cbn [fle flt is_nan is_finite xorb negb] in *;
  try discriminate; try reflexivity;
  try apply fle_round64_pinf; try apply fle_minf_round64.

Ltac fmono :=
  fcases; ftests; try (exfalso; qprop; lra);
  try (apply round64_mono); try (apply round64_nonneg);
  try (apply round64_nonpos); qprop;
  try lra; try nra;
  try (apply Qdiv_le_mono_l; lra);
  try (apply Qdiv_le_anti_r; lra);
  try (apply Qdiv_nonneg; lra).

Lemma fadd_mono (x x' y y' : float) :
  (x <= x')%F -> (y <= y')%F ->
  is_nan (x + y) = false -> is_nan (x' + y') = false ->
  (x + y <= x' + y')%F.
Proof. intros H1 H2 N1 N2. fmono. Qed.

(** Adding a finite number never yields NaN. *)
Lemma fadd_mono_l (c x x' : float) :
  is_finite c = true -> (x <= x')%F -> (c + x <= c + x')%F.
Proof. intros H0 H1. fmono. Qed.

Lemma fadd_mono_r (c x x' : float) :
  is_finite c = true -> (x <= x')%F -> (x + c <= x' + c)%F.
Proof. intros H0 H1. fmono. Qed.

Lemma fadd_mono_nonneg (x x' y y' : float) :
  (Fin 0 <= x)%F -> (x <= x')%F -> (Fin 0 <= y)%F -> (y <= y')%F ->
  (x + y <= x' + y')%F.
Proof. intros H1 H2 H3 H4. fmono. Qed.

Lemma fadd_nonneg (x y : float) :
  (Fin 0 <= x)%F -> (Fin 0 <= y)%F -> (Fin 0 <= x + y)%F.
Proof. intros H1 H2. fmono. Qed.

(** Multiplication by a positive finite constant, for operands of
    either sign. *)
Lemma fmul_mono_l (c x x' : float) :
  (Fin 0 < c)%F -> is_finite c = true -> (x <= x')%F -> (c * x <= c * x')%F.
Proof. intros H0 H1 H. fmono. Qed.

Lemma fmul_mono_r (c x x' : float) :
  (Fin 0 < c)%F -> is_finite c = true -> (x <= x')%F -> (x * c <= x' * c)%F.
Proof. intros H0 H1 H. fmono. Qed.

(** Multiplication of non-negative operands; the product [0 * inf] is
    excluded by asking the smaller operands to be positive. *)
Lemma fmul_mono_pos (x x' y y' : float) :
  (Fin 0 < x)%F -> (x <= x')%F -> (Fin 0 < y)%F -> (y <= y')%F ->
  (x * y <= x' * y')%F.
Proof. intros H1 H2 H3 H4. fmono. Qed.

(** A non-negative, possibly infinite, left operand and a positive
    finite right one. *)
Lemma fmul_mono_nonneg_r (x y y' : float) :
  (Fin 0 <= x)%F -> (Fin 0 < y)%F -> (y <= y')%F -> is_finite y' = true ->
  (x * y <= x * y')%F.
Proof. intros H1 H2 H3 H4. fmono. Qed.

Lemma fmul_nonneg (x y : float) :
  (Fin 0 <= x)%F -> (Fin 0 < y)%F -> is_finite y = true ->
  (Fin 0 <= x * y)%F.
Proof. intros H1 H2 H3. fmono. Qed.

(** Quotient by a positive finite constant. *)
Lemma fquot_mono_l (c x x' : float) :
  (Fin 0 < c)%F -> is_finite c = true -> (x <= x')%F ->
  (fquot x c <= fquot x' c)%F.
Proof. intros H0 H1 H. fmono. Qed.

(** A non-negative finite dividend over a positive divisor. *)
Lemma fquot_anti_r (c y y' : float) :
  (Fin 0 <= c)%F -> is_finite c = true -> (Fin 0 < y)%F -> (y <= y')%F ->
  (fquot c y' <= fquot c y)%F.
Proof. intros H0 H1 H2 H. fmono. Qed.

Lemma fquot_nonneg (x c : float) :
  (Fin 0 <= x)%F -> (Fin 0 < c)%F -> is_finite c = true ->
  (Fin 0 <= fquot x c)%F.
Proof. intros H0 H1 H2. fmono. Qed.

(** The results of the operations are numbers of the format. *)
Lemma fadd_binary64 (x y : float) : is_binary64 (x + y) = true.
Proof. fcases; apply round64_binary64. Qed.

Lemma fmul_binary64 (x y : float) : is_binary64 (x * y) = true.
Proof. fcases; ftests; apply round64_binary64. Qed.

Lemma fquot_binary64 (x y : float) : is_binary64 (fquot x y) = true.
Proof. fcases; apply round64_binary64. Qed.

(** Adding a non-negative number to a number of the format does not
    decrease it. *)
Lemma fadd_ge_l (x y : float) :
  is_binary64 x = true -> (Fin 0 <= x)%F -> (Fin 0 <= y)%F -> (x <= x + y)%F.
Proof.
  intros B Hx Hy. destruct x as [|[|]|a]; try discriminate.
  - now destruct y as [|[|]|b].
  - destruct y as [|[|]|b]; try discriminate; [reflexivity|].
    cbn [fadd]. destruct (binary64_round a B) as [L _].
    apply fle_trans with (round64 a); [assumption|].
    apply round64_mono. cbn [fle] in Hy. qprop. lra.
Qed.

(** Between two finite bounds a float is finite. *)
Lemma fle_finite (x lo hi : float) :
  is_finite lo = true -> is_finite hi = true ->
  (lo <= x)%F -> (x <= hi)%F -> is_finite x = true.
Proof. intros F1 F2 H1 H2. fcases. Qed.

Lemma round_nd_mono (x y : float) (n : Z) :
  (0 <= n)%Z -> (x <= y)%F -> (round_nd x n <= round_nd y n)%F.
Proof.
  intros Hn H.
  assert (P : 0 < inject_Z (10 ^ n)).
  { change 0 with (inject_Z 0). rewrite <- Zlt_Qlt. now apply Z.pow_pos_nonneg. }
  fcases; ftests.
  apply round64_mono. qprop.
  apply Qmult_le_compat_r; [|apply Qlt_le_weak, Qinv_lt_0_compat, P].
  rewrite <- Zle_Qle. apply round_half_even_mono.
  apply Qmult_le_compat_r; lra.
Qed.

End FloatFacts.

(** ** Agreement with the reference operations *)

Module ReferenceFacts.
Import Rounding Float Reference.

Example samples_binary64 : forallb is_binary64 samples = true.
Proof. vm_compute. reflexivity. Qed.

Example samples_roundtrip :
  forallb (fun x => same (of_spec (to_spec x)) x) samples = true.
Proof. vm_compute. reflexivity. Qed.

(** Sum, product, quotient and comparisons agree with [SFadd], [SFmul],
    [SFdiv], [SFleb] and [SFltb] on every pair of samples. *)
Example operations_agree :
  forallb (fun x => forallb (agree x) samples) samples = true.
Proof. vm_compute. reflexivity. Qed.

(** The literals are the usual binary64 numbers. *)
Example lit_one : lit 1 = Fin 1.
Proof. vm_compute. reflexivity. Qed.

Example lit_tenth : lit (1 # 10) = Fin (3602879701896397 # 36028797018963968).
Proof. vm_compute. reflexivity. Qed.

(** [FMAX] is the largest finite number: half an ulp above it rounds
    to infinity, anything less rounds back to it. *)
Example round64_overflow :
  round64 (2 ^ 1024 - 2 ^ 970) = Inf false /\
  round64 (2 ^ 1024 - 2 ^ 970 - 1) = FMAX.
Proof. split; vm_compute; reflexivity. Qed.

(** The least subnormal is 2^-1074; half of it rounds to zero. *)
Example round64_underflow :
  round64 (2 ^ (-1074)) = Fin (Qred (2 ^ (-1074))) /\
  round64 (2 ^ (-1075)) = Fin 0 /\
  (Fin 0 < round64 (3 * 2 ^ (-1076)))%F.
Proof. repeat split; vm_compute; reflexivity. Qed.

(** Python's [round]: [round(2.675, 2)] is 2.67 because the float is
    below 2.675; exact ties go to the even digit. *)
Example round_nd_python :
  round_nd (lit (2675 # 1000)) 2 = lit (267 # 100) /\
  round_nd (lit (125 # 1000)) 2 = lit (12 # 100) /\
  round_nd (lit (375 # 1000)) 2 = lit (38 # 100) /\
  round_nd (lit (5 # 10)) 0 = Fin 0 /\
  round_nd (lit (15 # 10)) 0 = lit 2 /\
  round_nd (lit (25 # 10)) 0 = lit 2 /\
  round_nd NaN 2 = NaN /\ round_nd (Inf false) 2 = Inf false.
Proof. repeat split; vm_compute; reflexivity. Qed.

End ReferenceFacts.

(** ** The Python operations *)

Module PythonFacts.
Import Rounding RoundingFacts Float FloatFacts Python.

Lemma Ok_inj {A : Type} (a b : A) : Ok a = Ok b -> a = b.
Proof. intros E. now injection E. Qed.

Lemma float_div_ok (x y : float) :
  is_zero y = false -> float_div x y = Ok (fquot x y).
Proof. unfold float_div. now intros ->. Qed.

Lemma float_div_zero (x y : float) :
  is_zero y = true ->
  float_div x y = Raise (ZeroDivisionError "float division by zero").
Proof. unfold float_div. now intros ->. Qed.

Lemma flt_pos_not_zero (y : float) : (Fin 0 < y)%F -> is_zero y = false.
Proof. intros H. fcases. qprop. lra. Qed.

Lemma py_max_ge_l (a b : float) : is_nan a = false -> (a <= py_max a b)%F.
Proof.
  intros Ha. unfold py_max, fgt. destruct (flt a b) eqn:E.
  - now apply flt_fle.
  - now apply fle_refl.
Qed.

Lemma py_max_mono_l (a a' b : float) :
  (a <= a')%F -> is_nan b = false -> (py_max a b <= py_max a' b)%F.
Proof.
  intros H Hb. unfold py_max, fgt.
  destruct (flt a b) eqn:E, (flt a' b) eqn:E'.
  - now apply fle_refl.
  - apply flt_false_fle; auto. now destruct (fle_not_nan _ _ H).
  - exfalso. pose proof (fle_flt_trans _ _ _ H E'). congruence.
  - assumption.
Qed.

Lemma py_min_le_l (a b : float) : is_nan a = false -> (py_min a b <= a)%F.
Proof.
  intros Ha. unfold py_min. destruct (flt b a) eqn:E.
  - now apply flt_fle.
  - now apply fle_refl.
Qed.

End PythonFacts.

(** ** Running [calculate_price] *)

Module PricerRun.
Import Rounding RoundingFacts Float FloatFacts Python PythonFacts Pricer PricerValues.
Local Open Scope string_scope.

Ltac fconst := vm_compute; reflexivity.

Lemma MATERIALS_good (m : string) (p : mat_props) :
  dict_get MATERIALS m = Some p -> good_material p.
Proof.
  unfold MATERIALS. cbn [dict_get].
  repeat (destruct (String.eqb m _);
          [intros E; injection E as <-; split; fconst|]).
  discriminate.
Qed.

Lemma dict_mem_get {V : Type} (d : dict V) (key : string) :
  dict_mem d key = true -> exists v, dict_get d key = Some v.
Proof. unfold dict_mem. destruct (dict_get d key); [eauto|discriminate]. Qed.



Lemma infill_multiplier_run (infill : float) :
  infill_multiplier infill = Ok (infill_multiplier_v infill).
Proof.
  unfold infill_multiplier. rewrite float_div_ok by fconst. reflexivity.
Qed.

(** A run on a catalog material and a layer height that is not zero
    returns the quote built from these values. *)
Lemma calculate_price_run (a : analysis) (m : string) (infill lh : float)
    (s : option bool) (p : mat_props) :
  dict_get MATERIALS m = Some p -> is_zero lh = false ->
  let inc := resolve_supports a s in
  calculate_price a m infill lh s =
  Ok {| material := {|
          type := m;
          material_name := name p;
          weight_g := round_nd (weight_g_v p a infill inc) 2;
          cost := round_nd (material_cost_v p a infill inc) 2 |};
        print_time := {|
          hours := round_nd (total_time_hours_v p a lh inc) 2;
          minutes := round_nd (total_time_minutes_v p a lh inc) 0 |};
        costs := {|
          costs_material := round_nd (material_cost_v p a infill inc) 2;
          machine_time := round_nd (machine_cost_v p a lh inc) 2;
          post_processing := round_nd (post_processing_v p a infill inc) 2;
          subtotal := round_nd (subtotal_v p a infill lh inc) 2;
          costs_margin := round_nd (margin_amount_v p a infill lh inc) 2;
          total := round_nd (total_price_v p a infill lh inc) 2 |};
        parameters := {|
          infill_percent := infill;
          layer_height_mm := lh;
          includes_supports := inc |} |}.
Proof.
  intros Hm Hlh inc.
  pose proof (MATERIALS_good m p Hm) as G.
  pose proof (flt_pos_not_zero _ (speed_pos p G)) as Hs.
  unfold calculate_price, dict_mem, dict_getitem.
  rewrite Hm, infill_multiplier_run.
  cbv beta iota zeta delta [bind negb].
  rewrite (float_div_ok _ (of_int 1000)) by fconst.
  cbv beta iota zeta delta [bind].
  rewrite (float_div_ok _ lh) by assumption.
  cbv beta iota zeta delta [bind].
  rewrite (float_div_ok _ (print_speed_modifier p)) by assumption.
  cbv beta iota zeta delta [bind].
  rewrite (float_div_ok _ (of_int 60)) by fconst.
  cbv beta iota zeta delta [bind].
  reflexivity.
Qed.

End PricerRun.

(** ** Order properties of the values computed by [calculate_price] *)

Module PricerOrder.
Import Rounding RoundingFacts Float FloatFacts Python PythonFacts Pricer PricerValues PricerRun.

Section Material.

Variable p : mat_props.
Hypothesis G : good_material p.
Variable a : analysis.
Hypothesis Vlo : (lit 1 <= volume_cm3 a)%F.

Lemma volume_pos : (Fin 0 < volume_cm3 a)%F.
Proof. apply flt_fle_trans with (lit 1); [fconst|assumption]. Qed.

Lemma support_volume_pos : (Fin 0 < volume_cm3 a * lit (15 # 100))%F.
Proof.
  apply flt_fle_trans with (lit 1 * lit (15 # 100))%F; [fconst|].
  apply fmul_mono_r; [fconst|fconst|assumption].
Qed.

(** *** Material cost grows with the infill *)

Lemma infill_multiplier_v_mono (i j : float) :
  (i <= j)%F -> (infill_multiplier_v i <= infill_multiplier_v j)%F.
Proof.
  intros H. unfold infill_multiplier_v.
  apply fadd_mono_l; [fconst|].
  apply fmul_mono_r; [fconst|fconst|].
  apply fquot_mono_l; [fconst|fconst|assumption].
Qed.

Section FiniteVolume.

Hypothesis Vhi : (volume_cm3 a <= FMAX)%F.

Lemma volume_finite : is_finite (volume_cm3 a) = true.
Proof.
  apply (fle_finite _ (lit 1) FMAX); [fconst|fconst|assumption|assumption].
Qed.

Lemma support_volume_finite : is_finite (volume_cm3 a * lit (15 # 100))%F = true.
Proof.
  apply (fle_finite _ (lit 1 * lit (15 # 100))%F (FMAX * lit (15 # 100))%F);
    [fconst|fconst| |]; (apply fmul_mono_r; [fconst|fconst|assumption]).
Qed.

Lemma effective_volume_v_mono (inc : bool) (i j : float) :
  (i <= j)%F -> (effective_volume_v a i inc <= effective_volume_v a j inc)%F.
Proof.
  intros H. unfold effective_volume_v. cbv zeta.
  assert (E : (volume_cm3 a * infill_multiplier_v i <=
               volume_cm3 a * infill_multiplier_v j)%F).
  { apply fmul_mono_l;
      [apply volume_pos|apply volume_finite|now apply infill_multiplier_v_mono]. }
  destruct inc; [|assumption].
  apply fadd_mono_r; [apply support_volume_finite|assumption].
Qed.

Lemma material_cost_v_mono (inc : bool) (i j : float) :
  (i <= j)%F -> (material_cost_v p a i inc <= material_cost_v p a j inc)%F.
Proof.
  intros H. destruct G. unfold material_cost_v, weight_g_v.
  apply fmul_mono_r; [assumption|assumption|].
  apply fquot_mono_l; [fconst|fconst|].
  apply fmul_mono_r; [assumption|assumption|].
  now apply effective_volume_v_mono.
Qed.

End FiniteVolume.

(** *** A requested infill that is not negative *)

Section Infill.

Variable infill : float.
Hypothesis Hi : (Fin 0 <= infill)%F.

Lemma infill_multiplier_v_ge : (lit (1 # 10) <= infill_multiplier_v infill)%F.
Proof.
  apply fle_trans with (infill_multiplier_v (Fin 0)); [fconst|].
  now apply infill_multiplier_v_mono.
Qed.

Lemma filled_volume_ge :
  (volume_cm3 a * lit (1 # 10) <= volume_cm3 a * infill_multiplier_v infill)%F.
Proof.
  apply fmul_mono_pos;
    [apply volume_pos| |fconst|apply infill_multiplier_v_ge].
  apply fle_refl. now destruct (fle_not_nan _ _ Vlo).
Qed.

Lemma filled_volume_nonneg :
  (Fin 0 <= volume_cm3 a * infill_multiplier_v infill)%F.
Proof.
  apply fle_trans with (lit 1 * lit (1 # 10))%F; [fconst|].
  apply fmul_mono_pos;
    [fconst|assumption|fconst|apply infill_multiplier_v_ge].
Qed.

Lemma effective_volume_v_supports :
  (effective_volume_v a infill false <= effective_volume_v a infill true)%F.
Proof.
  unfold effective_volume_v. cbv zeta.
  apply fadd_ge_l;
    [apply fmul_binary64|apply filled_volume_nonneg|].
  apply flt_fle, support_volume_pos.
Qed.

Lemma effective_volume_v_nonneg (inc : bool) :
  (Fin 0 <= effective_volume_v a infill inc)%F.
Proof.
  destruct inc.
  - apply fle_trans with (effective_volume_v a infill false);
      [apply filled_volume_nonneg|apply effective_volume_v_supports].
  - apply filled_volume_nonneg.
Qed.

Lemma material_cost_v_nonneg (inc : bool) :
  (Fin 0 <= material_cost_v p a infill inc)%F.
Proof.
  destruct G. unfold material_cost_v, weight_g_v.
  apply fmul_nonneg; [|assumption|assumption].
  apply fquot_nonneg; [|fconst|fconst].
  apply fmul_nonneg; [|assumption|assumption].
  apply effective_volume_v_nonneg.
Qed.

Lemma material_cost_v_supports :
  (material_cost_v p a infill false <= material_cost_v p a infill true)%F.
Proof.
  destruct G. unfold material_cost_v, weight_g_v.
  apply fmul_mono_r; [assumption|assumption|].
  apply fquot_mono_l; [fconst|fconst|].
  apply fmul_mono_r; [assumption|assumption|].
  apply effective_volume_v_supports.
Qed.

Lemma post_processing_v_supports :
  (post_processing_v p a infill false <= post_processing_v p a infill true)%F.
Proof.
  unfold post_processing_v.
  apply fadd_ge_l; [fconst|fconst|].
  apply fmul_nonneg; [apply material_cost_v_nonneg|fconst|fconst].
Qed.

Lemma post_processing_v_ge (inc : bool) :
  (lit 5 <= post_processing_v p a infill inc)%F.
Proof.
  destruct inc.
  - apply fle_trans with (post_processing_v p a infill false);
      [fconst|apply post_processing_v_supports].
  - fconst.
Qed.

End Infill.

(** *** Print time *)

Section Time.

Hypothesis Clo : (Fin 0 <= complexity_factor a)%F.

Lemma base_time_minutes_v_ge : (lit 1 * lit 2 <= base_time_minutes_v a)%F.
Proof.
  unfold base_time_minutes_v. apply fmul_mono_r; [fconst|fconst|assumption].
Qed.

Lemma complexity_modifier_v_ge :
  (of_int 1 + Fin 0 * lit (5 # 10) <= complexity_modifier_v a)%F.
Proof.
  unfold complexity_modifier_v. apply fadd_mono_l; [fconst|].
  apply fmul_mono_r; [fconst|fconst|assumption].
Qed.

Lemma support_modifier_v_pos (inc : bool) : (Fin 0 < support_modifier_v inc)%F.
Proof. destruct inc; fconst. Qed.

Lemma support_modifier_v_finite (inc : bool) :
  is_finite (support_modifier_v inc) = true.
Proof. destruct inc; fconst. Qed.

Section LayerHeight.

Variable lh : float.
Hypothesis Lpos : (Fin 0 < lh)%F.
Hypothesis Lhi : (lh <= FMAX)%F.

Lemma layer_modifier_v_ge :
  (fquot (lit (2 # 10)) FMAX <= layer_modifier_v lh)%F.
Proof.
  unfold layer_modifier_v.
  apply fquot_anti_r; [fconst|fconst|assumption|assumption].
Qed.

Lemma scaled_time_pos : (Fin 0 < scaled_time a lh)%F.
Proof.
  apply flt_fle_trans with
    (lit 1 * lit 2 * fquot (lit (2 # 10)) FMAX *
     (of_int 1 + Fin 0 * lit (5 # 10)))%F; [fconst|].
  unfold scaled_time.
  apply fmul_mono_pos;
    [fconst| |fconst|apply complexity_modifier_v_ge].
  apply fmul_mono_pos;
    [fconst|apply base_time_minutes_v_ge|fconst|apply layer_modifier_v_ge].
Qed.

Lemma total_time_minutes_v_nonneg (inc : bool) :
  (Fin 0 <= total_time_minutes_v p a lh inc)%F.
Proof.
  destruct G. unfold total_time_minutes_v.
  apply fquot_nonneg; [|assumption|assumption].
  apply fmul_nonneg;
    [apply flt_fle, scaled_time_pos
    |apply support_modifier_v_pos|apply support_modifier_v_finite].
Qed.

Lemma total_time_minutes_v_supports :
  (total_time_minutes_v p a lh false <= total_time_minutes_v p a lh true)%F.
Proof.
  destruct G. unfold total_time_minutes_v.
  apply fquot_mono_l; [assumption|assumption|].
  apply fmul_mono_nonneg_r;
    [apply flt_fle, scaled_time_pos|fconst|fconst|fconst].
Qed.

Lemma machine_cost_v_nonneg (inc : bool) :
  (Fin 0 <= machine_cost_v p a lh inc)%F.
Proof.
  unfold machine_cost_v, total_time_hours_v.
  apply fmul_nonneg; [|fconst|fconst].
  apply fquot_nonneg; [|fconst|fconst].
  apply total_time_minutes_v_nonneg.
Qed.

Lemma machine_cost_v_supports :
  (machine_cost_v p a lh false <= machine_cost_v p a lh true)%F.
Proof.
  unfold machine_cost_v, total_time_hours_v.
  apply fmul_mono_r; [fconst|fconst|].
  apply fquot_mono_l; [fconst|fconst|].
  apply total_time_minutes_v_supports.
Qed.

(** A thinner layer never shortens the print. *)
Lemma total_time_minutes_v_anti (inc : bool) (lh' : float) :
  (Fin 0 < lh')%F -> (lh' <= lh)%F ->
  (total_time_minutes_v p a lh inc <= total_time_minutes_v p a lh' inc)%F.
Proof.
  intros Hpos Hle. destruct G. unfold total_time_minutes_v.
  apply fquot_mono_l; [assumption|assumption|].
  apply fmul_mono_r;
    [apply support_modifier_v_pos|apply support_modifier_v_finite|].
  pose proof scaled_time_pos as S. unfold scaled_time in S.
  pose proof (flt_not_nan _ _ S) as [_ N].
  apply fmul_mono_pos.
  - apply flt_fle_trans with
      (lit 1 * lit 2 * fquot (lit (2 # 10)) FMAX)%F; [fconst|].
    apply fmul_mono_pos;
      [fconst|apply base_time_minutes_v_ge|fconst|apply layer_modifier_v_ge].
  - apply fmul_mono_pos.
    + apply flt_fle_trans with (lit 1 * lit 2)%F;
        [fconst|apply base_time_minutes_v_ge].
    + apply fle_refl.
      now destruct (fle_not_nan _ _ base_time_minutes_v_ge).
    + apply flt_fle_trans with (fquot (lit (2 # 10)) FMAX);
        [fconst|apply layer_modifier_v_ge].
    + unfold layer_modifier_v.
      apply fquot_anti_r; [fconst|fconst|assumption|assumption].
  - apply flt_fle_trans with (of_int 1 + Fin 0 * lit (5 # 10))%F;
      [fconst|apply complexity_modifier_v_ge].
  - apply fle_refl.
    now destruct (fle_not_nan _ _ complexity_modifier_v_ge).
Qed.

(** *** The totals *)

Section Totals.

Variable infill : float.
Hypothesis Hi : (Fin 0 <= infill)%F.

Lemma cost_sum_nonneg (inc : bool) :
  (Fin 0 <= material_cost_v p a infill inc + machine_cost_v p a lh inc)%F.
Proof.
  apply fadd_nonneg;
    [now apply material_cost_v_nonneg|apply machine_cost_v_nonneg].
Qed.

Lemma subtotal_v_ge (inc : bool) : (lit 5 <= subtotal_v p a infill lh inc)%F.
Proof.
  apply fle_trans with (Fin 0 + lit 5)%F; [fconst|].
  unfold subtotal_v.
  apply fadd_mono_nonneg;
    [fconst|apply cost_sum_nonneg|fconst|now apply post_processing_v_ge].
Qed.

Lemma subtotal_v_nonneg (inc : bool) : (Fin 0 <= subtotal_v p a infill lh inc)%F.
Proof. apply fle_trans with (lit 5); [fconst|apply subtotal_v_ge]. Qed.

Lemma subtotal_v_supports :
  (subtotal_v p a infill lh false <= subtotal_v p a infill lh true)%F.
Proof.
  unfold subtotal_v.
  apply fadd_mono_nonneg.
  - apply cost_sum_nonneg.
  - apply fadd_mono_nonneg;
      [now apply material_cost_v_nonneg|now apply material_cost_v_supports
      |apply machine_cost_v_nonneg|apply machine_cost_v_supports].
  - apply fle_trans with (lit 5); [fconst|now apply post_processing_v_ge].
  - now apply post_processing_v_supports.
Qed.

Lemma with_margin_mono (x y : float) :
  (Fin 0 <= x)%F -> (x <= y)%F ->
  (x + x * margin PRICING_CONFIG <= y + y * margin PRICING_CONFIG)%F.
Proof.
  intros H0 H. apply fadd_mono_nonneg; [assumption|assumption| |].
  - apply fmul_nonneg; [assumption|fconst|fconst].
  - apply fmul_mono_r; [fconst|fconst|assumption].
Qed.

Lemma total_price_v_supports :
  (total_price_v p a infill lh false <= total_price_v p a infill lh true)%F.
Proof.
  unfold total_price_v, margin_amount_v.
  apply py_max_mono_l; [|fconst].
  apply with_margin_mono; [apply subtotal_v_nonneg|apply subtotal_v_supports].
Qed.

Lemma total_price_v_ge (inc : bool) :
  (lit 5 <= total_price_v p a infill lh inc)%F.
Proof.
  unfold total_price_v, margin_amount_v.
  assert (H : (lit 5 + lit 5 * margin PRICING_CONFIG <=
               subtotal_v p a infill lh inc +
               subtotal_v p a infill lh inc * margin PRICING_CONFIG)%F).
  { apply with_margin_mono; [fconst|apply subtotal_v_ge]. }
  apply fle_trans with (lit 5 + lit 5 * margin PRICING_CONFIG)%F; [fconst|].
  apply fle_trans with (1 := H).
  apply py_max_ge_l. now destruct (fle_not_nan _ _ H).
Qed.

End Totals.

End LayerHeight.

End Time.

End Material.

End PricerOrder.

(** ** The pricer: properties of [calculate_price] *)

Import Rounding RoundingFacts Float FloatFacts Python PythonFacts.
Import Pricer PricerValues PricerRun PricerOrder.
Local Open Scope string_scope.

(** A run on a catalog material and a positive layer height returns. *)
Lemma calculate_price_returns (a : analysis) (m : string) (infill lh : float)
    (s : option bool) :
  dict_mem MATERIALS m = true -> (Fin 0 < lh)%F ->
  exists p, dict_get MATERIALS m = Some p /\ good_material p /\
  calculate_price a m infill lh s =
  Ok {| material := {|
          type := m;
          material_name := name p;
          weight_g := round_nd (weight_g_v p a infill (resolve_supports a s)) 2;
          cost := round_nd (material_cost_v p a infill (resolve_supports a s)) 2 |};
        print_time := {|
          hours := round_nd (total_time_hours_v p a lh (resolve_supports a s)) 2;
          minutes :=
            round_nd (total_time_minutes_v p a lh (resolve_supports a s)) 0 |};
        costs := {|
          costs_material :=
            round_nd (material_cost_v p a infill (resolve_supports a s)) 2;
          machine_time := round_nd (machine_cost_v p a lh (resolve_supports a s)) 2;
          post_processing :=
            round_nd (post_processing_v p a infill (resolve_supports a s)) 2;
          subtotal := round_nd (subtotal_v p a infill lh (resolve_supports a s)) 2;
          costs_margin :=
            round_nd (margin_amount_v p a infill lh (resolve_supports a s)) 2;
          total := round_nd (total_price_v p a infill lh (resolve_supports a s)) 2 |};
        parameters := {|
          infill_percent := infill;
          layer_height_mm := lh;
          includes_supports := resolve_supports a s |} |}.
Proof.
  intros Hm Hlh. destruct (dict_mem_get _ _ Hm) as [p Hp].
  exists p. split; [assumption|]. split; [exact (MATERIALS_good m p Hp)|].
  apply calculate_price_run; [assumption|now apply flt_pos_not_zero].
Qed.

(** Rounding to cents keeps a price at or above the minimum price. *)
Lemma round_nd_minimum_price (x : float) :
  (minimum_price PRICING_CONFIG <= x)%F ->
  (minimum_price PRICING_CONFIG <= round_nd x 2)%F.
Proof.
  intros H.
  apply fle_trans with (round_nd (minimum_price PRICING_CONFIG) 2); [fconst|].
  apply round_nd_mono; [lia|assumption].
Qed.

(** C1, as stated, fails: with infillPercent NaN the total is NaN, and
    with the finite inputs volume 1000, infill -2^1023 and layer height
    2^-1074 the material cost overflows to -inf and the machine cost to
    +inf, so that the total is NaN again; NaN is not at least 5.0. *)
Lemma C1_total_not_floored :
  (exists q,
     calculate_price unit_cube "PLA" NaN (lit (2 # 10)) None = Ok q /\
     fle (minimum_price PRICING_CONFIG) (total (costs q)) = false) /\
  (let a := sample_analysis (lit 1000) (lit 0) false in
   let infill := Fin (- 2 ^ 1023) in
   let lh := Fin (2 ^ (-1074)) in
   (lit 1 <= volume_cm3 a)%F /\ (Fin 0 < lh)%F /\
   is_binary64 (volume_cm3 a) = true /\ is_binary64 infill = true /\
   is_binary64 lh = true /\
   exists q,
     calculate_price a "PLA" infill lh None = Ok q /\
     fle (minimum_price PRICING_CONFIG) (total (costs q)) = false).
Proof.
  split.
  - eexists. split; [vm_compute; reflexivity|]. vm_compute. reflexivity.
  - cbv zeta. repeat (split; [vm_compute; reflexivity|]).
    eexists. split; [vm_compute; reflexivity|]. vm_compute. reflexivity.
Qed.

(** C1 (amended): for a catalog material and a layer height > 0 the
    price is returned and its total, after rounding to cents, is at
    least the minimum price 5.0 whenever it is not NaN; it is not NaN,
    hence at least 5.0, when volumeCm3 >= 1.0, complexityFactor >= 0,
    infillPercent >= 0 and the layer height is finite. *)
Theorem C1_total_at_least_minimum_price (a : analysis) (m : string)
    (infill lh : float) (s : option bool) :
  dict_mem MATERIALS m = true -> (Fin 0 < lh)%F ->
  exists q,
    calculate_price a m infill lh s = Ok q /\
    (is_nan (total (costs q)) = false ->
     (minimum_price PRICING_CONFIG <= total (costs q))%F) /\
    ((lit 1 <= volume_cm3 a)%F -> (Fin 0 <= complexity_factor a)%F ->
     (Fin 0 <= infill)%F -> (lh <= FMAX)%F ->
     (minimum_price PRICING_CONFIG <= total (costs q))%F).
Proof.
  intros Hm Hlh.
  destruct (calculate_price_returns a m infill lh s Hm Hlh) as (p & _ & G & ->).
  eexists. split; [reflexivity|]. cbn [costs total]. split.
  - intros N. apply round_nd_minimum_price.
    unfold total_price_v, py_max, fgt in *.
    set (t := (subtotal_v p a infill lh (resolve_supports a s) +
               margin_amount_v p a infill lh (resolve_supports a s))%F) in *.
    destruct (flt t (minimum_price PRICING_CONFIG)) eqn:E; [fconst|].
    apply flt_false_fle; [assumption| |fconst].
    now destruct t.
  - intros Vlo Clo Hi Lhi. apply round_nd_minimum_price.
    now apply total_price_v_ge.
Qed.

Lemma C1_total_at_least_minimum_price_witness :
  exists q,
    calculate_price unit_cube "PLA" (lit 20) (lit (2 # 10)) None = Ok q /\
    (minimum_price PRICING_CONFIG <= total (costs q))%F.
Proof.
  destruct (C1_total_at_least_minimum_price
              unit_cube "PLA" (lit 20) (lit (2 # 10)) None)
    as (q & E & _ & H); [vm_compute; reflexivity|vm_compute; reflexivity|].
  exists q. split; [exact E|].
  apply H; vm_compute; reflexivity.
Defined.

(** C4, as stated, fails: a negative infillPercent, here -50, gives the
    multiplier 0.1 + (-0.5) * 0.9, which is below 0.10. *)
Lemma C4_multiplier_below_floor :
  is_binary64 (lit (-50)) = true /\
  exists k,
    infill_multiplier (lit (-50)) = Ok k /\ fle (lit (1 # 10)) k = false.
Proof.
  split; [vm_compute; reflexivity|].
  eexists. split; vm_compute; reflexivity.
Qed.

(** C4 (amended): for every infillPercent >= 0 the infill multiplier
    0.10 + (infillPercent/100) * 0.90 is at least 0.10, and the
    effective volume before any support addition, volumeCm3 times the
    multiplier, is at least volumeCm3 * 0.10 for every volume > 0. *)
Theorem C4_infill_multiplier_floor (infill : float) :
  (Fin 0 <= infill)%F ->
  exists k,
    infill_multiplier infill = Ok k /\
    (lit (1 # 10) <= k)%F /\
    forall volume_cm3 : float,
      (Fin 0 < volume_cm3)%F ->
      (volume_cm3 * lit (1 # 10) <= volume_cm3 * k)%F.
Proof.
  intros Hi. exists (infill_multiplier_v infill).
  split; [apply infill_multiplier_run|].
  assert (K : (lit (1 # 10) <= infill_multiplier_v infill)%F).
  { apply fle_trans with (infill_multiplier_v (Fin 0)); [fconst|].
    unfold infill_multiplier_v.
    apply fadd_mono_l; [fconst|].
    apply fmul_mono_r; [fconst|fconst|].
    apply fquot_mono_l; [fconst|fconst|assumption]. }
  split; [assumption|].
  intros v Hv.
  apply fmul_mono_pos; [assumption| |fconst|assumption].
  apply fle_refl. now destruct (flt_not_nan _ _ Hv).
Qed.

Lemma C4_infill_multiplier_floor_witness :
  exists k,
    infill_multiplier (lit 20) = Ok k /\
    (lit (1 # 10) <= k)%F /\
    forall volume_cm3 : float,
      (Fin 0 < volume_cm3)%F ->
      (volume_cm3 * lit (1 # 10) <= volume_cm3 * k)%F.
Proof.
  apply (C4_infill_multiplier_floor (lit 20)). vm_compute. reflexivity.
Defined.

(** C5: a material key that is not in the catalog makes
    [calculate_price] raise the error naming the key, so that no quote
    is returned; a key of the catalog never raises that error, and with
    a layer height > 0 the quote is returned. *)
Theorem C5_unknown_material (a : analysis) (m : string) (infill lh : float)
    (s : option bool) :
  (dict_mem MATERIALS m = false ->
   calculate_price a m infill lh s =
   Raise (ValueError ("Unknown material: " ++ m))) /\
  (dict_mem MATERIALS m = true ->
   (forall msg, calculate_price a m infill lh s <> Raise (ValueError msg)) /\
   ((Fin 0 < lh)%F -> exists q, calculate_price a m infill lh s = Ok q)).
Proof.
  split.
  - intros Hm. unfold calculate_price. now rewrite Hm.
  - intros Hm. destruct (dict_mem_get _ _ Hm) as [p Hp]. split.
    + intros msg. destruct (is_zero lh) eqn:Z.
      * unfold calculate_price, dict_getitem.
        rewrite Hm, Hp, infill_multiplier_run.
        cbv beta iota zeta delta [bind negb].
        rewrite (float_div_ok _ (of_int 1000)) by fconst.
        cbv beta iota zeta delta [bind].
        rewrite (float_div_zero _ lh) by assumption.
        discriminate.
      * rewrite (calculate_price_run a m infill lh s p Hp Z). discriminate.
    + intros Hlh.
      destruct (calculate_price_returns a m infill lh s Hm Hlh) as (? & _ & _ & ->).
      eauto.
Qed.

Lemma C5_unknown_material_witness :
  calculate_price unit_cube "NYLON" (lit 20) (lit (2 # 10)) None =
  Raise (ValueError "Unknown material: NYLON") /\
  exists q, calculate_price unit_cube "PLA" (lit 20) (lit (2 # 10)) None = Ok q.
Proof.
  split.
  - apply (proj1 (C5_unknown_material unit_cube "NYLON" (lit 20) (lit (2 # 10)) None)).
    vm_compute. reflexivity.
  - apply (proj2 (C5_unknown_material unit_cube "PLA" (lit 20) (lit (2 # 10)) None));
      vm_compute; reflexivity.
Defined.

(** C6: for an analysis record of finite volume >= 1.0, a catalog
    material, a layer height > 0 and a support setting, a larger
    infillPercent never gives a smaller materialCost, in either place
    where the quote reports it. *)
Theorem C6_material_cost_monotone (a : analysis) (m : string)
    (infill_a infill_b lh : float) (s : option bool) :
  dict_mem MATERIALS m = true -> (Fin 0 < lh)%F ->
  (lit 1 <= volume_cm3 a)%F -> (volume_cm3 a <= FMAX)%F ->
  (infill_a <= infill_b)%F ->
  exists qa qb,
    calculate_price a m infill_a lh s = Ok qa /\
    calculate_price a m infill_b lh s = Ok qb /\
    (costs_material (costs qa) <= costs_material (costs qb))%F /\
    (cost (material qa) <= cost (material qb))%F.
Proof.
  intros Hm Hlh Vlo Vhi H.
  destruct (calculate_price_returns a m infill_a lh s Hm Hlh) as (p & Hp & G & ->).
  destruct (calculate_price_returns a m infill_b lh s Hm Hlh) as (p' & Hp' & _ & ->).
  assert (p' = p) by congruence. subst p'.
  do 2 eexists. split; [reflexivity|]. split; [reflexivity|].
  cbn [costs costs_material material cost].
  assert (R : (round_nd (material_cost_v p a infill_a (resolve_supports a s)) 2 <=
               round_nd (material_cost_v p a infill_b (resolve_supports a s)) 2)%F).
  { apply round_nd_mono; [lia|]. now apply material_cost_v_mono. }
  split; exact R.
Qed.

Lemma C6_material_cost_monotone_witness :
  exists qa qb,
    calculate_price unit_cube "PLA" (lit 20) (lit (2 # 10)) None = Ok qa /\
    calculate_price unit_cube "PLA" (lit 80) (lit (2 # 10)) None = Ok qb /\
    (costs_material (costs qa) <= costs_material (costs qb))%F /\
    (cost (material qa) <= cost (material qb))%F.
Proof.
  apply (C6_material_cost_monotone unit_cube "PLA" (lit 20) (lit 80) (lit (2 # 10)) None);
    vm_compute; reflexivity.
Defined.

(** C7, as stated, fails: for the unit cube in PLA at 20% infill and
    0.2 mm layers the material cost rounds to 0.01 and the
    post-processing cost to 5.0 with and without supports, so neither
    is strictly greater; and at infillPercent -100 the material cost is
    negative, so that supports lower the post-processing cost. *)
Lemma C7_supports_not_strict :
  (exists q_on q_off,
     calculate_price unit_cube "PLA" (lit 20) (lit (2 # 10)) (Some true) = Ok q_on /\
     calculate_price unit_cube "PLA" (lit 20) (lit (2 # 10)) (Some false) = Ok q_off /\
     flt (costs_material (costs q_off)) (costs_material (costs q_on)) = false /\
     flt (post_processing (costs q_off)) (post_processing (costs q_on)) = false) /\
  (exists q_on q_off,
     calculate_price unit_cube "PLA" (lit (-100)) (lit (2 # 10)) (Some true) = Ok q_on /\
     calculate_price unit_cube "PLA" (lit (-100)) (lit (2 # 10)) (Some false) = Ok q_off /\
     flt (post_processing (costs q_on)) (post_processing (costs q_off)) = true).
Proof.
  split; do 2 eexists;
    (split; [vm_compute; reflexivity|]);
    (split; [vm_compute; reflexivity|]);
    repeat split; vm_compute; reflexivity.
Qed.

(** C7 (amended): for an analysis record with volumeCm3 >= 1.0 and
    complexityFactor >= 0, a catalog material, infillPercent >= 0 and a
    finite layer height > 0, the quote with includeSupports=true has a
    materialCost, a postProcessing cost and a total that are each
    greater than or equal to those of the quote with
    includeSupports=false. *)
Theorem C7_supports_never_cheaper (a : analysis) (m : string)
    (infill lh : float) :
  dict_mem MATERIALS m = true ->
  (lit 1 <= volume_cm3 a)%F -> (Fin 0 <= complexity_factor a)%F ->
  (Fin 0 <= infill)%F -> (Fin 0 < lh)%F -> (lh <= FMAX)%F ->
  exists q_on q_off,
    calculate_price a m infill lh (Some true) = Ok q_on /\
    calculate_price a m infill lh (Some false) = Ok q_off /\
    (costs_material (costs q_off) <= costs_material (costs q_on))%F /\
    (post_processing (costs q_off) <= post_processing (costs q_on))%F /\
    (total (costs q_off) <= total (costs q_on))%F.
Proof.
  intros Hm Vlo Clo Hi Hlh Lhi.
  destruct (calculate_price_returns a m infill lh (Some true) Hm Hlh)
    as (p & Hp & G & ->).
  destruct (calculate_price_returns a m infill lh (Some false) Hm Hlh)
    as (p' & Hp' & _ & ->).
  assert (p' = p) by congruence. subst p'.
  do 2 eexists. split; [reflexivity|]. split; [reflexivity|].
  cbn [costs costs_material post_processing total resolve_supports].
  repeat split; (apply round_nd_mono; [lia|]).
  - now apply material_cost_v_supports.
  - now apply post_processing_v_supports.
  - now apply total_price_v_supports.
Qed.

Lemma C7_supports_never_cheaper_witness :
  exists q_on q_off,
    calculate_price unit_cube "PLA" (lit 20) (lit (2 # 10)) (Some true) = Ok q_on /\
    calculate_price unit_cube "PLA" (lit 20) (lit (2 # 10)) (Some false) = Ok q_off /\
    (costs_material (costs q_off) <= costs_material (costs q_on))%F /\
    (post_processing (costs q_off) <= post_processing (costs q_on))%F /\
    (total (costs q_off) <= total (costs q_on))%F.
Proof.
  apply (C7_supports_never_cheaper unit_cube "PLA" (lit 20) (lit (2 # 10)));
    vm_compute; reflexivity.
Defined.

(** Half of a positive number of the format is not above it. *)
Lemma half_le (lh : float) :
  is_binary64 lh = true -> (Fin 0 < lh)%F -> (fquot lh (of_int 2) <= lh)%F.
Proof.
  intros B H. destruct lh as [|[|]|l]; try discriminate; [reflexivity|].
  destruct (binary64_round l B) as [_ U].
  apply fle_trans with (round64 l); [|assumption].
  change (fquot (Fin l) (of_int 2)) with (round64 (l / 2)).
  apply round64_mono. cbn [flt] in H. qprop.
  assert (E : l / 2 == l * (1 # 2)) by (field; discriminate). lra.
Qed.

(** C8, as stated, fails: for the unit cube in PLA without supports,
    0.6 mm layers take 0.67 minutes and 0.3 mm layers 1.33 minutes, and
    both are returned as 1.0 minute. *)
Lemma C8_halving_not_strict :
  is_binary64 (lit (6 # 10)) = true /\
  exists lh2 q q2,
    float_div (lit (6 # 10)) (of_int 2) = Ok lh2 /\
    calculate_price unit_cube "PLA" (lit 20) (lit (6 # 10)) (Some false) = Ok q /\
    calculate_price unit_cube "PLA" (lit 20) lh2 (Some false) = Ok q2 /\
    flt (minutes (print_time q)) (minutes (print_time q2)) = false.
Proof.
  split; [vm_compute; reflexivity|].
  do 3 eexists.
  repeat (split; [vm_compute; reflexivity|]). vm_compute. reflexivity.
Qed.

(** C8 (amended): for an analysis record with volumeCm3 >= 1.0 and
    complexityFactor >= 0, a catalog material, any infillPercent and
    support setting, and a finite layer height > 0 whose half is still
    > 0, replacing layerHeightMm by layerHeightMm / 2 never decreases
    the totalTimeMinutes returned by price. *)
Theorem C8_halving_never_faster (a : analysis) (m : string)
    (infill lh : float) (s : option bool) :
  dict_mem MATERIALS m = true ->
  (lit 1 <= volume_cm3 a)%F -> (Fin 0 <= complexity_factor a)%F ->
  is_binary64 lh = true -> (Fin 0 < lh)%F -> (lh <= FMAX)%F ->
  (Fin 0 < fquot lh (of_int 2))%F ->
  exists lh2 q q2,
    float_div lh (of_int 2) = Ok lh2 /\
    calculate_price a m infill lh s = Ok q /\
    calculate_price a m infill lh2 s = Ok q2 /\
    (minutes (print_time q) <= minutes (print_time q2))%F.
Proof.
  intros Hm Vlo Clo B Hlh Lhi H2.
  destruct (calculate_price_returns a m infill lh s Hm Hlh) as (p & Hp & G & E).
  destruct (calculate_price_returns a m infill (fquot lh (of_int 2)) s Hm H2)
    as (p' & Hp' & _ & E2).
  assert (p' = p) by congruence. subst p'.
  exists (fquot lh (of_int 2)). do 2 eexists.
  split; [apply float_div_ok; fconst|].
  split; [exact E|]. split; [exact E2|].
  cbn [print_time minutes].
  apply round_nd_mono; [lia|].
  apply total_time_minutes_v_anti; try assumption.
  now apply half_le.
Qed.

Lemma C8_halving_never_faster_witness :
  exists lh2 q q2,
    float_div (lit (2 # 10)) (of_int 2) = Ok lh2 /\
    calculate_price unit_cube "PLA" (lit 20) (lit (2 # 10)) None = Ok q /\
    calculate_price unit_cube "PLA" (lit 20) lh2 None = Ok q2 /\
    (minutes (print_time q) <= minutes (print_time q2))%F.
Proof.
  apply (C8_halving_never_faster unit_cube "PLA" (lit 20) (lit (2 # 10)) None);
    vm_compute; reflexivity.
Defined.

(** C9: on a catalog material the division by the layer height is
    reached and is not guarded: a layer height of zero makes
    [calculate_price] raise the division fault instead of returning a
    quote, and a layer height > 0 makes it return a quote. *)
Theorem C9_layer_height_division (a : analysis) (m : string)
    (infill lh : float) (s : option bool) :
  dict_mem MATERIALS m = true ->
  (is_zero lh = true ->
   calculate_price a m infill lh s =
   Raise (ZeroDivisionError "float division by zero")) /\
  ((Fin 0 < lh)%F -> exists q, calculate_price a m infill lh s = Ok q).
Proof.
  intros Hm. split.
  - intros Z. destruct (dict_mem_get _ _ Hm) as [p Hp].
    unfold calculate_price, dict_getitem.
    rewrite Hm, Hp, infill_multiplier_run.
    cbv beta iota zeta delta [bind negb].
    rewrite (float_div_ok _ (of_int 1000)) by fconst.
    cbv beta iota zeta delta [bind].
    now rewrite (float_div_zero _ lh) by assumption.
  - intros Hlh.
    destruct (calculate_price_returns a m infill lh s Hm Hlh) as (? & _ & _ & ->).
    eauto.
Qed.

Lemma C9_layer_height_division_witness :
  calculate_price unit_cube "PLA" (lit 20) (Fin 0) None =
  Raise (ZeroDivisionError "float division by zero") /\
  exists q, calculate_price unit_cube "PLA" (lit 20) (lit (2 # 10)) None = Ok q.
Proof.
  split.
  - apply (proj1 (C9_layer_height_division unit_cube "PLA" (lit 20) (Fin 0) None
                    eq_refl)).
    reflexivity.
  - apply (proj2 (C9_layer_height_division unit_cube "PLA" (lit 20) (lit (2 # 10))
                    None eq_refl)).
    vm_compute. reflexivity.
Defined.

(** C10: in every quote that [calculate_price] returns, the cost of
    the material section and the material entry of the costs section
    are the same value; a catalog material and a layer height > 0 give
    such a quote. *)
Theorem C10_material_cost_fields_agree (a : analysis) (m : string)
    (infill lh : float) (s : option bool) :
  (forall q, calculate_price a m infill lh s = Ok q ->
             cost (material q) = costs_material (costs q)) /\
  (dict_mem MATERIALS m = true -> (Fin 0 < lh)%F ->
   exists q, calculate_price a m infill lh s = Ok q /\
             cost (material q) = costs_material (costs q)).
Proof.
  assert (A : forall q, calculate_price a m infill lh s = Ok q ->
                        cost (material q) = costs_material (costs q)).
  { intros q. unfold calculate_price.
    destruct (negb (dict_mem MATERIALS m)); [discriminate|].
    destruct (dict_getitem MATERIALS m) as [p|]; [|discriminate].
    cbv beta iota zeta delta [bind].
    destruct (infill_multiplier infill); [|discriminate].
    cbv beta iota zeta delta [bind].
    destruct (float_div _ (of_int 1000)); [|discriminate].
    cbv beta iota zeta delta [bind].
    destruct (float_div _ lh); [|discriminate].
    cbv beta iota zeta delta [bind].
    destruct (float_div _ (print_speed_modifier p)); [|discriminate].
    cbv beta iota zeta delta [bind].
    destruct (float_div _ (of_int 60)); [|discriminate].
    cbv beta iota zeta delta [bind].
    intros E. apply Ok_inj in E. subst q. reflexivity. }
  split; [exact A|].
  intros Hm Hlh.
  destruct (calculate_price_returns a m infill lh s Hm Hlh) as (? & _ & _ & E).
  eexists. split; [exact E|]. now apply A.
Qed.

Lemma C10_material_cost_fields_agree_witness :
  exists q, calculate_price unit_cube "PLA" (lit 20) (lit (2 # 10)) None = Ok q /\
            cost (material q) = costs_material (costs q).
Proof.
  apply (proj2 (C10_material_cost_fields_agree
                  unit_cube "PLA" (lit 20) (lit (2 # 10)) None));
    vm_compute; reflexivity.
Defined.

(** ** The estimator: properties of [analyze_3d_file_simple] *)

Lemma int_truediv_inv (n d : Z) (c : float) :
  int_truediv n d = Ok c ->
  c = round64 (inject_Z n / inject_Z d) /\ is_finite c = true.
Proof.
  unfold int_truediv. destruct (d =? 0)%Z; [discriminate|].
  destruct (round64 _) as [|[|]|q]; try discriminate.
  intros E. injection E as <-. auto.
Qed.

Lemma int_truediv_nonneg (n d : Z) (c : float) :
  (0 <= n)%Z -> (0 < d)%Z -> int_truediv n d = Ok c -> (Fin 0 <= c)%F.
Proof.
  intros Hn Hd E. apply int_truediv_inv in E as [-> _].
  apply round64_nonneg. apply Qdiv_nonneg.
  - change 0 with (inject_Z 0). now rewrite <- Zle_Qle.
  - change 0 with (inject_Z 0). now rewrite <- Zlt_Qlt.
Qed.

Lemma int_truediv_mono (n n' d : Z) (c c' : float) :
  (0 < d)%Z -> (n <= n')%Z ->
  int_truediv n d = Ok c -> int_truediv n' d = Ok c' -> (c <= c')%F.
Proof.
  intros Hd H E E'.
  apply int_truediv_inv in E as [-> _]. apply int_truediv_inv in E' as [-> _].
  apply round64_mono. apply Qdiv_le_mono_l.
  - change 0 with (inject_Z 0). now rewrite <- Zlt_Qlt.
  - now rewrite <- Zle_Qle.
Qed.

(** The quotient by a positive [d] is returned when that of a larger
    numerator is finite. *)
Lemma int_truediv_returns (n n' d : Z) :
  (0 < d)%Z -> (0 <= n <= n')%Z ->
  is_finite (round64 (inject_Z n' / inject_Z d)) = true ->
  exists c, int_truediv n d = Ok c.
Proof.
  intros Hd Hn F. unfold int_truediv.
  destruct (Z.eqb_spec d 0) as [->|_]; [lia|].
  assert (D : 0 < inject_Z d).
  { change 0 with (inject_Z 0). now rewrite <- Zlt_Qlt. }
  assert (L : (Fin 0 <= round64 (inject_Z n / inject_Z d))%F).
  { apply round64_nonneg, Qdiv_nonneg; [|assumption].
    change 0 with (inject_Z 0). rewrite <- Zle_Qle. lia. }
  assert (U : (round64 (inject_Z n / inject_Z d) <=
               round64 (inject_Z n' / inject_Z d))%F).
  { apply round64_mono, Qdiv_le_mono_l; [assumption|].
    rewrite <- Zle_Qle. lia. }
  pose proof (fle_finite _ (Fin 0) _ eq_refl F L U) as K.
  destruct (round64 (inject_Z n / inject_Z d)) as [|[|]|q]; try discriminate.
  eauto.
Qed.

Section EstimatorFacts.

Variable float_pow : float -> float -> float.
Variable file_path : string.

(** What a returned record holds. *)
Lemma analyze_3d_file_simple_inv (file_size : Z) (r : analysis) :
  analyze_3d_file_simple float_pow file_path file_size = Ok r ->
  exists q c,
    int_truediv file_size 100000 = Ok q /\
    int_truediv file_size 1000000 = Ok c /\
    volume_cm3 r = round_nd (py_max (lit 1) (q * of_int 10)%F) 3 /\
    complexity_factor r = round_nd (py_min (lit 1) c) 3 /\
    needs_supports r = fgt (py_min (lit 1) c) (lit (3 # 10)) /\
    exists f, int_truediv file_size 50 = Ok f.
Proof.
  unfold analyze_3d_file_simple, try_except.
  destruct (int_truediv file_size 100000) as [q|]; [|discriminate].
  cbv beta iota zeta delta [bind].
  destruct (int_truediv 1 3) as [third|]; [|discriminate].
  cbv beta iota zeta delta [bind].
  destruct (int_truediv file_size 1000000) as [c|]; [|discriminate].
  cbv beta iota zeta delta [bind].
  destruct (int_truediv file_size 50) as [f|]; [|discriminate].
  cbv beta iota zeta delta [bind].
  destruct (int_of_float f) as [face_count|]; [|discriminate].
  cbv beta iota zeta delta [bind].
  destruct (float_of_int face_count) as [fc|]; [|discriminate].
  cbv beta iota zeta delta [bind].
  destruct (int_of_float _) as [vertex_count|]; [|discriminate].
  cbv beta iota zeta delta [bind].
  intros E. apply Ok_inj in E. subst r. exists q, c.
  repeat (split; [reflexivity|]). now exists f.
Qed.

(** Up to [size_bound] the estimator returns. *)
Lemma analyze_3d_file_simple_returns (file_size : Z) :
  (0 <= file_size <= size_bound)%Z ->
  exists r, analyze_3d_file_simple float_pow file_path file_size = Ok r.
Proof.
  intros H.
  destruct (int_truediv_returns file_size size_bound 100000) as [q Eq];
    [lia|assumption|fconst|].
  destruct (int_truediv_returns file_size size_bound 1000000) as [c Ec];
    [lia|assumption|fconst|].
  destruct (int_truediv_returns file_size size_bound 50) as [f Ef];
    [lia|assumption|fconst|].
  assert (E3 : exists t, int_truediv 1 3 = Ok t)
    by (eexists; vm_compute; reflexivity).
  destruct E3 as [third E3].
  pose proof (int_truediv_nonneg file_size 50 f (proj1 H) eq_refl Ef) as F0.
  assert (FM : (f <= FMAX)%F).
  { destruct (int_truediv_inv _ _ _ Ef) as [-> _].
    apply fle_trans with (round64 (inject_Z size_bound / inject_Z 50)); [|fconst].
    apply round64_mono, Qdiv_le_mono_l; [reflexivity|].
    rewrite <- Zle_Qle. lia. }
  destruct f as [|[|]|x];
    [discriminate F0|discriminate F0|discriminate FM|].
  cbn [fle] in F0. apply Qle_bool_iff in F0.
  assert (FX : (0 <= Qfloor x)%Z).
  { change 0%Z with (Qfloor 0). now apply Qfloor_resp_le. }
  assert (FC : exists y, float_of_int (Qfloor x) = Ok (Fin y) /\ 0 <= y /\
                         (Fin y <= FMAX)%F).
  { unfold float_of_int, of_int.
    assert (L : (Fin 0 <= round64 (inject_Z (Qfloor x)))%F).
    { apply round64_nonneg. change 0 with (inject_Z 0).
      now rewrite <- Zle_Qle. }
    assert (U : (round64 (inject_Z (Qfloor x)) <= FMAX)%F).
    { apply fle_trans with (round64 x).
      - apply round64_mono, Qfloor_le.
      - destruct (int_truediv_inv _ _ _ Ef) as [Ex _].
        pose proof (round64_binary64 (inject_Z file_size / inject_Z 50)) as B.
        rewrite <- Ex in B. destruct (binary64_round x B) as [_ B'].
        now apply fle_trans with (Fin x). }
    destruct (round64 (inject_Z (Qfloor x))) as [|[|]|y];
      [discriminate L|discriminate L|discriminate U|].
    exists y. cbn [fle] in L. apply Qle_bool_iff in L. auto. }
  destruct FC as (y & Ey & Y0 & YM).
  assert (V : is_finite (Fin y * lit (6 # 10))%F = true).
  { apply (fle_finite _ (Fin 0 * lit (6 # 10))%F (FMAX * lit (6 # 10))%F);
      [fconst|fconst| |]; (apply fmul_mono_r; [fconst|fconst|]);
      [cbn [fle]; now apply Qle_bool_iff|assumption]. }
  unfold analyze_3d_file_simple, try_except.
  rewrite Eq. cbv beta iota zeta delta [bind].
  rewrite E3. cbv beta iota zeta delta [bind].
  rewrite Ec. cbv beta iota zeta delta [bind].
  rewrite Ef. cbv beta iota zeta delta [bind int_of_float].
  apply Qle_bool_iff in F0. rewrite F0.
  rewrite Ey. cbv beta iota zeta delta [bind].
  destruct (Fin y * lit (6 # 10))%F as [|[|]|v];
    [discriminate V|discriminate V|discriminate V|].
  cbv beta iota zeta delta [bind int_of_float].
  eauto.
Qed.

End EstimatorFacts.

(** A returned record has a volume of at least 1.0. *)
Lemma estimated_volume_ge (float_pow : float -> float -> float)
    (file_path : string) (file_size : Z) (r : analysis) :
  analyze_3d_file_simple float_pow file_path file_size = Ok r ->
  (lit 1 <= volume_cm3 r)%F.
Proof.
  intros E.
  destruct (analyze_3d_file_simple_inv _ _ _ _ E) as (q & c & _ & _ & -> & _).
  apply fle_trans with (round_nd (lit 1) 3); [fconst|].
  apply round_nd_mono; [lia|].
  apply py_max_ge_l. fconst.
Qed.

(** C2: for every non-negative byteSize, every analysis record that
    the estimator returns has volumeCm3 >= 1.0 after the rounding to 3
    decimals; and the estimator returns one for every byteSize from 0
    up to fifty times the largest float. *)
Theorem C2_volume_at_least_one (float_pow : float -> float -> float)
    (file_path : string) (file_size : Z) :
  (0 <= file_size)%Z ->
  (forall r,
     analyze_3d_file_simple float_pow file_path file_size = Ok r ->
     (lit 1 <= volume_cm3 r)%F) /\
  ((file_size <= size_bound)%Z ->
   exists r,
     analyze_3d_file_simple float_pow file_path file_size = Ok r /\
     (lit 1 <= volume_cm3 r)%F).
Proof.
  intros H0. split.
  - intros r. apply estimated_volume_ge.
  - intros Hb.
    destruct (analyze_3d_file_simple_returns float_pow file_path file_size)
      as [r E]; [lia|].
    exists r. split; [exact E|]. now apply estimated_volume_ge in E.
Qed.

Lemma C2_volume_at_least_one_witness :
  exists r,
    analyze_3d_file_simple pow_stub "model.stl" 0 = Ok r /\
    (lit 1 <= volume_cm3 r)%F.
Proof.
  apply (proj2 (C2_volume_at_least_one pow_stub "model.stl" 0 ltac:(lia))).
  vm_compute. discriminate.
Defined.

(** C3, as stated, fails: for byteSize 300001 the complexity before
    rounding is 0.300001 > 0.3, so needsSupports is true, while the
    returned complexityFactor is rounded to 0.3, which is not > 0.3.
    This holds whatever the C library's [pow] returns. *)
Lemma C3_needs_supports_not_from_rounded_factor :
  (0 <= 300001)%Z /\
  forall float_pow : float -> float -> float,
  exists r,
    analyze_3d_file_simple float_pow "model.stl" 300001 = Ok r /\
    needs_supports r = true /\
    fgt (complexity_factor r) (lit (3 # 10)) = false.
Proof.
  split; [lia|]. intros float_pow.
  destruct (analyze_3d_file_simple_returns float_pow "model.stl" 300001)
    as [r E]; [split; [lia|vm_compute; discriminate]|].
  exists r. split; [exact E|].
  destruct (analyze_3d_file_simple_inv _ _ _ _ E)
    as (q & c & _ & Ec & _ & -> & -> & _).
  vm_compute in Ec. apply Ok_inj in Ec. subst c.
  split; vm_compute; reflexivity.
Qed.

(** The complexity before rounding exceeds 0.3 exactly for the sizes
    above 300000 bytes. *)
Lemma complexity_threshold (file_size : Z) (c : float) :
  (0 <= file_size)%Z -> int_truediv file_size 1000000 = Ok c ->
  (Fin 0 <= py_min (lit 1) c)%F /\ (py_min (lit 1) c <= lit 1)%F /\
  fgt (py_min (lit 1) c) (lit (3 # 10)) = (300000 <? file_size)%Z /\
  ((file_size <= 300000)%Z -> (py_min (lit 1) c <= lit (3 # 10))%F).
Proof.
  intros H0 Ec.
  pose proof (int_truediv_nonneg _ 1000000 _ H0 eq_refl Ec) as C0.
  assert (Hmin0 : (Fin 0 <= py_min (lit 1) c)%F).
  { unfold py_min. destruct (flt c (lit 1)); [assumption|fconst]. }
  assert (Hmin1 : (py_min (lit 1) c <= lit 1)%F) by (apply py_min_le_l; fconst).
  split; [assumption|]. split; [assumption|].
  destruct (Z.ltb_spec 300000 file_size) as [Hb|Hb].
  - split; [|lia].
    assert (E1 : exists c1, int_truediv 300001 1000000 = Ok c1 /\
                            (lit (3 # 10) < c1)%F)
      by (eexists; split; vm_compute; reflexivity).
    destruct E1 as (c1 & E1 & L1).
    assert (L : (lit (3 # 10) < c)%F).
    { apply flt_fle_trans with c1; [assumption|].
      apply (int_truediv_mono 300001 file_size 1000000); [lia|lia|assumption..]. }
    unfold fgt, py_min. destruct (flt c (lit 1)); [assumption|fconst].
  - assert (E0 : exists c0, int_truediv 300000 1000000 = Ok c0 /\
                            (c0 <= lit (3 # 10))%F)
      by (eexists; split; vm_compute; reflexivity).
    destruct E0 as (c0 & E0 & L0).
    assert (L : (c <= lit (3 # 10))%F).
    { apply fle_trans with c0; [|assumption].
      apply (int_truediv_mono file_size 300000 1000000); [lia|lia|assumption..]. }
    assert (M : py_min (lit 1) c = c).
    { unfold py_min.
      rewrite (fle_flt_trans c (lit (3 # 10)) (lit 1) L); [reflexivity|fconst]. }
    rewrite M. split; [|intros _; assumption].
    unfold fgt. now apply flt_irrefl_le.
Qed.

(** The complexity factor and the supports flag of a returned record. *)
Lemma estimated_complexity (float_pow : float -> float -> float)
    (file_path : string) (file_size : Z) (r : analysis) :
  (0 <= file_size)%Z ->
  analyze_3d_file_simple float_pow file_path file_size = Ok r ->
  (Fin 0 <= complexity_factor r)%F /\ (complexity_factor r <= lit 1)%F /\
  needs_supports r = (300000 <? file_size)%Z /\
  (fgt (complexity_factor r) (lit (3 # 10)) = true -> needs_supports r = true).
Proof.
  intros H0 E.
  destruct (analyze_3d_file_simple_inv _ _ _ _ E)
    as (q & c & _ & Ec & _ & -> & -> & _).
  destruct (complexity_threshold file_size c H0 Ec) as (M0 & M1 & T & L).
  split; [|split; [|split]].
  - apply fle_trans with (round_nd (Fin 0) 3); [fconst|].
    apply round_nd_mono; [lia|assumption].
  - apply fle_trans with (round_nd (lit 1) 3); [|fconst].
    apply round_nd_mono; [lia|assumption].
  - assumption.
  - rewrite T. destruct (Z.ltb_spec 300000 file_size) as [Hb|Hb];
      [reflexivity|].
    intros K. exfalso. unfold fgt in K.
    assert (R : (round_nd (py_min (lit 1) c) 3 <= lit (3 # 10))%F).
    { apply fle_trans with (round_nd (lit (3 # 10)) 3); [|fconst].
      apply round_nd_mono; [lia|]. now apply L. }
    apply flt_irrefl_le in R. congruence.
Qed.

(** C3 (amended): for every non-negative byteSize, every analysis
    record that the estimator returns has complexityFactor in [0, 1];
    its needsSupports flag is decided on the complexity before the
    rounding to 3 decimals, and is true exactly when byteSize > 300000;
    a returned complexityFactor > 0.3 implies needsSupports, but not
    conversely.  The estimator returns a record for every byteSize up
    to fifty times the largest float. *)
Theorem C3_complexity_range_and_supports (float_pow : float -> float -> float)
    (file_path : string) (file_size : Z) :
  (0 <= file_size)%Z ->
  (forall r,
     analyze_3d_file_simple float_pow file_path file_size = Ok r ->
     (Fin 0 <= complexity_factor r)%F /\ (complexity_factor r <= lit 1)%F /\
     needs_supports r = (300000 <? file_size)%Z /\
     (fgt (complexity_factor r) (lit (3 # 10)) = true ->
      needs_supports r = true)) /\
  ((file_size <= size_bound)%Z ->
   exists r, analyze_3d_file_simple float_pow file_path file_size = Ok r).
Proof.
  intros H0. split.
  - intros r. now apply estimated_complexity.
  - intros Hb. apply analyze_3d_file_simple_returns. lia.
Qed.

Lemma C3_complexity_range_and_supports_witness :
  exists r, analyze_3d_file_simple pow_stub "model.stl" 500000 = Ok r /\
  (Fin 0 <= complexity_factor r)%F /\ (complexity_factor r <= lit 1)%F /\
  needs_supports r = true.
Proof.
  destruct (C3_complexity_range_and_supports pow_stub "model.stl" 500000
              ltac:(lia)) as [A B].
  destruct B as [r E]; [vm_compute; discriminate|].
  exists r. split; [exact E|].
  destruct (A r E) as (H0 & H1 & H2 & _). auto.
Defined.

(** ** The records of the estimator are in the range the pricer needs *)

(** Every record that the estimator returns for a non-negative size
    has a finite volume >= 1.0 and a complexity factor in [0, 1]: the
    hypotheses on the analysis record in the properties of the pricer
    hold of it. *)
Theorem estimated_analysis_in_range (float_pow : float -> float -> float)
    (file_path : string) (file_size : Z) (r : analysis) :
  (0 <= file_size)%Z ->
  analyze_3d_file_simple float_pow file_path file_size = Ok r ->
  (lit 1 <= volume_cm3 r)%F /\ (volume_cm3 r <= FMAX)%F /\
  (Fin 0 <= complexity_factor r)%F /\ (complexity_factor r <= lit 1)%F.
Proof.
  intros H0 E.
  destruct (estimated_complexity _ _ _ _ H0 E) as (C0 & C1 & _).
  split; [exact (estimated_volume_ge _ _ _ _ E)|]. split; [|now split].
  destruct (analyze_3d_file_simple_inv _ _ _ _ E)
    as (q & c & Eq & _ & -> & _ & _ & f & Ef).
  assert (B : (file_size < 50 * 2 ^ 1024)%Z).
  { destruct (Z.lt_ge_cases file_size (50 * 2 ^ 1024)) as [L|L]; [assumption|].
    exfalso. destruct (int_truediv_inv _ _ _ Ef) as [-> F].
    assert (M : (round64 (inject_Z (50 * 2 ^ 1024) / inject_Z 50) <=
                 round64 (inject_Z file_size / inject_Z 50))%F).
    { apply round64_mono, Qdiv_le_mono_l; [reflexivity|].
      now rewrite <- Zle_Qle. }
    assert (I : round64 (inject_Z (50 * 2 ^ 1024) / inject_Z 50) = Inf false)
      by (vm_compute; reflexivity).
    rewrite I in M.
    destruct (round64 (inject_Z file_size / inject_Z 50)) as [|[|]|];
      first [discriminate M|discriminate F]. }
  set (top := round64 (inject_Z (50 * 2 ^ 1024) / inject_Z 100000)).
  assert (Q1 : (q <= top)%F).
  { destruct (int_truediv_inv _ _ _ Eq) as [-> _].
    apply round64_mono, Qdiv_le_mono_l; [reflexivity|].
    rewrite <- Zle_Qle. lia. }
  assert (Q2 : (q * of_int 10 <= top * of_int 10)%F)
    by (apply fmul_mono_r; [fconst|fconst|assumption]).
  assert (M : (py_max (lit 1) (q * of_int 10) <= top * of_int 10)%F).
  { unfold py_max. destruct (fgt _ _); [assumption|fconst]. }
  apply fle_trans with (round_nd (top * of_int 10)%F 3); [|fconst].
  apply round_nd_mono; [lia|assumption].
Qed.

(** ** The scenario of the specification *)

(** 500000 bytes: volume 50.0, surface 300.0, complexity 0.5, supports
    needed. *)
Example scenario_estimate :
  exists r,
    analyze_3d_file_simple pow_stub "model.stl" 500000 = Ok r /\
    volume_cm3 r = lit 50 /\ surface_area_cm2 r = lit 300 /\
    complexity_factor r = lit (1 # 2) /\ needs_supports r = true /\
    face_count r = 10000%Z /\ vertex_count r = 6000%Z.
Proof.
  eexists. split; [vm_compute; reflexivity|].
  repeat split; vm_compute; reflexivity.
Qed.

(** That record in PLA at 20% infill and 0.2 mm layers, supports left
    to the analysis: supports are included, the multiplier is 0.28,
    the print takes 162.5 minutes, returned as 162.0, and the total is
    58.11. *)
Example scenario_price :
  exists r k q,
    analyze_3d_file_simple pow_stub "model.stl" 500000 = Ok r /\
    infill_multiplier (lit 20) = Ok k /\ k = lit (28 # 100) /\
    calculate_price r "PLA" (lit 20) (lit (2 # 10)) None = Ok q /\
    includes_supports (parameters q) = true /\
    costs_material (costs q) = lit (67 # 100) /\
    machine_time (costs q) = lit (4062 # 100) /\
    post_processing (costs q) = lit (52 # 10) /\
    minutes (print_time q) = lit 162 /\
    total (costs q) = lit (5811 # 100).
Proof.
  do 3 eexists. split; [vm_compute; reflexivity|].
  split; [vm_compute; reflexivity|]. split; [vm_compute; reflexivity|].
  split; [vm_compute; reflexivity|].
  repeat split; vm_compute; reflexivity.
Qed.

(** ** More on the estimator *)

Import EstimatorValues.
(** *** The sizes for which the estimator returns *)

Lemma int_truediv_cases (n d : Z) :
  (d <> 0)%Z ->
  (exists c, int_truediv n d = Ok c) \/
  int_truediv n d = Raise (OverflowError overflow_message).
Proof.
  intros Hd. unfold int_truediv.
  destruct (Z.eqb_spec d 0) as [E|_]; [contradiction|].
  destruct (round64 _) as [|s|q]; eauto.
Qed.

Lemma int_truediv_overflows (n n' d : Z) :
  (0 < d)%Z -> (n' <= n)%Z ->
  round64 (inject_Z n' / inject_Z d) = Inf false ->
  int_truediv n d = Raise (OverflowError overflow_message).
Proof.
  intros Hd H I. unfold int_truediv.
  destruct (Z.eqb_spec d 0) as [E|_]; [lia|].
  assert (M : (round64 (inject_Z n' / inject_Z d) <=
               round64 (inject_Z n / inject_Z d))%F).
  { apply round64_mono, Qdiv_le_mono_l.
    - change 0 with (inject_Z 0). now rewrite <- Zlt_Qlt.
    - now rewrite <- Zle_Qle. }
  rewrite I in M.
  destruct (round64 (inject_Z n / inject_Z d)) as [|[|]|q];
    first [reflexivity|discriminate M].
Qed.

Section EstimatorMore.

Variable float_pow : float -> float -> float.
Variable file_path : string.

Lemma analyze_3d_file_simple_returns_lt (file_size : Z) :
  (0 <= file_size < size_limit)%Z ->
  exists r, analyze_3d_file_simple float_pow file_path file_size = Ok r.
Proof.
  intros H. set (top := (size_limit - 1)%Z).
  assert (T : (file_size <= top)%Z) by (unfold top; lia).
  destruct (int_truediv_returns file_size top 100000) as [q Eq];
    [lia|lia|fconst|].
  destruct (int_truediv_returns file_size top 1000000) as [c Ec];
    [lia|lia|fconst|].
  destruct (int_truediv_returns file_size top 50) as [f Ef];
    [lia|lia|fconst|].
  assert (E3 : exists t, int_truediv 1 3 = Ok t)
    by (eexists; vm_compute; reflexivity).
  destruct E3 as [third E3].
  pose proof (int_truediv_nonneg file_size 50 f (proj1 H) eq_refl Ef) as F0.
  assert (FM : (f <= FMAX)%F).
  { destruct (int_truediv_inv _ _ _ Ef) as [-> _].
    apply fle_trans with (round64 (inject_Z top / inject_Z 50)); [|fconst].
    apply round64_mono, Qdiv_le_mono_l; [reflexivity|].
    now rewrite <- Zle_Qle. }
  destruct f as [|[|]|x];
    [discriminate F0|discriminate F0|discriminate FM|].
  cbn [fle] in F0. apply Qle_bool_iff in F0.
  assert (FX : (0 <= Qfloor x)%Z).
  { change 0%Z with (Qfloor 0). now apply Qfloor_resp_le. }
  assert (FC : exists y, float_of_int (Qfloor x) = Ok (Fin y) /\ 0 <= y /\
                         (Fin y <= FMAX)%F).
  { unfold float_of_int, of_int.
    assert (L : (Fin 0 <= round64 (inject_Z (Qfloor x)))%F).
    { apply round64_nonneg. change 0 with (inject_Z 0).
      now rewrite <- Zle_Qle. }
    assert (U : (round64 (inject_Z (Qfloor x)) <= FMAX)%F).
    { apply fle_trans with (round64 x).
      - apply round64_mono, Qfloor_le.
      - destruct (int_truediv_inv _ _ _ Ef) as [Ex _].
        pose proof (round64_binary64 (inject_Z file_size / inject_Z 50)) as B.
        rewrite <- Ex in B. destruct (binary64_round x B) as [_ B'].
        now apply fle_trans with (Fin x). }
    destruct (round64 (inject_Z (Qfloor x))) as [|[|]|y];
      [discriminate L|discriminate L|discriminate U|].
    exists y. cbn [fle] in L. apply Qle_bool_iff in L. auto. }
  destruct FC as (y & Ey & Y0 & YM).
  assert (V : is_finite (Fin y * lit (6 # 10))%F = true).
  { apply (fle_finite _ (Fin 0 * lit (6 # 10))%F (FMAX * lit (6 # 10))%F);
      [fconst|fconst| |]; (apply fmul_mono_r; [fconst|fconst|]);
      [cbn [fle]; now apply Qle_bool_iff|assumption]. }
  unfold analyze_3d_file_simple, try_except.
  rewrite Eq. cbv beta iota zeta delta [bind].
  rewrite E3. cbv beta iota zeta delta [bind].
  rewrite Ec. cbv beta iota zeta delta [bind].
  rewrite Ef. cbv beta iota zeta delta [bind int_of_float].
  apply Qle_bool_iff in F0. rewrite F0.
  rewrite Ey. cbv beta iota zeta delta [bind].
  destruct (Fin y * lit (6 # 10))%F as [|[|]|v];
    [discriminate V|discriminate V|discriminate V|].
  cbv beta iota zeta delta [bind int_of_float].
  eauto.
Qed.

Lemma analyze_3d_file_simple_overflows (file_size : Z) :
  (size_limit <= file_size)%Z ->
  analyze_3d_file_simple float_pow file_path file_size =
  Raise (ValueError ("Error analyzing 3D file: " ++ overflow_message)).
Proof.
  intros H.
  assert (P : (0 < size_limit)%Z) by (vm_compute; reflexivity).
  assert (O : int_truediv file_size 50 = Raise (OverflowError overflow_message)).
  { apply (int_truediv_overflows file_size size_limit 50);
      [lia|assumption|vm_compute; reflexivity]. }
  assert (E3 : exists t, int_truediv 1 3 = Ok t)
    by (eexists; vm_compute; reflexivity).
  destruct E3 as [third E3].
  unfold analyze_3d_file_simple, try_except.
  destruct (int_truediv_cases file_size 100000) as [[q ->]| ->];
    [lia| |reflexivity].
  cbv beta iota zeta delta [bind]. rewrite E3.
  cbv beta iota zeta delta [bind].
  destruct (int_truediv_cases file_size 1000000) as [[c ->]| ->];
    [lia| |reflexivity].
  cbv beta iota zeta delta [bind]. rewrite O. reflexivity.
Qed.

End EstimatorMore.

(** *** Every field of a returned record *)

Lemma py_max_mono_r (a b b' : float) :
  is_nan a = false -> (b <= b')%F -> (py_max a b <= py_max a b')%F.
Proof.
  intros Ha H. unfold py_max, fgt.
  destruct (flt a b) eqn:E, (flt a b') eqn:E'.
  - assumption.
  - exfalso. pose proof (flt_fle_trans _ _ _ E H). congruence.
  - now apply flt_fle.
  - now apply fle_refl.
Qed.

Lemma py_min_mono_r (a b b' : float) :
  is_nan a = false -> (b <= b')%F -> (py_min a b <= py_min a b')%F.
Proof.
  intros Ha H. unfold py_min.
  destruct (flt b a) eqn:E, (flt b' a) eqn:E'.
  - assumption.
  - now apply flt_fle.
  - exfalso. pose proof (fle_flt_trans _ _ _ H E'). congruence.
  - now apply fle_refl.
Qed.

Lemma int_of_float_mono (x y : float) (m n : Z) :
  (Fin 0 <= x)%F -> (x <= y)%F ->
  int_of_float x = Ok m -> int_of_float y = Ok n -> (0 <= m <= n)%Z.
Proof.
  intros H0 H. destruct x as [|[|]|a]; try discriminate.
  destruct y as [|[|]|b]; try discriminate.
  cbn [fle int_of_float] in *. apply Qle_bool_iff in H0, H.
  assert (Hb : 0 <= b) by lra.
  apply Qle_bool_iff in H0, Hb. rewrite H0, Hb.
  intros E1 E2. apply Ok_inj in E1, E2. subst m n.
  apply Qle_bool_iff in H0. split.
  - change 0%Z with (Qfloor 0). now apply Qfloor_resp_le.
  - now apply Qfloor_resp_le.
Qed.

Section EstimatorFields.

Variable float_pow : float -> float -> float.
Variable file_path : string.

Lemma analyze_3d_file_simple_fields (file_size : Z) (r : analysis) :
  analyze_3d_file_simple float_pow file_path file_size = Ok r ->
  exists q c f fc,
    int_truediv file_size 100000 = Ok q /\
    int_truediv file_size 1000000 = Ok c /\
    int_truediv file_size 50 = Ok f /\
    int_of_float f = Ok (face_count r) /\
    float_of_int (face_count r) = Ok fc /\
    int_of_float (fc * lit (6 # 10))%F = Ok (vertex_count r) /\
    volume_cm3 r = round_nd (py_max (lit 1) (q * of_int 10)%F) 3 /\
    surface_area_cm2 r =
      round_nd (py_max (lit 1) (q * of_int 10) * of_int 6)%F 2 /\
    complexity_factor r = round_nd (py_min (lit 1) c) 3 /\
    needs_supports r = fgt (py_min (lit 1) c) (lit (3 # 10)).
Proof.
  unfold analyze_3d_file_simple, try_except.
  destruct (int_truediv file_size 100000) as [q|]; [|discriminate].
  cbv beta iota zeta delta [bind].
  destruct (int_truediv 1 3) as [third|]; [|discriminate].
  cbv beta iota zeta delta [bind].
  destruct (int_truediv file_size 1000000) as [c|]; [|discriminate].
  cbv beta iota zeta delta [bind].
  destruct (int_truediv file_size 50) as [f|]; [|discriminate].
  cbv beta iota zeta delta [bind].
  destruct (int_of_float f) as [n|] eqn:En; [|discriminate].
  cbv beta iota zeta delta [bind].
  destruct (float_of_int n) as [fc|] eqn:Ec; [|discriminate].
  cbv beta iota zeta delta [bind].
  destruct (int_of_float (fc * lit (6 # 10))%F) as [v|] eqn:Ev;
    [|discriminate].
  cbv beta iota zeta delta [bind].
  intros E. apply Ok_inj in E. subst r. exists q, c, f, fc.
  cbn [face_count vertex_count volume_cm3 surface_area_cm2 complexity_factor
       needs_supports].
  repeat (split; [first [reflexivity|assumption]|]). reflexivity.
Qed.

(** The volume before rounding is at least 1.0. *)
Lemma estimated_volume_raw_ge (q : float) :
  (lit 1 <= py_max (lit 1) (q * of_int 10))%F.
Proof. apply py_max_ge_l. fconst. Qed.

Lemma estimator_monotone (s s' : Z) (r r' : analysis) :
  (0 <= s <= s')%Z ->
  analyze_3d_file_simple float_pow file_path s = Ok r ->
  analyze_3d_file_simple float_pow file_path s' = Ok r' ->
  (volume_cm3 r <= volume_cm3 r')%F /\
  (surface_area_cm2 r <= surface_area_cm2 r')%F /\
  (complexity_factor r <= complexity_factor r')%F /\
  (face_count r <= face_count r')%Z /\
  (needs_supports r = true -> needs_supports r' = true).
Proof.
  intros H E E'.
  destruct (estimated_complexity _ _ _ _ (proj1 H) E) as (_ & _ & N & _).
  destruct (estimated_complexity _ _ s' _ ltac:(lia) E') as (_ & _ & N' & _).
  destruct (analyze_3d_file_simple_fields _ _ E)
    as (q & c & f & fc & Eq & Ec & Ef & En & _ & _ & -> & -> & -> & _).
  destruct (analyze_3d_file_simple_fields _ _ E')
    as (q' & c' & f' & fc' & Eq' & Ec' & Ef' & En' & _ & _ & -> & -> & -> & _).
  assert (Q : (q <= q')%F)
    by (apply (int_truediv_mono s s' 100000); [lia|lia|assumption..]).
  assert (C : (c <= c')%F)
    by (apply (int_truediv_mono s s' 1000000); [lia|lia|assumption..]).
  assert (F : (f <= f')%F)
    by (apply (int_truediv_mono s s' 50); [lia|lia|assumption..]).
  assert (V : (py_max (lit 1) (q * of_int 10) <=
               py_max (lit 1) (q' * of_int 10))%F).
  { apply py_max_mono_r; [fconst|].
    apply fmul_mono_r; [fconst|fconst|assumption]. }
  split; [apply round_nd_mono; [lia|assumption]|].
  split; [apply round_nd_mono; [lia|];
          apply fmul_mono_r; [fconst|fconst|assumption]|].
  split; [apply round_nd_mono; [lia|];
          apply py_min_mono_r; [fconst|assumption]|].
  split.
  - assert (F0 : (Fin 0 <= f)%F)
      by (apply (int_truediv_nonneg s 50); [lia|lia|assumption]).
    destruct (int_of_float_mono f f' _ _ F0 F En En'). assumption.
  - rewrite N, N'. intros K. apply Z.ltb_lt in K. apply Z.ltb_lt. lia.
Qed.

Lemma estimator_surface_ge (s : Z) (r : analysis) :
  analyze_3d_file_simple float_pow file_path s = Ok r ->
  (lit 6 <= surface_area_cm2 r)%F.
Proof.
  intros E.
  destruct (analyze_3d_file_simple_fields _ _ E)
    as (q & c & f & fc & _ & _ & _ & _ & _ & _ & _ & -> & _).
  apply fle_trans with (round_nd (lit 1 * of_int 6)%F 2); [fconst|].
  apply round_nd_mono; [lia|].
  apply fmul_mono_r; [fconst|fconst|apply estimated_volume_raw_ge].
Qed.

(** Small files: the floor of the volume binds. *)
Lemma estimator_small (s : Z) (r : analysis) :
  (0 <= s <= 10000)%Z ->
  analyze_3d_file_simple float_pow file_path s = Ok r ->
  volume_cm3 r = lit 1 /\ surface_area_cm2 r = lit 6.
Proof.
  intros H E.
  destruct (analyze_3d_file_simple_fields _ _ E)
    as (q & c & f & fc & Eq & _ & _ & _ & _ & _ & -> & -> & _).
  assert (E1 : exists q1, int_truediv 10000 100000 = Ok q1 /\
                          (q1 * of_int 10 <= lit 1)%F)
    by (eexists; split; [vm_compute; reflexivity|vm_compute; reflexivity]).
  destruct E1 as (q1 & E1 & L1).
  assert (Q : (q * of_int 10 <= lit 1)%F).
  { apply fle_trans with (q1 * of_int 10)%F; [|assumption].
    apply fmul_mono_r; [fconst|fconst|].
    apply (int_truediv_mono s 10000 100000); [lia|lia|assumption..]. }
  assert (M : py_max (lit 1) (q * of_int 10) = lit 1).
  { unfold py_max, fgt. now rewrite (flt_irrefl_le _ _ Q). }
  rewrite M. split; vm_compute; reflexivity.
Qed.

(** Large files: the complexity saturates. *)
Lemma estimator_saturated (s : Z) (r : analysis) :
  (1000000 <= s)%Z ->
  analyze_3d_file_simple float_pow file_path s = Ok r ->
  complexity_factor r = lit 1 /\ needs_supports r = true.
Proof.
  intros H E.
  destruct (analyze_3d_file_simple_fields _ _ E)
    as (q & c & f & fc & _ & Ec & _ & _ & _ & _ & _ & _ & -> & ->).
  assert (E1 : exists c1, int_truediv 1000000 1000000 = Ok c1 /\
                          (lit 1 <= c1)%F)
    by (eexists; split; [vm_compute; reflexivity|vm_compute; reflexivity]).
  destruct E1 as (c1 & E1 & L1).
  assert (C : (lit 1 <= c)%F).
  { apply fle_trans with c1; [assumption|].
    apply (int_truediv_mono 1000000 s 1000000); [lia|lia|assumption..]. }
  assert (M : py_min (lit 1) c = lit 1).
  { unfold py_min. now rewrite (flt_irrefl_le _ _ C). }
  rewrite M. split; vm_compute; reflexivity.
Qed.

End EstimatorFields.

(** *** The face count is exact *)

Lemma round64_fixed (v : Q) (m e : Z) :
  (0 < m < 2 ^ 53)%Z -> (-1074 <= e)%Z -> v == inject_Z m * 2 ^ e ->
  v < 2 ^ 1024 ->
  exists r, round64 v = Fin r /\ r == v.
Proof.
  intros Hm He Hv Hb.
  pose proof (round_pos_fixed v m e Hm He Hv) as F.
  assert (V0 : 0 < v).
  { rewrite Hv. pose proof (pow2_pos e).
    assert (0 < inject_Z m)
      by (change 0 with (inject_Z 0); rewrite <- Zlt_Qlt; lia).
    nra. }
  unfold round64.
  destruct (Qcompare_spec v 0) as [C|C|C]; try lra.
  unfold clamp.
  destruct (Qle_bool (2 ^ 1024) (round_pos v)) eqn:E.
  - apply Qle_bool_iff in E. lra.
  - eexists. split; [reflexivity|]. now rewrite Qred_correct.
Qed.

Lemma round64_int (z : Z) :
  (0 <= z < 2 ^ 53)%Z ->
  exists r, round64 (inject_Z z) = Fin r /\ r == inject_Z z.
Proof.
  intros H. destruct (Z.eq_dec z 0) as [->|N].
  - exists 0. split; reflexivity.
  - apply (round64_fixed _ z 0); [lia|lia| |].
    + change (2 ^ 0) with 1. ring.
    + apply Qlt_trans with (inject_Z (2 ^ 53)).
      * rewrite <- Zlt_Qlt. lia.
      * reflexivity.
Qed.

Lemma Qfloor_unique (x : Q) (k : Z) :
  inject_Z k <= x -> x < inject_Z k + 1 -> Qfloor x = k.
Proof.
  intros L U.
  pose proof (Qfloor_resp_le _ _ L) as A. rewrite Qfloor_Z in A.
  destruct (floor_bounds x) as [B _].
  assert (C : inject_Z (Qfloor x) < inject_Z (k + 1)).
  { rewrite inject_Z_plus. change (inject_Z 1) with 1. lra. }
  rewrite <- Zlt_Qlt in C. lia.
Qed.

(** The quotient of a size below 50 * 2^47 by 50 rounds to a float
    whose integer part is the integer quotient. *)
Lemma int_truediv_50_floor (s : Z) (f : float) (n : Z) :
  (0 <= s < 50 * 2 ^ 47)%Z ->
  int_truediv s 50 = Ok f -> int_of_float f = Ok n -> n = (s / 50)%Z.
Proof.
  intros H Ef En.
  set (k := (s / 50)%Z).
  assert (K : (0 <= k < 2 ^ 47)%Z).
  { unfold k. split; [apply Z.div_pos; lia|].
    apply Z.div_lt_upper_bound; lia. }
  assert (S : (50 * k <= s <= 50 * k + 49)%Z).
  { unfold k. pose proof (Z.div_mod s 50 ltac:(lia)).
    pose proof (Z.mod_pos_bound s 50 ltac:(lia)). lia. }
  destruct (int_truediv_inv _ _ _ Ef) as [-> _].
  destruct (round64_int k) as (kr & Ek & Vk); [lia|].
  destruct (round64_fixed (inject_Z (64 * (k + 1) - 1) * 2 ^ (-6))
              (64 * (k + 1) - 1) (-6)) as (yr & Ey & Vy);
    [lia|lia|reflexivity| |].
  { apply Qlt_trans with (inject_Z (2 ^ 53) * 2 ^ (-6)); [|reflexivity].
    apply Qmult_lt_compat_r; [reflexivity|]. rewrite <- Zlt_Qlt. lia. }
  assert (S1 : inject_Z (50 * k) <= inject_Z s <= inject_Z (50 * k + 49)).
  { split; rewrite <- Zle_Qle; lia. }
  rewrite inject_Z_plus, inject_Z_mult in S1.
  change (inject_Z 50) with 50 in *. change (inject_Z 49) with 49 in S1.
  assert (Q1 : inject_Z k <= inject_Z s / 50).
  { apply Qle_shift_div_l; lra. }
  assert (Q2 : inject_Z s / 50 <= inject_Z (64 * (k + 1) - 1) * 2 ^ (-6)).
  { apply Qle_shift_div_r; [reflexivity|].
    unfold Z.sub. rewrite inject_Z_plus, inject_Z_mult, inject_Z_plus.
    change (2 ^ (-6)) with (1 # 64). change (inject_Z 64) with 64.
    change (inject_Z 1) with 1. change (inject_Z (- (1))) with (-1). lra. }
  pose proof (round64_mono _ _ Q1) as M1. rewrite Ek in M1.
  pose proof (round64_mono _ _ Q2) as M2. rewrite Ey in M2.
  destruct (round64 (inject_Z s / 50)) as [|[|]|x]; try discriminate.
  cbn [fle] in M1, M2. apply Qle_bool_iff in M1, M2.
  assert (X0 : 0 <= x).
  { assert (0 <= inject_Z k)
      by (change 0 with (inject_Z 0); rewrite <- Zle_Qle; lia). lra. }
  cbn [int_of_float] in En. apply Qle_bool_iff in X0. rewrite X0 in En.
  apply Ok_inj in En. subst n.
  apply Qfloor_unique; [lra|].
  rewrite Vy in M2. unfold Z.sub in M2.
  rewrite inject_Z_plus, inject_Z_mult, inject_Z_plus in M2.
  change (2 ^ (-6)) with (1 # 64) in M2. change (inject_Z 64) with 64 in M2.
  change (inject_Z 1) with 1 in M2. change (inject_Z (- (1))) with (-1) in M2.
  lra.
Qed.

Section EstimatorCounts.

Variable float_pow : float -> float -> float.
Variable file_path : string.

Lemma estimator_counts (s : Z) (r : analysis) :
  (0 <= s < 50 * 2 ^ 47)%Z ->
  analyze_3d_file_simple float_pow file_path s = Ok r ->
  face_count r = (s / 50)%Z /\ (0 <= vertex_count r <= face_count r)%Z.
Proof.
  intros H E.
  destruct (analyze_3d_file_simple_fields _ _ _ _ E)
    as (q & c & f & fc & _ & _ & Ef & En & Ec & Ev & _).
  pose proof (int_truediv_50_floor s f _ H Ef En) as F.
  split; [assumption|].
  set (k := face_count r) in *.
  assert (K : (0 <= k < 2 ^ 47)%Z).
  { rewrite F. split; [apply Z.div_pos; lia|].
    apply Z.div_lt_upper_bound; lia. }
  destruct (round64_int k) as (kr & Ek & Vk); [lia|].
  unfold float_of_int, of_int in Ec. rewrite Ek in Ec.
  apply Ok_inj in Ec. subst fc.
  assert (K0 : 0 <= kr).
  { rewrite Vk. change 0 with (inject_Z 0). rewrite <- Zle_Qle. lia. }
  assert (L : (Fin 0 <= Fin kr * lit (6 # 10))%F).
  { apply fmul_nonneg; [cbn [fle]; now apply Qle_bool_iff|fconst|fconst]. }
  assert (U : (Fin kr * lit (6 # 10) <= Fin kr)%F).
  { apply fle_trans with (Fin kr * lit 1)%F.
    - apply fmul_mono_nonneg_r;
        [cbn [fle]; now apply Qle_bool_iff|fconst|fconst|fconst].
    - replace (lit 1) with (Fin 1) by (vm_compute; reflexivity).
      cbn [fmul]. rewrite <- Ek.
      apply round64_mono. rewrite Vk. lra. }
  destruct (Fin kr * lit (6 # 10))%F as [|[|]|p]; try discriminate.
  cbn [fle] in L, U. apply Qle_bool_iff in L, U.
  cbn [int_of_float] in Ev. apply Qle_bool_iff in L. rewrite L in Ev.
  apply Ok_inj in Ev. rewrite <- Ev. apply Qle_bool_iff in L. split.
  - change 0%Z with (Qfloor 0). now apply Qfloor_resp_le.
  - rewrite <- (Qfloor_Z k). apply Qfloor_resp_le. lra.
Qed.

End EstimatorCounts.

(** *** The vertex count is exact *)

Lemma round_half_even_near (q : Q) (z : Z) :
  inject_Z z - (1 # 2) < q -> q <= inject_Z z -> round_half_even q = z.
Proof.
  intros L U.
  pose proof (round_half_even_le z q U) as A.
  destruct (Qlt_le_dec q (inject_Z z)) as [C|C].
  - assert (F : Qfloor q = (z - 1)%Z).
    { apply Qfloor_unique; unfold Z.sub; rewrite inject_Z_plus;
        change (inject_Z (- (1))) with (-1); lra. }
    unfold round_half_even. rewrite F.
    destruct (Qcompare_spec (q - inject_Z (z - 1)) (1 # 2)) as [E|E|E].
    + exfalso. unfold Z.sub in E. rewrite inject_Z_plus in E.
      change (inject_Z (- (1))) with (-1) in E. lra.
    + exfalso. unfold Z.sub in E. rewrite inject_Z_plus in E.
      change (inject_Z (- (1))) with (-1) in E. lra.
    + lia.
  - assert (E : q == inject_Z z) by lra.
    rewrite E. apply round_half_even_Z.
Qed.

Lemma ilog2_ge (q : Q) (k : Z) : 0 < q -> 2 ^ k <= q -> (k <= ilog2 q)%Z.
Proof.
  intros Hq H. destruct (ilog2_spec q Hq) as [_ U].
  assert (2 ^ k < 2 ^ (ilog2 q + 1)) by lra.
  apply pow2_lt_inv in H0. lia.
Qed.

(** A number just below an integer [j < 2^53], by at most 2^-54 of
    itself, rounds to [j]. *)
Lemma round_pos_near_int (x : Q) (j : Z) :
  (0 < j)%Z -> x <= inject_Z j -> inject_Z j - x <= x * 2 ^ (-54) ->
  x < 2 ^ 53 -> round_pos x == inject_Z j.
Proof.
  intros Hj U N B.
  assert (J1 : 1 <= inject_Z j).
  { change 1 with (inject_Z 1). rewrite <- Zle_Qle. lia. }
  change (2 ^ (-54)) with (1 # 18014398509481984) in N.
  assert (X0 : 0 < x) by lra.
  assert (X1 : 2 ^ (-1) <= x) by (change (2 ^ (-1)) with (1 # 2); lra).
  pose proof (ilog2_ge x (-1) X0 X1) as L0.
  pose proof (ilog2_lt x 53 X0 B) as L1.
  destruct (ilog2_spec x X0) as [_ S].
  unfold round_pos.
  assert (Ec : cexp x = (ilog2 x - 52)%Z) by (unfold cexp; lia).
  rewrite Ec. set (l := ilog2 x) in *.
  assert (P1 : 2 ^ (l - 52) * 2 ^ (52 - l) == 1).
  { rewrite <- pow2_add. now replace (l - 52 + (52 - l))%Z with 0%Z by ring. }
  pose proof (pow2_pos (l - 52)) as Pe. pose proof (pow2_pos (52 - l)) as Pm.
  assert (D : x / 2 ^ (l - 52) == x * 2 ^ (52 - l)).
  { apply Qmult_inj_r with (2 ^ (l - 52)); [lra|].
    rewrite Qmult_comm, Qmult_div_r by lra.
    rewrite <- Qmult_assoc, (Qmult_comm (2 ^ (52 - l))), P1. ring. }
  assert (Z1 : inject_Z (j * 2 ^ (52 - l)) == inject_Z j * 2 ^ (52 - l)).
  { rewrite inject_Z_mult, pow2_inject by lia. reflexivity. }
  assert (R : round_half_even (x / 2 ^ (l - 52)) = (j * 2 ^ (52 - l))%Z).
  { apply round_half_even_near; rewrite D, Z1.
    - assert (H2 : 2 ^ (l + 1) * 2 ^ (52 - l) == 2 ^ 53).
      { rewrite <- pow2_add. now replace (l + 1 + (52 - l))%Z with 53%Z by ring. }
      change (2 ^ 53) with 9007199254740992 in H2.
      assert (H3 : x * 2 ^ (52 - l) < 9007199254740992).
      { rewrite <- H2. apply Qmult_lt_compat_r; assumption. }
      assert (H4 : (inject_Z j - x) * 2 ^ (52 - l) <=
                   x * (1 # 18014398509481984) * 2 ^ (52 - l)).
      { apply Qmult_le_compat_r; lra. }
      nra.
    - apply Qmult_le_compat_r; lra. }
  rewrite R, Z1, <- Qmult_assoc, (Qmult_comm (2 ^ (52 - l))), P1. ring.
Qed.

Lemma round64_near_int (x : Q) (j : Z) :
  (0 < j < 2 ^ 53)%Z -> x <= inject_Z j ->
  inject_Z j - x <= x * 2 ^ (-54) ->
  exists r, round64 x = Fin r /\ r == inject_Z j.
Proof.
  intros Hj U N.
  assert (J1 : 1 <= inject_Z j).
  { change 1 with (inject_Z 1). rewrite <- Zle_Qle. lia. }
  assert (J2 : inject_Z j < 2 ^ 53).
  { rewrite <- pow2_inject by lia. rewrite <- Zlt_Qlt. lia. }
  assert (X0 : 0 < x).
  { change (2 ^ (-54)) with (1 # 18014398509481984) in N. lra. }
  pose proof (round_pos_near_int x j ltac:(lia) U N ltac:(lra)) as F.
  unfold round64.
  destruct (Qcompare_spec x 0) as [C|C|C]; try lra.
  unfold clamp.
  destruct (Qle_bool (2 ^ 1024) (round_pos x)) eqn:E.
  - apply Qle_bool_iff in E. rewrite F in E.
    assert (2 ^ 53 <= 2 ^ 1024) by (apply pow2_le; lia). lra.
  - eexists. split; [reflexivity|]. now rewrite Qred_correct.
Qed.

Lemma vertex_count_exact (k v : Z) (fc : float) :
  (0 <= k < 2 ^ 47)%Z ->
  float_of_int k = Ok fc -> int_of_float (fc * lit (6 # 10))%F = Ok v ->
  v = (3 * k / 5)%Z.
Proof.
  intros K Ec Ev.
  destruct (round64_int k) as (kr & Ek & Vk); [lia|].
  unfold float_of_int, of_int in Ec. rewrite Ek in Ec.
  apply Ok_inj in Ec. subst fc.
  replace (lit (6 # 10)) with (Fin (5404319552844595 # 9007199254740992)) in Ev
    by (vm_compute; reflexivity).
  cbn [fmul] in Ev.
  set (P := kr * (5404319552844595 # 9007199254740992)) in *.
  set (j := (3 * k / 5)%Z).
  set (r := ((3 * k) mod 5)%Z).
  assert (D : (3 * k = 5 * j + r)%Z) by (apply Z.div_mod; lia).
  assert (R : (0 <= r < 5)%Z) by (apply Z.mod_pos_bound; lia).
  assert (J : (0 <= j < 2 ^ 47)%Z).
  { unfold j. split; [apply Z.div_pos; lia|].
    apply Z.div_lt_upper_bound; lia. }
  assert (DQ : 3 * inject_Z k == 5 * inject_Z j + inject_Z r).
  { change 3 with (inject_Z 3). change 5 with (inject_Z 5).
    rewrite <- !inject_Z_mult, <- inject_Z_plus. now rewrite D. }
  assert (RQ : 0 <= inject_Z r <= 4).
  { change 0 with (inject_Z 0). change 4 with (inject_Z 4).
    split; rewrite <- Zle_Qle; lia. }
  assert (JQ : 0 <= inject_Z j < 140737488355328).
  { change 0 with (inject_Z 0).
    change 140737488355328 with (inject_Z (2 ^ 47)).
    split; [rewrite <- Zle_Qle|rewrite <- Zlt_Qlt]; lia. }
  assert (PQ : P == inject_Z k * (5404319552844595 # 9007199254740992))
    by (unfold P; now rewrite Vk).
  assert (X : exists p, round64 P = Fin p /\
                        inject_Z j <= p /\ p < inject_Z j + 1).
  { destruct (Z.eq_dec r 0) as [R0|R0];
      [destruct (Z.eq_dec j 0) as [J0|J0]|].
    - (* the product is zero *)
      assert (P0 : P == 0).
      { rewrite R0, J0 in DQ. change (inject_Z 0) with 0 in DQ. lra. }
      exists 0. split.
      + unfold round64.
        destruct (Qcompare_spec P 0) as [C|C|C]; [reflexivity|lra|lra].
      + rewrite J0. change (inject_Z 0) with 0. lra.
    - (* the exact product is the integer [j] less a sliver *)
      rewrite R0 in DQ. change (inject_Z 0) with 0 in DQ.
      destruct (round64_near_int P j) as (p & Ep & Vp); [lia| | |].
      + lra.
      + change (2 ^ (-54)) with (1 # 18014398509481984). lra.
      + exists p. split; [assumption|]. lra.
    - (* the exact product is well inside ]j, j+1[ *)
      assert (R1 : 1 <= inject_Z r).
      { change 1 with (inject_Z 1). rewrite <- Zle_Qle. lia. }
      destruct (round64_int j) as (jr & Ej & Vj); [lia|].
      destruct (round64_fixed (inject_Z (64 * (j + 1) - 1) * 2 ^ (-6))
                  (64 * (j + 1) - 1) (-6)) as (yr & Ey & Vy);
        [lia|lia|reflexivity| |].
      { apply Qlt_trans with (inject_Z (2 ^ 53) * 2 ^ (-6)); [|reflexivity].
        apply Qmult_lt_compat_r; [reflexivity|]. rewrite <- Zlt_Qlt. lia. }
      assert (Y : inject_Z (64 * (j + 1) - 1) * 2 ^ (-6) ==
                  inject_Z j + (63 # 64)).
      { unfold Z.sub. rewrite inject_Z_plus, inject_Z_mult, inject_Z_plus.
        change (2 ^ (-6)) with (1 # 64). change (inject_Z 64) with 64.
        change (inject_Z 1) with 1. change (inject_Z (- (1))) with (-1).
        ring. }
      assert (Q1 : inject_Z j <= P) by lra.
      assert (Q2 : P <= inject_Z (64 * (j + 1) - 1) * 2 ^ (-6)) by lra.
      pose proof (round64_mono _ _ Q1) as M1. rewrite Ej in M1.
      pose proof (round64_mono _ _ Q2) as M2. rewrite Ey in M2.
      destruct (round64 P) as [|[|]|p]; try discriminate.
      cbn [fle] in M1, M2. apply Qle_bool_iff in M1, M2.
      exists p. split; [reflexivity|]. lra. }
  destruct X as (p & Ep & L & U). rewrite Ep in Ev.
  cbn [int_of_float] in Ev.
  assert (P0 : 0 <= p) by lra.
  apply Qle_bool_iff in P0. rewrite P0 in Ev.
  apply Ok_inj in Ev. subst v. now apply Qfloor_unique.
Qed.

(** *** The vertex count grows with the size *)

Lemma float_of_int_mono (k k' : Z) (c c' : float) :
  (0 <= k <= k')%Z -> float_of_int k = Ok c -> float_of_int k' = Ok c' ->
  (Fin 0 <= c)%F /\ (c <= c')%F.
Proof.
  intros H E E'. unfold float_of_int, of_int in *.
  assert (L : (Fin 0 <= round64 (inject_Z k))%F).
  { apply round64_nonneg. change 0 with (inject_Z 0). rewrite <- Zle_Qle. lia. }
  assert (M : (round64 (inject_Z k) <= round64 (inject_Z k'))%F).
  { apply round64_mono. rewrite <- Zle_Qle. lia. }
  destruct (round64 (inject_Z k)) as [|[|]|x]; try discriminate.
  destruct (round64 (inject_Z k')) as [|[|]|x']; try discriminate.
  apply Ok_inj in E, E'. subst c c'. auto.
Qed.

Section EstimatorVertices.

Variable float_pow : float -> float -> float.
Variable file_path : string.

Lemma estimator_vertex_mono (s s' : Z) (r r' : analysis) :
  (0 <= s <= s')%Z ->
  analyze_3d_file_simple float_pow file_path s = Ok r ->
  analyze_3d_file_simple float_pow file_path s' = Ok r' ->
  (vertex_count r <= vertex_count r')%Z.
Proof.
  intros H E E'.
  destruct (estimator_monotone float_pow file_path s s' r r' H E E')
    as (_ & _ & _ & F & _).
  destruct (analyze_3d_file_simple_fields _ _ _ _ E)
    as (q & c & f & fc & _ & _ & Ef & En & Ec & Ev & _).
  destruct (analyze_3d_file_simple_fields _ _ _ _ E')
    as (q' & c' & f' & fc' & _ & _ & Ef' & En' & Ec' & Ev' & _).
  assert (F0 : (0 <= face_count r)%Z).
  { pose proof (int_truediv_nonneg s 50 f ltac:(lia) eq_refl Ef) as P.
    destruct (int_of_float_mono f f _ _ P
                (fle_refl f (proj2 (fle_not_nan _ _ P))) En En). assumption. }
  destruct (float_of_int_mono _ _ _ _ (conj F0 F) Ec Ec') as [C0 C].
  assert (V0 : (Fin 0 <= fc * lit (6 # 10))%F)
    by (apply fmul_nonneg; [assumption|fconst|fconst]).
  assert (V : (fc * lit (6 # 10) <= fc' * lit (6 # 10))%F)
    by (apply fmul_mono_r; [fconst|fconst|assumption]).
  destruct (int_of_float_mono _ _ _ _ V0 V Ev Ev'). assumption.
Qed.

End EstimatorVertices.

(** *** The estimator over its whole domain *)

(** X1: for a file size that is not negative, [analyze_3d_file_simple]
    returns a record when the size is below 50 * (2^1024 - 2^970)
    bytes; from that size on the quotient [file_size / 50] is too large
    for a float and the function raises the ValueError that wraps the
    [OverflowError]. *)
Theorem X1_estimator_returns_below_limit
    (float_pow : float -> float -> float) (file_path : string) (file_size : Z) :
  (0 <= file_size)%Z ->
  ((file_size < size_limit)%Z ->
   exists r, analyze_3d_file_simple float_pow file_path file_size = Ok r) /\
  ((size_limit <= file_size)%Z ->
   analyze_3d_file_simple float_pow file_path file_size =
   Raise (ValueError
            "Error analyzing 3D file: integer division result too large for a float")).
Proof.
  intros H0. split.
  - intros H. apply analyze_3d_file_simple_returns_lt. lia.
  - intros H. now apply analyze_3d_file_simple_overflows.
Qed.

Lemma X1_estimator_returns_below_limit_witness :
  exists r, analyze_3d_file_simple pow_stub "model.stl" 500000 = Ok r.
Proof.
  apply (proj1 (X1_estimator_returns_below_limit pow_stub "model.stl" 500000
                  ltac:(lia))).
  vm_compute. reflexivity.
Defined.

(** X2: the estimator is monotone in the file size: of two sizes, the
    larger never gives a smaller volume, surface area, complexity
    factor, face count or vertex count, and it needs supports whenever
    the smaller does. *)
Theorem X2_estimator_monotone
    (float_pow : float -> float -> float) (file_path : string)
    (file_size file_size' : Z) :
  (0 <= file_size <= file_size')%Z -> (file_size' < size_limit)%Z ->
  exists r r',
    analyze_3d_file_simple float_pow file_path file_size = Ok r /\
    analyze_3d_file_simple float_pow file_path file_size' = Ok r' /\
    (volume_cm3 r <= volume_cm3 r')%F /\
    (surface_area_cm2 r <= surface_area_cm2 r')%F /\
    (complexity_factor r <= complexity_factor r')%F /\
    (face_count r <= face_count r')%Z /\
    (vertex_count r <= vertex_count r')%Z /\
    (needs_supports r = true -> needs_supports r' = true).
Proof.
  intros H Hb.
  destruct (analyze_3d_file_simple_returns_lt float_pow file_path file_size)
    as [r E]; [lia|].
  destruct (analyze_3d_file_simple_returns_lt float_pow file_path file_size')
    as [r' E']; [lia|].
  exists r, r'. split; [exact E|]. split; [exact E'|].
  destruct (estimator_monotone float_pow file_path _ _ r r' H E E')
    as (V & S & C & F & N).
  pose proof (estimator_vertex_mono float_pow file_path _ _ r r' H E E').
  auto 10.
Qed.

Lemma X2_estimator_monotone_witness :
  exists r r',
    analyze_3d_file_simple pow_stub "model.stl" 20000 = Ok r /\
    analyze_3d_file_simple pow_stub "model.stl" 500000 = Ok r' /\
    (volume_cm3 r <= volume_cm3 r')%F /\
    (surface_area_cm2 r <= surface_area_cm2 r')%F /\
    (complexity_factor r <= complexity_factor r')%F /\
    (face_count r <= face_count r')%Z /\
    (vertex_count r <= vertex_count r')%Z /\
    (needs_supports r = true -> needs_supports r' = true).
Proof.
  apply (X2_estimator_monotone pow_stub "model.stl" 20000 500000);
    [lia|vm_compute; reflexivity].
Defined.

(** X3: the floor of the volume binds for the files of at most 10000
    bytes: the returned volume is 1.0 and the surface area 6.0; and no
    returned surface area is below 6.0. *)
Theorem X3_estimator_small_files
    (float_pow : float -> float -> float) (file_path : string) (file_size : Z) :
  (0 <= file_size)%Z -> (file_size < size_limit)%Z ->
  exists r,
    analyze_3d_file_simple float_pow file_path file_size = Ok r /\
    (lit 6 <= surface_area_cm2 r)%F /\
    ((file_size <= 10000)%Z ->
     volume_cm3 r = lit 1 /\ surface_area_cm2 r = lit 6).
Proof.
  intros H0 Hb.
  destruct (analyze_3d_file_simple_returns_lt float_pow file_path file_size)
    as [r E]; [lia|].
  exists r. split; [exact E|].
  split; [exact (estimator_surface_ge float_pow file_path _ r E)|].
  intros Hs. apply (estimator_small float_pow file_path file_size); [lia|exact E].
Qed.

Lemma X3_estimator_small_files_witness :
  exists r,
    analyze_3d_file_simple pow_stub "model.stl" 8000 = Ok r /\
    volume_cm3 r = lit 1 /\ surface_area_cm2 r = lit 6.
Proof.
  destruct (X3_estimator_small_files pow_stub "model.stl" 8000)
    as (r & E & _ & H); [lia|vm_compute; reflexivity|].
  exists r. split; [exact E|]. apply H. lia.
Defined.

(** X4: from one million bytes on the complexity saturates: the
    returned complexity factor is 1.0 and supports are needed. *)
Theorem X4_estimator_saturates
    (float_pow : float -> float -> float) (file_path : string) (file_size : Z) :
  (1000000 <= file_size)%Z -> (file_size < size_limit)%Z ->
  exists r,
    analyze_3d_file_simple float_pow file_path file_size = Ok r /\
    complexity_factor r = lit 1 /\ needs_supports r = true.
Proof.
  intros H Hb.
  destruct (analyze_3d_file_simple_returns_lt float_pow file_path file_size)
    as [r E]; [lia|].
  exists r. split; [exact E|].
  now apply (estimator_saturated float_pow file_path file_size).
Qed.

Lemma X4_estimator_saturates_witness :
  exists r,
    analyze_3d_file_simple pow_stub "model.stl" 2500000 = Ok r /\
    complexity_factor r = lit 1 /\ needs_supports r = true.
Proof.
  apply (X4_estimator_saturates pow_stub "model.stl" 2500000);
    [lia|vm_compute; reflexivity].
Defined.

(** X5: for a file below 50 * 2^47 bytes the float arithmetic of the
    counts is exact: the face count is the integer quotient of the
    size by 50 and the vertex count is three fifths of the face count,
    rounded down. *)
Theorem X5_estimator_counts_exact
    (float_pow : float -> float -> float) (file_path : string) (file_size : Z) :
  (0 <= file_size < 50 * 2 ^ 47)%Z ->
  exists r,
    analyze_3d_file_simple float_pow file_path file_size = Ok r /\
    face_count r = (file_size / 50)%Z /\
    vertex_count r = (3 * face_count r / 5)%Z.
Proof.
  intros H.
  destruct (analyze_3d_file_simple_returns_lt float_pow file_path file_size)
    as [r E].
  { split; [lia|]. apply Z.lt_trans with (50 * 2 ^ 47)%Z; [lia|].
    vm_compute. reflexivity. }
  exists r. split; [exact E|].
  destruct (estimator_counts float_pow file_path file_size r H E) as [F _].
  split; [exact F|].
  destruct (analyze_3d_file_simple_fields _ _ _ _ E)
    as (q & c & f & fc & _ & _ & _ & _ & Ec & Ev & _).
  apply (vertex_count_exact (face_count r) (vertex_count r) fc);
    [|assumption|assumption].
  rewrite F. split; [apply Z.div_pos; lia|].
  apply Z.div_lt_upper_bound; lia.
Qed.

Lemma X5_estimator_counts_exact_witness :
  exists r,
    analyze_3d_file_simple pow_stub "model.stl" 1234567 = Ok r /\
    face_count r = (1234567 / 50)%Z /\
    vertex_count r = (3 * face_count r / 5)%Z.
Proof.
  apply (X5_estimator_counts_exact pow_stub "model.stl" 1234567).
  split; [lia|vm_compute; reflexivity].
Defined.

(** ** More on the pricer *)

(** *** Every figure of a quote is ordered *)

Lemma fadd_ge_r (x y : float) :
  is_binary64 y = true -> (Fin 0 <= x)%F -> (Fin 0 <= y)%F -> (y <= x + y)%F.
Proof.
  intros B Hx Hy. destruct y as [|[|]|b]; try discriminate.
  - now destruct x as [|[|]|a].
  - destruct x as [|[|]|a]; try discriminate; [reflexivity|].
    cbn [fadd]. destruct (binary64_round b B) as [L _].
    apply fle_trans with (round64 b); [assumption|].
    apply round64_mono. cbn [fle] in Hx. qprop. lra.
Qed.

Lemma round_nd_nonneg (x : float) (n : Z) :
  (0 <= n)%Z -> (Fin 0 <= x)%F -> (Fin 0 <= round_nd x n)%F.
Proof.
  intros Hn H. destruct x as [|[|]|q]; try discriminate; [reflexivity|].
  cbn [round_nd]. cbn [fle] in H. apply Qle_bool_iff in H.
  assert (P : 0 < inject_Z (10 ^ n)).
  { change 0 with (inject_Z 0). rewrite <- Zlt_Qlt. now apply Z.pow_pos_nonneg. }
  apply round64_nonneg, Qdiv_nonneg; [|assumption].
  change 0 with (inject_Z 0). rewrite <- Zle_Qle.
  apply round_half_even_ge. change (inject_Z 0) with 0.
  apply Qmult_le_0_compat; lra.
Qed.

Lemma round_nd_ge_const (c x : float) (n : Z) :
  (0 <= n)%Z -> (c <= round_nd c n)%F -> (c <= x)%F -> (c <= round_nd x n)%F.
Proof.
  intros Hn Hc H. apply fle_trans with (round_nd c n); [assumption|].
  now apply round_nd_mono.
Qed.

Section QuoteFigures.

Variable p : mat_props.
Hypothesis G : good_material p.
Variable a : analysis.
Hypothesis Vlo : (lit 1 <= volume_cm3 a)%F.
Hypothesis Clo : (Fin 0 <= complexity_factor a)%F.
Variable lh : float.
Hypothesis Lpos : (Fin 0 < lh)%F.
Hypothesis Lhi : (lh <= FMAX)%F.
Variable infill : float.
Hypothesis Hi : (Fin 0 <= infill)%F.
Variable inc : bool.

Lemma weight_g_v_nonneg : (Fin 0 <= weight_g_v p a infill inc)%F.
Proof.
  destruct G. unfold weight_g_v.
  apply fmul_nonneg; [|assumption|assumption].
  now apply effective_volume_v_nonneg.
Qed.

Lemma total_time_hours_v_nonneg : (Fin 0 <= total_time_hours_v p a lh inc)%F.
Proof.
  unfold total_time_hours_v. apply fquot_nonneg; [|fconst|fconst].
  now apply total_time_minutes_v_nonneg.
Qed.

Lemma margin_amount_v_nonneg : (Fin 0 <= margin_amount_v p a infill lh inc)%F.
Proof.
  unfold margin_amount_v. apply fmul_nonneg; [|fconst|fconst].
  now apply subtotal_v_nonneg.
Qed.

Lemma subtotal_v_ge_material :
  (material_cost_v p a infill inc <= subtotal_v p a infill lh inc)%F.
Proof.
  unfold subtotal_v.
  apply fle_trans with
    (material_cost_v p a infill inc + machine_cost_v p a lh inc)%F.
  - apply fadd_ge_l;
      [apply fmul_binary64|now apply material_cost_v_nonneg
      |now apply machine_cost_v_nonneg].
  - apply fadd_ge_l; [apply fadd_binary64|now apply cost_sum_nonneg|].
    apply fle_trans with (lit 5); [fconst|now apply post_processing_v_ge].
Qed.

Lemma subtotal_v_ge_machine :
  (machine_cost_v p a lh inc <= subtotal_v p a infill lh inc)%F.
Proof.
  unfold subtotal_v.
  apply fle_trans with
    (material_cost_v p a infill inc + machine_cost_v p a lh inc)%F.
  - apply fadd_ge_r;
      [apply fmul_binary64|now apply material_cost_v_nonneg
      |now apply machine_cost_v_nonneg].
  - apply fadd_ge_l; [apply fadd_binary64|now apply cost_sum_nonneg|].
    apply fle_trans with (lit 5); [fconst|now apply post_processing_v_ge].
Qed.

Lemma post_processing_v_binary64 :
  is_binary64 (post_processing_v p a infill inc) = true.
Proof. unfold post_processing_v. destruct inc; [apply fadd_binary64|fconst]. Qed.

Lemma subtotal_v_ge_post_processing :
  (post_processing_v p a infill inc <= subtotal_v p a infill lh inc)%F.
Proof.
  unfold subtotal_v.
  apply fadd_ge_r; [apply post_processing_v_binary64|now apply cost_sum_nonneg|].
  apply fle_trans with (lit 5); [fconst|now apply post_processing_v_ge].
Qed.

Lemma total_price_v_ge_subtotal :
  (subtotal_v p a infill lh inc <= total_price_v p a infill lh inc)%F.
Proof.
  unfold total_price_v.
  assert (H : (subtotal_v p a infill lh inc <=
               subtotal_v p a infill lh inc + margin_amount_v p a infill lh inc)%F).
  { apply fadd_ge_l;
      [apply fadd_binary64|now apply subtotal_v_nonneg
      |apply margin_amount_v_nonneg]. }
  apply fle_trans with (1 := H).
  apply py_max_ge_l. now destruct (fle_not_nan _ _ H).
Qed.

End QuoteFigures.

(** *** The total grows with the infill and with thinner layers *)

Section TotalMonotone.

Variable p : mat_props.
Hypothesis G : good_material p.
Variable a : analysis.
Hypothesis Vlo : (lit 1 <= volume_cm3 a)%F.
Hypothesis Clo : (Fin 0 <= complexity_factor a)%F.
Variable inc : bool.

(** The total from the three costs. *)
Lemma total_from_costs_mono (mc mc' ma ma' pp pp' : float) :
  (Fin 0 <= mc)%F -> (mc <= mc')%F -> (Fin 0 <= ma)%F -> (ma <= ma')%F ->
  (Fin 0 <= pp)%F -> (pp <= pp')%F ->
  (py_max (mc + ma + pp + (mc + ma + pp) * margin PRICING_CONFIG)
          (minimum_price PRICING_CONFIG) <=
   py_max (mc' + ma' + pp' + (mc' + ma' + pp') * margin PRICING_CONFIG)
          (minimum_price PRICING_CONFIG))%F.
Proof.
  intros M0 M A0 A P0 P.
  assert (S0 : (Fin 0 <= mc + ma)%F) by now apply fadd_nonneg.
  assert (S : (mc + ma <= mc' + ma')%F) by now apply fadd_mono_nonneg.
  apply py_max_mono_l; [|fconst].
  apply with_margin_mono.
  - now apply fadd_nonneg.
  - now apply fadd_mono_nonneg.
Qed.

Section InfillTotal.

Hypothesis Vhi : (volume_cm3 a <= FMAX)%F.
Variable lh : float.
Hypothesis Lpos : (Fin 0 < lh)%F.
Hypothesis Lhi : (lh <= FMAX)%F.
Variables i j : float.
Hypothesis I0 : (Fin 0 <= i)%F.
Hypothesis IJ : (i <= j)%F.

Lemma post_processing_v_mono :
  (post_processing_v p a i inc <= post_processing_v p a j inc)%F.
Proof.
  unfold post_processing_v. destruct inc; [|fconst].
  apply fadd_mono_l; [fconst|].
  apply fmul_mono_r; [fconst|fconst|].
  now apply material_cost_v_mono.
Qed.

Lemma total_price_v_mono_infill :
  (total_price_v p a i lh inc <= total_price_v p a j lh inc)%F.
Proof.
  unfold total_price_v, margin_amount_v, subtotal_v.
  apply total_from_costs_mono.
  - now apply material_cost_v_nonneg.
  - now apply material_cost_v_mono.
  - now apply machine_cost_v_nonneg.
  - apply fle_refl.
    now destruct (fle_not_nan _ _ (machine_cost_v_nonneg p G a Vlo Clo lh Lpos Lhi inc)).
  - apply fle_trans with (lit 5); [fconst|now apply post_processing_v_ge].
  - apply post_processing_v_mono.
Qed.

Lemma subtotal_v_mono_infill :
  (subtotal_v p a i lh inc <= subtotal_v p a j lh inc)%F.
Proof.
  unfold subtotal_v.
  apply fadd_mono_nonneg.
  - now apply cost_sum_nonneg.
  - apply fadd_mono_nonneg.
    + now apply material_cost_v_nonneg.
    + now apply material_cost_v_mono.
    + now apply machine_cost_v_nonneg.
    + apply fle_refl.
      now destruct (fle_not_nan _ _ (machine_cost_v_nonneg p G a Vlo Clo lh Lpos Lhi inc)).
  - apply fle_trans with (lit 5); [fconst|now apply post_processing_v_ge].
  - apply post_processing_v_mono.
Qed.

End InfillTotal.

Section LayerTotal.

Variables lh lh' : float.
Hypothesis Lhi : (lh <= FMAX)%F.
Hypothesis Lpos' : (Fin 0 < lh')%F.
Hypothesis Lle : (lh' <= lh)%F.
Variable infill : float.
Hypothesis Hi : (Fin 0 <= infill)%F.

Lemma thinner_pos : (Fin 0 < lh)%F.
Proof. now apply flt_fle_trans with lh'. Qed.

Lemma thinner_hi : (lh' <= FMAX)%F.
Proof. now apply fle_trans with lh. Qed.

Lemma total_time_hours_v_anti :
  (total_time_hours_v p a lh inc <= total_time_hours_v p a lh' inc)%F.
Proof.
  unfold total_time_hours_v. apply fquot_mono_l; [fconst|fconst|].
  apply total_time_minutes_v_anti; auto using thinner_pos.
Qed.

Lemma machine_cost_v_anti :
  (machine_cost_v p a lh inc <= machine_cost_v p a lh' inc)%F.
Proof.
  unfold machine_cost_v. apply fmul_mono_r; [fconst|fconst|].
  apply total_time_hours_v_anti.
Qed.

Lemma total_price_v_anti_layer :
  (total_price_v p a infill lh inc <= total_price_v p a infill lh' inc)%F.
Proof.
  unfold total_price_v, margin_amount_v, subtotal_v.
  pose proof (material_cost_v_nonneg p G a Vlo infill Hi inc) as M.
  apply total_from_costs_mono.
  - assumption.
  - apply fle_refl. now destruct (fle_not_nan _ _ M).
  - apply machine_cost_v_nonneg; auto using thinner_pos.
  - apply machine_cost_v_anti.
  - apply fle_trans with (lit 5); [fconst|now apply post_processing_v_ge].
  - apply fle_refl.
    now destruct (fle_not_nan _ _ (post_processing_v_ge p G a Vlo infill Hi inc)).
Qed.

End LayerTotal.

End TotalMonotone.

(** *** A larger or more complex model never costs less *)

Section SizeMonotone.

Variable p : mat_props.
Hypothesis G : good_material p.
Variables a a' : analysis.
Hypothesis Vlo : (lit 1 <= volume_cm3 a)%F.
Hypothesis V : (volume_cm3 a <= volume_cm3 a')%F.
Hypothesis Clo : (Fin 0 <= complexity_factor a)%F.
Hypothesis C : (complexity_factor a <= complexity_factor a')%F.
Variable lh : float.
Hypothesis Lpos : (Fin 0 < lh)%F.
Hypothesis Lhi : (lh <= FMAX)%F.
Variable infill : float.
Hypothesis Hi : (Fin 0 <= infill)%F.
Variable inc : bool.

Lemma effective_volume_v_mono_volume :
  (effective_volume_v a infill inc <= effective_volume_v a' infill inc)%F.
Proof.
  unfold effective_volume_v. cbv zeta.
  pose proof (infill_multiplier_v_ge infill Hi) as M.
  assert (F : (volume_cm3 a * infill_multiplier_v infill <=
               volume_cm3 a' * infill_multiplier_v infill)%F).
  { apply fmul_mono_pos; [now apply volume_pos|assumption| |].
    - apply flt_fle_trans with (lit (1 # 10)); [fconst|assumption].
    - apply fle_refl. now destruct (fle_not_nan _ _ M). }
  destruct inc; [|assumption].
  apply fadd_mono_nonneg.
  - now apply filled_volume_nonneg.
  - assumption.
  - now apply flt_fle, support_volume_pos.
  - apply fmul_mono_r; [fconst|fconst|assumption].
Qed.

Lemma material_cost_v_mono_volume :
  (material_cost_v p a infill inc <= material_cost_v p a' infill inc)%F.
Proof.
  destruct G. unfold material_cost_v, weight_g_v.
  apply fmul_mono_r; [assumption|assumption|].
  apply fquot_mono_l; [fconst|fconst|].
  apply fmul_mono_r; [assumption|assumption|].
  apply effective_volume_v_mono_volume.
Qed.

Lemma scaled_time_mono_volume : (scaled_time a lh <= scaled_time a' lh)%F.
Proof.
  unfold scaled_time.
  pose proof (base_time_minutes_v_ge a Vlo) as B.
  pose proof (layer_modifier_v_ge lh Lpos Lhi) as L.
  pose proof (complexity_modifier_v_ge a Clo) as K.
  apply fmul_mono_pos.
  - apply flt_fle_trans with
      (lit 1 * lit 2 * fquot (lit (2 # 10)) FMAX)%F; [fconst|].
    apply fmul_mono_pos; [fconst|assumption|fconst|assumption].
  - apply fmul_mono_pos.
    + apply flt_fle_trans with (lit 1 * lit 2)%F; [fconst|assumption].
    + unfold base_time_minutes_v.
      apply fmul_mono_r; [fconst|fconst|assumption].
    + apply flt_fle_trans with (fquot (lit (2 # 10)) FMAX); [fconst|assumption].
    + apply fle_refl. now destruct (fle_not_nan _ _ L).
  - apply flt_fle_trans with (of_int 1 + Fin 0 * lit (5 # 10))%F;
      [fconst|assumption].
  - unfold complexity_modifier_v. apply fadd_mono_l; [fconst|].
    apply fmul_mono_r; [fconst|fconst|assumption].
Qed.

Lemma total_time_minutes_v_mono_volume :
  (total_time_minutes_v p a lh inc <= total_time_minutes_v p a' lh inc)%F.
Proof.
  destruct G. unfold total_time_minutes_v.
  apply fquot_mono_l; [assumption|assumption|].
  apply fmul_mono_r;
    [apply support_modifier_v_pos|apply support_modifier_v_finite|].
  apply scaled_time_mono_volume.
Qed.

Lemma machine_cost_v_mono_volume :
  (machine_cost_v p a lh inc <= machine_cost_v p a' lh inc)%F.
Proof.
  unfold machine_cost_v, total_time_hours_v.
  apply fmul_mono_r; [fconst|fconst|].
  apply fquot_mono_l; [fconst|fconst|].
  apply total_time_minutes_v_mono_volume.
Qed.

Lemma post_processing_v_mono_volume :
  (post_processing_v p a infill inc <= post_processing_v p a' infill inc)%F.
Proof.
  pose proof material_cost_v_mono_volume as M.
  unfold post_processing_v. destruct inc; [|fconst].
  apply fadd_mono_l; [fconst|].
  apply fmul_mono_r; [fconst|fconst|].
  exact M.
Qed.

Lemma total_price_v_mono_volume :
  (total_price_v p a infill lh inc <= total_price_v p a' infill lh inc)%F.
Proof.
  unfold total_price_v, margin_amount_v, subtotal_v.
  apply total_from_costs_mono.
  - now apply material_cost_v_nonneg.
  - apply material_cost_v_mono_volume.
  - now apply machine_cost_v_nonneg.
  - apply machine_cost_v_mono_volume.
  - apply fle_trans with (lit 5); [fconst|now apply post_processing_v_ge].
  - apply post_processing_v_mono_volume.
Qed.

End SizeMonotone.

(** *** Negation *)

Lemma Qopp_opp_eq (q : Q) : - - q = q.
Proof. destruct q as [n d]. unfold Qopp. cbn [Qnum Qden]. now rewrite Z.opp_involutive. Qed.

Lemma round_half_even_opp (q : Q) :
  round_half_even (- q) = (- round_half_even q)%Z.
Proof.
  destruct (floor_bounds q) as [L U].
  destruct (Qeq_dec q (inject_Z (Qfloor q))) as [E|N].
  - assert (E' : - q == inject_Z (- Qfloor q)) by (rewrite inject_Z_opp; lra).
    rewrite (round_half_even_comp _ _ E'), (round_half_even_comp _ _ E).
    now rewrite !round_half_even_Z.
  - assert (F : Qfloor (- q) = (- Qfloor q - 1)%Z).
    { destruct (floor_bounds (- q)) as [L' U'].
      assert (Q : inject_Z (Qfloor q) < q).
      { apply Qle_lt_or_eq in L as [L|L]; [assumption|]. exfalso. apply N. lra. }
      assert (A : (Qfloor (- q) < - Qfloor q)%Z).
      { rewrite Zlt_Qlt, inject_Z_opp. lra. }
      assert (B : (- Qfloor q - 1 < Qfloor (- q) + 1)%Z).
      { rewrite Zlt_Qlt, inject_Z_plus. unfold Z.sub.
        rewrite inject_Z_plus, !inject_Z_opp.
        change (inject_Z 1) with 1. lra. }
      lia. }
    unfold round_half_even. rewrite F.
    replace (- Qfloor q - 1)%Z with (- (Qfloor q + 1))%Z by lia.
    rewrite inject_Z_opp, inject_Z_plus. change (inject_Z 1) with 1.
    rewrite Z.even_opp, Z.even_add. change (Z.even 1) with false.
    destruct (Qcompare_spec (q - inject_Z (Qfloor q)) (1 # 2)) as [H|H|H];
      destruct (Qcompare_spec (- q - - (inject_Z (Qfloor q) + 1)) (1 # 2))
        as [H'|H'|H']; try (exfalso; lra); try lia.
    destruct (Z.even (Qfloor q)); cbn [Bool.eqb]; lia.
Qed.

Lemma round_pos_comp (a b : Q) : 0 < a -> a == b -> round_pos a == round_pos b.
Proof.
  intros Ha E. unfold round_pos.
  assert (C : cexp a = cexp b).
  { assert (H1 : (cexp a <= cexp b)%Z) by (apply cexp_mono; lra).
    assert (H2 : (cexp b <= cexp a)%Z) by (apply cexp_mono; lra).
    lia. }
  rewrite C. now rewrite E.
Qed.

Lemma clamp_comp (s : bool) (u v : Q) : u == v -> clamp s u = clamp s v.
Proof.
  intros E. unfold clamp.
  assert (B : Qle_bool (2 ^ 1024) u = Qle_bool (2 ^ 1024) v).
  { destruct (Qle_bool (2 ^ 1024) v) eqn:K; qprop; lra. }
  rewrite B. destruct (Qle_bool (2 ^ 1024) v); [reflexivity|].
  f_equal. apply Qred_complete. destruct s; lra.
Qed.

#[global] Instance round64_comp : Proper (Qeq ==> eq) round64.
Proof.
  intros a b E. unfold round64. rewrite <- E.
  destruct (Qcompare_spec a 0) as [C|C|C]; [reflexivity| |].
  - apply clamp_comp, round_pos_comp; lra.
  - apply clamp_comp, round_pos_comp; lra.
Qed.

Lemma round64_opp (q : Q) : round64 (- q) = fneg (round64 q).
Proof.
  unfold round64.
  destruct (Qcompare_spec q 0) as [C|C|C];
    destruct (Qcompare_spec (- q) 0) as [C'|C'|C']; try (exfalso; lra).
  - reflexivity.
  - unfold clamp. destruct (Qle_bool _ _); cbn [fneg negb]; [reflexivity|].
    now rewrite Qred_opp, Qopp_opp_eq.
  - rewrite Qopp_opp_eq. unfold clamp.
    destruct (Qle_bool _ _); cbn [fneg negb]; [reflexivity|].
    now rewrite Qred_opp.
Qed.

Lemma Qneg_bool_opp (b : Q) : ~ b == 0 -> Qneg_bool (- b) = negb (Qneg_bool b).
Proof.
  intros N. unfold Qneg_bool. rewrite negb_involutive.
  destruct (Qle_bool 0 b) eqn:E; qprop; lra.
Qed.

Lemma Qeq_bool_opp (b : Q) : Qeq_bool (- b) 0 = Qeq_bool b 0.
Proof. destruct (Qeq_bool b 0) eqn:E; qprop; lra. Qed.

Lemma fmul_opp_r (x y : float) : (x * fneg y)%F = fneg (x * y)%F.
Proof.
  destruct x as [|s|a], y as [|t|b]; cbn [fmul fneg]; try reflexivity.
  - now destruct s, t.
  - rewrite Qeq_bool_opp. ftest_eq b 0; [reflexivity|].
    cbn [fneg]. rewrite Qneg_bool_opp by assumption.
    now destruct s, (Qneg_bool b).
  - destruct (Qeq_bool a 0); [reflexivity|]. cbn [fneg].
    now destruct t, (Qneg_bool a).
  - rewrite <- round64_opp. apply round64_comp. ring.
Qed.

Lemma fmul_opp_l (x y : float) : (fneg x * y)%F = fneg (x * y)%F.
Proof.
  destruct x as [|s|a], y as [|t|b]; cbn [fmul fneg]; try reflexivity.
  - now destruct s, t.
  - destruct (Qeq_bool b 0); [reflexivity|]. cbn [fneg].
    now destruct s, (Qneg_bool b).
  - rewrite Qeq_bool_opp. ftest_eq a 0; [reflexivity|].
    cbn [fneg]. rewrite Qneg_bool_opp by assumption.
    now destruct t, (Qneg_bool a).
  - rewrite <- round64_opp. apply round64_comp. ring.
Qed.

Lemma fquot_opp_l (x y : float) : fquot (fneg x) y = fneg (fquot x y).
Proof.
  destruct x as [|s|a], y as [|t|b]; cbn [fquot fneg]; try reflexivity.
  - now destruct s, (Qneg_bool b).
  - rewrite <- round64_opp. apply round64_comp. unfold Qdiv. ring.
Qed.

Lemma fquot_opp_r (x y : float) :
  is_zero y = false -> fquot x (fneg y) = fneg (fquot x y).
Proof.
  intros Z.
  destruct x as [|s|a], y as [|t|b]; cbn [fquot fneg]; try reflexivity.
  - cbn [is_zero] in Z. apply Qeq_bool_false in Z.
    rewrite Qneg_bool_opp by assumption.
    now destruct s, (Qneg_bool b).
  - cbn [is_zero] in Z. apply Qeq_bool_false in Z.
    rewrite <- round64_opp. apply round64_comp. now field.
Qed.

Lemma round_nd_opp (x : float) (n : Z) :
  (0 <= n)%Z -> round_nd (fneg x) n = fneg (round_nd x n).
Proof.
  intros Hn. destruct x as [|s|q]; cbn [round_nd fneg]; try reflexivity.
  assert (P : 0 < inject_Z (10 ^ n)).
  { change 0 with (inject_Z 0). rewrite <- Zlt_Qlt. now apply Z.pow_pos_nonneg. }
  rewrite <- round64_opp. apply round64_comp.
  assert (E : - q * inject_Z (10 ^ n) == - (q * inject_Z (10 ^ n))) by ring.
  rewrite E, round_half_even_opp, inject_Z_opp.
  field. lra.
Qed.

Lemma is_zero_fneg (x : float) : is_zero (fneg x) = is_zero x.
Proof. destruct x as [|s|q]; cbn [is_zero fneg]; try reflexivity. apply Qeq_bool_opp. Qed.

Lemma fneg_nonpos (x : float) : (Fin 0 <= x)%F -> (fneg x <= Fin 0)%F.
Proof. intros H. fcases. qprop. lra. Qed.

(** The print time for a negated layer height. *)
Section NegativeLayer.

Variables (p : mat_props) (a : analysis) (lh : float) (inc : bool).
Hypothesis Z : is_zero lh = false.

Lemma total_time_minutes_v_opp :
  total_time_minutes_v p a (fneg lh) inc = fneg (total_time_minutes_v p a lh inc).
Proof.
  unfold total_time_minutes_v, layer_modifier_v.
  rewrite (fquot_opp_r _ lh Z), fmul_opp_r, !fmul_opp_l.
  apply fquot_opp_l.
Qed.

Lemma total_time_hours_v_opp :
  total_time_hours_v p a (fneg lh) inc = fneg (total_time_hours_v p a lh inc).
Proof.
  unfold total_time_hours_v. rewrite total_time_minutes_v_opp.
  apply fquot_opp_l.
Qed.

Lemma machine_cost_v_opp :
  machine_cost_v p a (fneg lh) inc = fneg (machine_cost_v p a lh inc).
Proof.
  unfold machine_cost_v. rewrite total_time_hours_v_opp.
  apply fmul_opp_l.
Qed.

End NegativeLayer.

(** *** The pricer over its whole domain *)

Lemma calculate_price_unknown (a : analysis) (m : string) (infill lh : float)
    (s : option bool) :
  dict_mem MATERIALS m = false ->
  calculate_price a m infill lh s = Raise (ValueError ("Unknown material: " ++ m)).
Proof. intros Hm. unfold calculate_price. now rewrite Hm. Qed.

Lemma calculate_price_zero_layer (a : analysis) (m : string) (infill lh : float)
    (s : option bool) :
  dict_mem MATERIALS m = true -> is_zero lh = true ->
  calculate_price a m infill lh s =
  Raise (ZeroDivisionError "float division by zero").
Proof.
  intros Hm Z. destruct (dict_mem_get _ _ Hm) as [p Hp].
  unfold calculate_price, dict_getitem.
  rewrite Hm, Hp, infill_multiplier_run.
  cbv beta iota zeta delta [bind negb].
  rewrite (float_div_ok _ (of_int 1000)) by fconst.
  cbv beta iota zeta delta [bind].
  now rewrite (float_div_zero _ lh) by assumption.
Qed.

(** X6: [calculate_price] returns a quote exactly when the material is
    in the catalog and the layer height is not zero: a negative, an
    infinite or a NaN layer height is not rejected. *)
Theorem X6_quote_returned_iff (a : analysis) (m : string) (infill lh : float)
    (s : option bool) :
  (exists q, calculate_price a m infill lh s = Ok q) <->
  dict_mem MATERIALS m = true /\ is_zero lh = false.
Proof.
  split.
  - intros [q E]. destruct (dict_mem MATERIALS m) eqn:Hm.
    + split; [reflexivity|]. destruct (is_zero lh) eqn:Z; [|reflexivity].
      rewrite (calculate_price_zero_layer a m infill lh s Hm Z) in E.
      discriminate E.
    + rewrite (calculate_price_unknown a m infill lh s Hm) in E.
      discriminate E.
  - intros [Hm Z]. destruct (dict_mem_get _ _ Hm) as [p Hp].
    eexists. exact (calculate_price_run a m infill lh s p Hp Z).
Qed.

(** X7: for an analysis record with volume >= 1.0 and complexity >= 0,
    a catalog material, an infill >= 0 and a finite layer height > 0,
    no figure of the quote is negative, the post-processing cost is at
    least 5.0, each of the three costs is at most the subtotal, and
    the subtotal is at most the total. *)
Theorem X7_quote_figures_ordered (a : analysis) (m : string)
    (infill lh : float) (s : option bool) :
  dict_mem MATERIALS m = true ->
  (lit 1 <= volume_cm3 a)%F -> (Fin 0 <= complexity_factor a)%F ->
  (Fin 0 <= infill)%F -> (Fin 0 < lh)%F -> (lh <= FMAX)%F ->
  exists q,
    calculate_price a m infill lh s = Ok q /\
    (Fin 0 <= weight_g (material q))%F /\
    (Fin 0 <= hours (print_time q))%F /\
    (Fin 0 <= minutes (print_time q))%F /\
    (Fin 0 <= costs_material (costs q))%F /\
    (Fin 0 <= machine_time (costs q))%F /\
    (lit 5 <= post_processing (costs q))%F /\
    (Fin 0 <= costs_margin (costs q))%F /\
    (costs_material (costs q) <= subtotal (costs q))%F /\
    (machine_time (costs q) <= subtotal (costs q))%F /\
    (post_processing (costs q) <= subtotal (costs q))%F /\
    (subtotal (costs q) <= total (costs q))%F.
Proof.
  intros Hm Vlo Clo Hi Hlh Lhi.
  destruct (calculate_price_returns a m infill lh s Hm Hlh) as (p & Hp & G & ->).
  eexists. split; [reflexivity|].
  cbn [material print_time costs weight_g hours minutes costs_material
       machine_time post_processing costs_margin subtotal total].
  set (inc := resolve_supports a s).
  repeat split.
  - apply round_nd_nonneg; [lia|]. now apply weight_g_v_nonneg.
  - apply round_nd_nonneg; [lia|]. now apply total_time_hours_v_nonneg.
  - apply round_nd_nonneg; [lia|]. now apply total_time_minutes_v_nonneg.
  - apply round_nd_nonneg; [lia|]. now apply material_cost_v_nonneg.
  - apply round_nd_nonneg; [lia|]. now apply machine_cost_v_nonneg.
  - apply round_nd_ge_const; [lia|fconst|]. now apply post_processing_v_ge.
  - apply round_nd_nonneg; [lia|]. now apply margin_amount_v_nonneg.
  - apply round_nd_mono; [lia|]. now apply subtotal_v_ge_material.
  - apply round_nd_mono; [lia|]. now apply subtotal_v_ge_machine.
  - apply round_nd_mono; [lia|]. now apply subtotal_v_ge_post_processing.
  - apply round_nd_mono; [lia|]. now apply total_price_v_ge_subtotal.
Qed.

Lemma X7_quote_figures_ordered_witness :
  exists q,
    calculate_price unit_cube "PLA" (lit 20) (lit (2 # 10)) None = Ok q /\
    (Fin 0 <= weight_g (material q))%F /\
    (Fin 0 <= hours (print_time q))%F /\
    (Fin 0 <= minutes (print_time q))%F /\
    (Fin 0 <= costs_material (costs q))%F /\
    (Fin 0 <= machine_time (costs q))%F /\
    (lit 5 <= post_processing (costs q))%F /\
    (Fin 0 <= costs_margin (costs q))%F /\
    (costs_material (costs q) <= subtotal (costs q))%F /\
    (machine_time (costs q) <= subtotal (costs q))%F /\
    (post_processing (costs q) <= subtotal (costs q))%F /\
    (subtotal (costs q) <= total (costs q))%F.
Proof.
  apply (X7_quote_figures_ordered unit_cube "PLA" (lit 20) (lit (2 # 10)) None);
    vm_compute; reflexivity.
Defined.

(** X8: for an analysis record of finite volume >= 1.0 and complexity
    >= 0, a catalog material and a finite layer height > 0, a larger
    infill, from 0 on, never lowers the post-processing cost, the
    subtotal or the total. *)
Theorem X8_total_monotone_in_infill (a : analysis) (m : string)
    (infill_a infill_b lh : float) (s : option bool) :
  dict_mem MATERIALS m = true ->
  (lit 1 <= volume_cm3 a)%F -> (volume_cm3 a <= FMAX)%F ->
  (Fin 0 <= complexity_factor a)%F ->
  (Fin 0 <= infill_a)%F -> (infill_a <= infill_b)%F ->
  (Fin 0 < lh)%F -> (lh <= FMAX)%F ->
  exists qa qb,
    calculate_price a m infill_a lh s = Ok qa /\
    calculate_price a m infill_b lh s = Ok qb /\
    (post_processing (costs qa) <= post_processing (costs qb))%F /\
    (subtotal (costs qa) <= subtotal (costs qb))%F /\
    (total (costs qa) <= total (costs qb))%F.
Proof.
  intros Hm Vlo Vhi Clo I0 IJ Hlh Lhi.
  destruct (calculate_price_returns a m infill_a lh s Hm Hlh) as (p & Hp & G & ->).
  destruct (calculate_price_returns a m infill_b lh s Hm Hlh) as (p' & Hp' & _ & ->).
  assert (p' = p) by congruence. subst p'.
  do 2 eexists. split; [reflexivity|]. split; [reflexivity|].
  cbn [costs post_processing subtotal total].
  repeat split; (apply round_nd_mono; [lia|]).
  - now apply post_processing_v_mono.
  - now apply subtotal_v_mono_infill.
  - now apply total_price_v_mono_infill.
Qed.

Lemma X8_total_monotone_in_infill_witness :
  exists qa qb,
    calculate_price unit_cube "PLA" (lit 20) (lit (2 # 10)) None = Ok qa /\
    calculate_price unit_cube "PLA" (lit 80) (lit (2 # 10)) None = Ok qb /\
    (post_processing (costs qa) <= post_processing (costs qb))%F /\
    (subtotal (costs qa) <= subtotal (costs qb))%F /\
    (total (costs qa) <= total (costs qb))%F.
Proof.
  apply (X8_total_monotone_in_infill unit_cube "PLA" (lit 20) (lit 80)
           (lit (2 # 10)) None);
    vm_compute; reflexivity.
Defined.

(** X9: for an analysis record with volume >= 1.0 and complexity >= 0,
    a catalog material and an infill >= 0, of two finite layer heights
    > 0 the thinner never gives a smaller print time, in minutes or in
    hours, machine cost or total. *)
Theorem X9_thinner_layers_never_cheaper (a : analysis) (m : string)
    (infill lh lh' : float) (s : option bool) :
  dict_mem MATERIALS m = true ->
  (lit 1 <= volume_cm3 a)%F -> (Fin 0 <= complexity_factor a)%F ->
  (Fin 0 <= infill)%F ->
  (Fin 0 < lh')%F -> (lh' <= lh)%F -> (lh <= FMAX)%F ->
  exists q q',
    calculate_price a m infill lh s = Ok q /\
    calculate_price a m infill lh' s = Ok q' /\
    (minutes (print_time q) <= minutes (print_time q'))%F /\
    (hours (print_time q) <= hours (print_time q'))%F /\
    (machine_time (costs q) <= machine_time (costs q'))%F /\
    (total (costs q) <= total (costs q'))%F.
Proof.
  intros Hm Vlo Clo Hi Lpos' Lle Lhi.
  pose proof (flt_fle_trans _ _ _ Lpos' Lle) as Lpos.
  destruct (calculate_price_returns a m infill lh s Hm Lpos) as (p & Hp & G & ->).
  destruct (calculate_price_returns a m infill lh' s Hm Lpos') as (p' & Hp' & _ & ->).
  assert (p' = p) by congruence. subst p'.
  do 2 eexists. split; [reflexivity|]. split; [reflexivity|].
  cbn [print_time costs minutes hours machine_time total].
  repeat split; (apply round_nd_mono; [lia|]).
  - now apply total_time_minutes_v_anti.
  - now apply total_time_hours_v_anti.
  - now apply machine_cost_v_anti.
  - now apply total_price_v_anti_layer.
Qed.

Lemma X9_thinner_layers_never_cheaper_witness :
  exists q q',
    calculate_price unit_cube "PLA" (lit 20) (lit (3 # 10)) None = Ok q /\
    calculate_price unit_cube "PLA" (lit 20) (lit (12 # 100)) None = Ok q' /\
    (minutes (print_time q) <= minutes (print_time q'))%F /\
    (hours (print_time q) <= hours (print_time q'))%F /\
    (machine_time (costs q) <= machine_time (costs q'))%F /\
    (total (costs q) <= total (costs q'))%F.
Proof.
  apply (X9_thinner_layers_never_cheaper unit_cube "PLA" (lit 20)
           (lit (3 # 10)) (lit (12 # 100)) None);
    vm_compute; reflexivity.
Defined.

(** X10: for an analysis record with volume >= 1.0 and complexity >=
    0, a catalog material and a finite layer height > 0, the quote
    with supports has a print time, in minutes and in hours, and a
    machine cost that are at least those of the quote without. *)
Theorem X10_supports_never_faster (a : analysis) (m : string)
    (infill lh : float) :
  dict_mem MATERIALS m = true ->
  (lit 1 <= volume_cm3 a)%F -> (Fin 0 <= complexity_factor a)%F ->
  (Fin 0 < lh)%F -> (lh <= FMAX)%F ->
  exists q_on q_off,
    calculate_price a m infill lh (Some true) = Ok q_on /\
    calculate_price a m infill lh (Some false) = Ok q_off /\
    (minutes (print_time q_off) <= minutes (print_time q_on))%F /\
    (hours (print_time q_off) <= hours (print_time q_on))%F /\
    (machine_time (costs q_off) <= machine_time (costs q_on))%F.
Proof.
  intros Hm Vlo Clo Hlh Lhi.
  destruct (calculate_price_returns a m infill lh (Some true) Hm Hlh)
    as (p & Hp & G & ->).
  destruct (calculate_price_returns a m infill lh (Some false) Hm Hlh)
    as (p' & Hp' & _ & ->).
  assert (p' = p) by congruence. subst p'.
  do 2 eexists. split; [reflexivity|]. split; [reflexivity|].
  cbn [print_time costs minutes hours machine_time resolve_supports].
  repeat split; (apply round_nd_mono; [lia|]).
  - now apply total_time_minutes_v_supports.
  - unfold total_time_hours_v. apply fquot_mono_l; [fconst|fconst|].
    now apply total_time_minutes_v_supports.
  - now apply machine_cost_v_supports.
Qed.

Lemma X10_supports_never_faster_witness :
  exists q_on q_off,
    calculate_price unit_cube "PLA" (lit 20) (lit (2 # 10)) (Some true) = Ok q_on /\
    calculate_price unit_cube "PLA" (lit 20) (lit (2 # 10)) (Some false) = Ok q_off /\
    (minutes (print_time q_off) <= minutes (print_time q_on))%F /\
    (hours (print_time q_off) <= hours (print_time q_on))%F /\
    (machine_time (costs q_off) <= machine_time (costs q_on))%F.
Proof.
  apply (X10_supports_never_faster unit_cube "PLA" (lit 20) (lit (2 # 10)));
    vm_compute; reflexivity.
Defined.

(** X11: of two analysis records, the one with the larger volume and
    the larger complexity never gets a smaller material cost, print
    time, machine cost, post-processing cost or total, for the same
    catalog material, infill >= 0, finite layer height > 0 and
    supports flag. *)
Theorem X11_larger_model_never_cheaper (a a' : analysis) (m : string)
    (infill lh : float) (supports : bool) :
  dict_mem MATERIALS m = true ->
  (lit 1 <= volume_cm3 a)%F -> (volume_cm3 a <= volume_cm3 a')%F ->
  (Fin 0 <= complexity_factor a)%F ->
  (complexity_factor a <= complexity_factor a')%F ->
  (Fin 0 <= infill)%F -> (Fin 0 < lh)%F -> (lh <= FMAX)%F ->
  exists q q',
    calculate_price a m infill lh (Some supports) = Ok q /\
    calculate_price a' m infill lh (Some supports) = Ok q' /\
    (costs_material (costs q) <= costs_material (costs q'))%F /\
    (minutes (print_time q) <= minutes (print_time q'))%F /\
    (machine_time (costs q) <= machine_time (costs q'))%F /\
    (post_processing (costs q) <= post_processing (costs q'))%F /\
    (total (costs q) <= total (costs q'))%F.
Proof.
  intros Hm Vlo V Clo C Hi Hlh Lhi.
  destruct (calculate_price_returns a m infill lh (Some supports) Hm Hlh)
    as (p & Hp & G & ->).
  destruct (calculate_price_returns a' m infill lh (Some supports) Hm Hlh)
    as (p' & Hp' & _ & ->).
  assert (p' = p) by congruence. subst p'.
  do 2 eexists. split; [reflexivity|]. split; [reflexivity|].
  cbn [print_time costs costs_material minutes machine_time post_processing
       total resolve_supports].
  repeat split; (apply round_nd_mono; [lia|]).
  - now apply material_cost_v_mono_volume.
  - now apply total_time_minutes_v_mono_volume.
  - now apply machine_cost_v_mono_volume.
  - now apply post_processing_v_mono_volume.
  - now apply total_price_v_mono_volume.
Qed.

Lemma X11_larger_model_never_cheaper_witness :
  exists q q',
    calculate_price unit_cube "PLA" (lit 20) (lit (2 # 10)) (Some true) = Ok q /\
    calculate_price (sample_analysis (lit 50) (lit (1 # 2)) true) "PLA"
      (lit 20) (lit (2 # 10)) (Some true) = Ok q' /\
    (costs_material (costs q) <= costs_material (costs q'))%F /\
    (minutes (print_time q) <= minutes (print_time q'))%F /\
    (machine_time (costs q) <= machine_time (costs q'))%F /\
    (post_processing (costs q) <= post_processing (costs q'))%F /\
    (total (costs q) <= total (costs q'))%F.
Proof.
  apply (X11_larger_model_never_cheaper unit_cube
           (sample_analysis (lit 50) (lit (1 # 2)) true) "PLA"
           (lit 20) (lit (2 # 10)) true);
    vm_compute; reflexivity.
Defined.

(** X12: a negative layer height is not rejected.  For a catalog
    material and a layer height > 0, the quote for the negated layer
    height is returned as well; its material cost is the same and its
    print time, in minutes and in hours, and its machine cost are the
    negatives of those for the layer height itself, so that they are
    at most 0 for an analysis record with volume >= 1.0 and complexity
    >= 0 and a finite layer height. *)
Theorem X12_negative_layer_height (a : analysis) (m : string)
    (infill lh : float) (s : option bool) :
  dict_mem MATERIALS m = true -> (Fin 0 < lh)%F ->
  exists q q',
    calculate_price a m infill lh s = Ok q /\
    calculate_price a m infill (fneg lh) s = Ok q' /\
    costs_material (costs q') = costs_material (costs q) /\
    minutes (print_time q') = fneg (minutes (print_time q)) /\
    hours (print_time q') = fneg (hours (print_time q)) /\
    machine_time (costs q') = fneg (machine_time (costs q)) /\
    ((lit 1 <= volume_cm3 a)%F -> (Fin 0 <= complexity_factor a)%F ->
     (lh <= FMAX)%F ->
     (minutes (print_time q') <= Fin 0)%F /\
     (hours (print_time q') <= Fin 0)%F /\
     (machine_time (costs q') <= Fin 0)%F).
Proof.
  intros Hm Hlh.
  pose proof (flt_pos_not_zero _ Hlh) as Z.
  destruct (dict_mem_get _ _ Hm) as [p Hp].
  pose proof (MATERIALS_good m p Hp) as G.
  assert (Z' : is_zero (fneg lh) = false) by now rewrite is_zero_fneg.
  do 2 eexists.
  split; [exact (calculate_price_run a m infill lh s p Hp Z)|].
  split; [exact (calculate_price_run a m infill (fneg lh) s p Hp Z')|].
  cbn [print_time costs costs_material minutes hours machine_time].
  set (inc := resolve_supports a s).
  rewrite (total_time_minutes_v_opp p a lh inc Z).
  rewrite (total_time_hours_v_opp p a lh inc Z).
  rewrite (machine_cost_v_opp p a lh inc Z).
  rewrite !round_nd_opp by lia.
  repeat (split; [reflexivity|]).
  intros Vlo Clo Lhi. repeat split; apply fneg_nonpos, round_nd_nonneg; try lia.
  - now apply total_time_minutes_v_nonneg.
  - now apply total_time_hours_v_nonneg.
  - now apply machine_cost_v_nonneg.
Qed.

Lemma X12_negative_layer_height_witness :
  exists q q',
    calculate_price unit_cube "PLA" (lit 20) (lit (2 # 10)) None = Ok q /\
    calculate_price unit_cube "PLA" (lit 20) (fneg (lit (2 # 10))) None = Ok q' /\
    minutes (print_time q') = fneg (minutes (print_time q)) /\
    (machine_time (costs q') <= Fin 0)%F.
Proof.
  destruct (X12_negative_layer_height unit_cube "PLA" (lit 20) (lit (2 # 10)) None)
    as (q & q' & E & E' & _ & M & _ & _ & H);
    [vm_compute; reflexivity|vm_compute; reflexivity|].
  exists q, q'. split; [exact E|]. split; [exact E'|]. split; [exact M|].
  apply H; vm_compute; reflexivity.
Defined.

(** ** The estimator and the pricer together *)

(** The supports flag of the second of two records, of which the
    second needs supports whenever the first does. *)
Lemma resolve_supports_cases (r r' : analysis) (s : option bool) :
  (needs_supports r = true -> needs_supports r' = true) ->
  resolve_supports r' s = resolve_supports r s \/
  (resolve_supports r s = false /\ resolve_supports r' s = true).
Proof.
  intros N. destruct s as [b|]; cbn [resolve_supports]; [now left|].
  destruct (needs_supports r), (needs_supports r'); auto.
Qed.

(** X13: the estimator and the pricer compose.  For a file of
    non-negative size below the limit of the estimator, a catalog
    material, an infill >= 0 and a finite layer height > 0, the record
    of the estimator is priced: the quote is returned, supports are
    included as requested or, when left open, exactly for the files
    above 300000 bytes, the material and machine costs are not
    negative and the total is at least the minimum price. *)
Theorem X13_estimate_then_price
    (float_pow : float -> float -> float) (file_path : string) (file_size : Z)
    (m : string) (infill lh : float) (s : option bool) :
  (0 <= file_size)%Z -> (file_size < size_limit)%Z ->
  dict_mem MATERIALS m = true ->
  (Fin 0 <= infill)%F -> (Fin 0 < lh)%F -> (lh <= FMAX)%F ->
  exists r q,
    analyze_3d_file_simple float_pow file_path file_size = Ok r /\
    calculate_price r m infill lh s = Ok q /\
    includes_supports (parameters q) =
      match s with Some b => b | None => (300000 <? file_size)%Z end /\
    (Fin 0 <= costs_material (costs q))%F /\
    (Fin 0 <= machine_time (costs q))%F /\
    (minimum_price PRICING_CONFIG <= total (costs q))%F.
Proof.
  intros H0 Hb Hm Hi Hlh Lhi.
  destruct (analyze_3d_file_simple_returns_lt float_pow file_path file_size)
    as [r E]; [lia|].
  destruct (estimated_analysis_in_range _ _ _ _ H0 E) as (Vlo & _ & Clo & _).
  destruct (estimated_complexity _ _ _ _ H0 E) as (_ & _ & N & _).
  destruct (calculate_price_returns r m infill lh s Hm Hlh) as (p & Hp & G & Eq).
  exists r. eexists. split; [exact E|]. split; [exact Eq|].
  cbn [parameters includes_supports costs costs_material machine_time total].
  split; [destruct s; cbn [resolve_supports]; [reflexivity|exact N]|].
  split; [apply round_nd_nonneg; [lia|]; now apply material_cost_v_nonneg|].
  split; [apply round_nd_nonneg; [lia|]; now apply machine_cost_v_nonneg|].
  apply round_nd_minimum_price. now apply total_price_v_ge.
Qed.

Lemma X13_estimate_then_price_witness :
  exists r q,
    analyze_3d_file_simple pow_stub "model.stl" 500000 = Ok r /\
    calculate_price r "PLA" (lit 20) (lit (2 # 10)) None = Ok q /\
    includes_supports (parameters q) = true /\
    (Fin 0 <= costs_material (costs q))%F /\
    (Fin 0 <= machine_time (costs q))%F /\
    (minimum_price PRICING_CONFIG <= total (costs q))%F.
Proof.
  apply (X13_estimate_then_price pow_stub "model.stl" 500000
           "PLA" (lit 20) (lit (2 # 10)) None);
    first [lia|vm_compute; reflexivity].
Defined.

(** X14: the quote for a file does not depend on the dimensions that
    the estimator reports, hence neither on the power function of the
    C library nor on the file path: pricing the record of the estimator
    gives the same quote, or raises the same exception, whatever these
    are. *)
Theorem X14_quote_independent_of_dimensions
    (float_pow float_pow' : float -> float -> float)
    (file_path file_path' : string) (file_size : Z)
    (m : string) (infill lh : float) (s : option bool) :
  (r <- analyze_3d_file_simple float_pow file_path file_size ;;
   calculate_price r m infill lh s) =
  (r <- analyze_3d_file_simple float_pow' file_path' file_size ;;
   calculate_price r m infill lh s).
Proof.
  unfold analyze_3d_file_simple, try_except.
  destruct (int_truediv file_size 100000) as [q|]; [|reflexivity].
  cbv beta iota zeta delta [bind].
  destruct (int_truediv 1 3) as [third|]; [|reflexivity].
  cbv beta iota zeta delta [bind].
  destruct (int_truediv file_size 1000000) as [c|]; [|reflexivity].
  cbv beta iota zeta delta [bind].
  destruct (int_truediv file_size 50) as [f|]; [|reflexivity].
  cbv beta iota zeta delta [bind].
  destruct (int_of_float f) as [n|]; [|reflexivity].
  cbv beta iota zeta delta [bind].
  destruct (float_of_int n) as [fc|]; [|reflexivity].
  cbv beta iota zeta delta [bind].
  destruct (int_of_float (fc * lit (6 # 10))%F) as [v|]; [|reflexivity].
  cbv beta iota zeta delta [bind].
  unfold calculate_price.
  cbn [volume_cm3 complexity_factor needs_supports].
  reflexivity.
Qed.

(** X15: a larger file never gets a cheaper quote.  For two file
    sizes below the limit of the estimator, a catalog material, an
    infill >= 0, a finite layer height > 0 and the same supports
    setting, the record of the larger file is priced with a material
    cost, a print time, a machine cost and a total that are at least
    those of the smaller. *)
Theorem X15_larger_file_never_cheaper
    (float_pow : float -> float -> float) (file_path : string)
    (file_size file_size' : Z)
    (m : string) (infill lh : float) (s : option bool) :
  (0 <= file_size <= file_size')%Z -> (file_size' < size_limit)%Z ->
  dict_mem MATERIALS m = true ->
  (Fin 0 <= infill)%F -> (Fin 0 < lh)%F -> (lh <= FMAX)%F ->
  exists r r' q q',
    analyze_3d_file_simple float_pow file_path file_size = Ok r /\
    analyze_3d_file_simple float_pow file_path file_size' = Ok r' /\
    calculate_price r m infill lh s = Ok q /\
    calculate_price r' m infill lh s = Ok q' /\
    (costs_material (costs q) <= costs_material (costs q'))%F /\
    (minutes (print_time q) <= minutes (print_time q'))%F /\
    (machine_time (costs q) <= machine_time (costs q'))%F /\
    (total (costs q) <= total (costs q'))%F.
Proof.
  intros H Hb Hm Hi Hlh Lhi.
  destruct (analyze_3d_file_simple_returns_lt float_pow file_path file_size)
    as [r E]; [lia|].
  destruct (analyze_3d_file_simple_returns_lt float_pow file_path file_size')
    as [r' E']; [lia|].
  destruct (estimator_monotone float_pow file_path _ _ r r' H E E')
    as (V & _ & C & _ & N).
  destruct (estimated_analysis_in_range _ _ _ _ (proj1 H) E)
    as (Vlo & _ & Clo & _).
  destruct (estimated_analysis_in_range _ _ file_size' _ ltac:(lia) E')
    as (Vlo' & _ & Clo' & _).
  destruct (calculate_price_returns r m infill lh s Hm Hlh) as (p & Hp & G & Eq).
  destruct (calculate_price_returns r' m infill lh s Hm Hlh)
    as (p' & Hp' & _ & Eq').
  assert (p' = p) by congruence. subst p'.
  exists r, r'. do 2 eexists.
  split; [exact E|]. split; [exact E'|]. split; [exact Eq|]. split; [exact Eq'|].
  cbn [print_time costs costs_material minutes machine_time total].
  assert (K : forall f : analysis -> bool -> float,
             (f r (resolve_supports r s) <= f r' (resolve_supports r s))%F ->
             (f r' false <= f r' true)%F ->
             (round_nd (f r (resolve_supports r s)) 2 <=
              round_nd (f r' (resolve_supports r' s)) 2)%F /\
             (round_nd (f r (resolve_supports r s)) 0 <=
              round_nd (f r' (resolve_supports r' s)) 0)%F).
  { intros f A B.
    assert (L : (f r (resolve_supports r s) <= f r' (resolve_supports r' s))%F).
    { destruct (resolve_supports_cases r r' s N) as [R|[R R']].
      - now rewrite R.
      - rewrite R in *. rewrite R'. now apply fle_trans with (f r' false). }
    split; (apply round_nd_mono; [lia|exact L]). }
  split; [|split; [|split]].
  - apply (K (fun x b => material_cost_v p x infill b)).
    + now apply material_cost_v_mono_volume.
    + now apply material_cost_v_supports.
  - apply (K (fun x b => total_time_minutes_v p x lh b)).
    + now apply total_time_minutes_v_mono_volume.
    + now apply total_time_minutes_v_supports.
  - apply (K (fun x b => machine_cost_v p x lh b)).
    + now apply machine_cost_v_mono_volume.
    + now apply machine_cost_v_supports.
  - apply (K (fun x b => total_price_v p x infill lh b)).
    + now apply total_price_v_mono_volume.
    + now apply total_price_v_supports.
Qed.

Lemma X15_larger_file_never_cheaper_witness :
  exists r r' q q',
    analyze_3d_file_simple pow_stub "model.stl" 20000 = Ok r /\
    analyze_3d_file_simple pow_stub "model.stl" 500000 = Ok r' /\
    calculate_price r "PLA" (lit 20) (lit (2 # 10)) None = Ok q /\
    calculate_price r' "PLA" (lit 20) (lit (2 # 10)) None = Ok q' /\
    (costs_material (costs q) <= costs_material (costs q'))%F /\
    (minutes (print_time q) <= minutes (print_time q'))%F /\
    (machine_time (costs q) <= machine_time (costs q'))%F /\
    (total (costs q) <= total (costs q'))%F.
Proof.
  apply (X15_larger_file_never_cheaper pow_stub "model.stl" 20000 500000
           "PLA" (lit 20) (lit (2 # 10)) None);
    first [lia|vm_compute; reflexivity].
Defined.

(** ** The route [/api/analyze] *)

Import Server.

Section HandlerFacts.

Variable float_pow : float -> float -> float.
Variable splitext : string -> string * string.
Variable lower : string -> string.
Variable temporary_file_name : string -> string.
Variable iteration_order : list string -> list string.

Variable file : upload_file.
Variables (material : string) (infill layer_height : float).
Variable include_supports : option bool.

Lemma analyze_file_unsupported :
  set_mem (snd (splitext (lower (upload_filename file)))) allowed_extensions
    = false ->
  analyze_file float_pow splitext lower temporary_file_name iteration_order
    file material infill layer_height include_supports =
  RaiseHTTP (HTTPException 400
    ("Unsupported file type. Allowed: " ++
     String.concat ", " (iteration_order allowed_extensions))).
Proof. intros A. unfold analyze_file. cbv zeta. now rewrite A. Qed.

Hypothesis Allowed :
  set_mem (snd (splitext (lower (upload_filename file)))) allowed_extensions
    = true.

Lemma analyze_file_too_large :
  (size_limit <= Z.of_nat (List.length (upload_content file)))%Z ->
  analyze_file float_pow splitext lower temporary_file_name iteration_order
    file material infill layer_height include_supports =
  RaiseHTTP (HTTPException 400
    "Error analyzing 3D file: integer division result too large for a float").
Proof.
  intros H. unfold analyze_file. cbv zeta. rewrite Allowed. cbn [negb].
  now rewrite (analyze_3d_file_simple_overflows float_pow _ _ H).
Qed.

Section Estimated.

Hypothesis Below :
  (Z.of_nat (List.length (upload_content file)) < size_limit)%Z.

Lemma analyze_file_estimates :
  exists r,
    analyze_3d_file_simple float_pow
      (temporary_file_name (snd (splitext (lower (upload_filename file)))))
      (Z.of_nat (List.length (upload_content file))) = Ok r /\
    analyze_file float_pow splitext lower temporary_file_name iteration_order
      file material infill layer_height include_supports =
    match
      pricing <- calculate_price r material infill layer_height
                   include_supports ;;
      Ok {| filename := upload_filename file;
            file_size_bytes := Z.of_nat (List.length (upload_content file));
            response_analysis := r;
            pricing := pricing;
            status := "success" |}
    with
    | Ok r => Return r
    | Raise (ValueError msg) => RaiseHTTP (HTTPException 400 msg)
    | Raise e => RaiseHTTP (HTTPException 500 ("Internal error: " ++ str e))
    end.
Proof.
  destruct (analyze_3d_file_simple_returns_lt float_pow
              (temporary_file_name
                 (snd (splitext (lower (upload_filename file)))))
              (Z.of_nat (List.length (upload_content file)))) as [r E].
  { split; [apply Nat2Z.is_nonneg|assumption]. }
  exists r. split; [exact E|].
  unfold analyze_file. cbv zeta. rewrite Allowed. cbn [negb].
  rewrite E. reflexivity.
Qed.

Lemma analyze_file_unknown_material :
  dict_mem MATERIALS material = false ->
  analyze_file float_pow splitext lower temporary_file_name iteration_order
    file material infill layer_height include_supports =
  RaiseHTTP (HTTPException 400 ("Unknown material: " ++ material)).
Proof.
  intros Hm. destruct analyze_file_estimates as (r & _ & ->).
  now rewrite (calculate_price_unknown r material infill layer_height
                 include_supports Hm).
Qed.

Lemma analyze_file_zero_layer :
  dict_mem MATERIALS material = true -> is_zero layer_height = true ->
  analyze_file float_pow splitext lower temporary_file_name iteration_order
    file material infill layer_height include_supports =
  RaiseHTTP (HTTPException 500 "Internal error: float division by zero").
Proof.
  intros Hm Z. destruct analyze_file_estimates as (r & _ & ->).
  now rewrite (calculate_price_zero_layer r material infill layer_height
                 include_supports Hm Z).
Qed.

Lemma analyze_file_returns :
  dict_mem MATERIALS material = true -> is_zero layer_height = false ->
  exists r q,
    analyze_3d_file_simple float_pow
      (temporary_file_name (snd (splitext (lower (upload_filename file)))))
      (Z.of_nat (List.length (upload_content file))) = Ok r /\
    calculate_price r material infill layer_height include_supports = Ok q /\
    analyze_file float_pow splitext lower temporary_file_name iteration_order
      file material infill layer_height include_supports =
    Return {| filename := upload_filename file;
              file_size_bytes := Z.of_nat (List.length (upload_content file));
              response_analysis := r;
              pricing := q;
              status := "success" |}.
Proof.
  intros Hm Z. destruct analyze_file_estimates as (r & E & ->).
  destruct (dict_mem_get _ _ Hm) as [p Hp].
  exists r. eexists. split; [exact E|].
  split; [exact (calculate_price_run r material infill layer_height
                   include_supports p Hp Z)|].
  now rewrite (calculate_price_run r material infill layer_height
                 include_supports p Hp Z).
Qed.

End Estimated.

End HandlerFacts.

(** X16: the rejections of the handler.  A file whose extension is not
    in the allow-list is rejected with status 400 before anything else
    is looked at.  For an allowed extension, an upload too large for
    the estimator is rejected with status 400 and the message of the
    estimator; otherwise an unknown material is rejected with status
    400 and the message naming it; otherwise a layer height of zero
    gives status 500 with the message of the division fault. *)
Theorem X16_analyze_file_rejections
    (float_pow : float -> float -> float)
    (splitext : string -> string * string) (lower : string -> string)
    (temporary_file_name : string -> string)
    (iteration_order : list string -> list string)
    (file : upload_file) (material : string) (infill layer_height : float)
    (include_supports : option bool) :
  (set_mem (snd (splitext (lower (upload_filename file)))) allowed_extensions
     = false ->
   analyze_file float_pow splitext lower temporary_file_name iteration_order
      file material infill layer_height include_supports =
   RaiseHTTP (HTTPException 400
     ("Unsupported file type. Allowed: " ++
      String.concat ", " (iteration_order allowed_extensions)))) /\
  (set_mem (snd (splitext (lower (upload_filename file)))) allowed_extensions
     = true ->
   ((size_limit <= (Z.of_nat (List.length (upload_content file))))%Z ->
    analyze_file float_pow splitext lower temporary_file_name iteration_order
      file material infill layer_height include_supports =
    RaiseHTTP (HTTPException 400
      "Error analyzing 3D file: integer division result too large for a float")) /\
   (((Z.of_nat (List.length (upload_content file))) < size_limit)%Z ->
    (dict_mem MATERIALS material = false ->
     analyze_file float_pow splitext lower temporary_file_name iteration_order
      file material infill layer_height include_supports =
     RaiseHTTP (HTTPException 400 ("Unknown material: " ++ material))) /\
    (dict_mem MATERIALS material = true -> is_zero layer_height = true ->
     analyze_file float_pow splitext lower temporary_file_name iteration_order
      file material infill layer_height include_supports =
     RaiseHTTP (HTTPException 500 "Internal error: float division by zero")))).
Proof.
  split; [apply analyze_file_unsupported|].
  intros A. split; [now apply analyze_file_too_large|].
  intros B. split.
  - now apply analyze_file_unknown_material.
  - now apply analyze_file_zero_layer.
Qed.

Lemma X16_analyze_file_rejections_witness :
  analyze_file pow_stub splitext_stub lower_stub temporary_file_name_stub
    iteration_order_stub
    {| upload_filename := "notes.txt"; upload_content := [] |}
    "PLA" (lit 20) (lit (2 # 10)) None =
  RaiseHTTP (HTTPException 400
    "Unsupported file type. Allowed: .stl, .obj, .ply, .step, .stp") /\
  analyze_file pow_stub splitext_stub lower_stub temporary_file_name_stub
    iteration_order_stub
    {| upload_filename := "model.stl"; upload_content := [] |}
    "NYLON" (lit 20) (lit (2 # 10)) None =
  RaiseHTTP (HTTPException 400 "Unknown material: NYLON") /\
  analyze_file pow_stub splitext_stub lower_stub temporary_file_name_stub
    iteration_order_stub
    {| upload_filename := "model.stl"; upload_content := [] |}
    "PLA" (lit 20) (Fin 0) None =
  RaiseHTTP (HTTPException 500 "Internal error: float division by zero").
Proof.
  split; [|split].
  - apply (proj1 (X16_analyze_file_rejections pow_stub splitext_stub lower_stub
                    temporary_file_name_stub iteration_order_stub
                    {| upload_filename := "notes.txt"; upload_content := [] |}
                    "PLA" (lit 20) (lit (2 # 10)) None)).
    vm_compute. reflexivity.
  - apply (proj2 (X16_analyze_file_rejections pow_stub splitext_stub lower_stub
                    temporary_file_name_stub iteration_order_stub
                    {| upload_filename := "model.stl"; upload_content := [] |}
                    "NYLON" (lit 20) (lit (2 # 10)) None));
      vm_compute; reflexivity.
  - apply (proj2 (X16_analyze_file_rejections pow_stub splitext_stub lower_stub
                    temporary_file_name_stub iteration_order_stub
                    {| upload_filename := "model.stl"; upload_content := [] |}
                    "PLA" (lit 20) (Fin 0) None));
      vm_compute; reflexivity.
Defined.

(** X17: the handler answers every other request.  For an allowed
    extension, an upload below the limit of the estimator, a catalog
    material and a layer height that is not zero, the handler returns
    the response with status "success" that holds the name and the
    size of the upload, the record of the estimator for that size and
    the quote of the pricer for that record; for an infill >= 0 and a
    finite layer height > 0 the total of that quote is at least the
    minimum price. *)
Theorem X17_analyze_file_success
    (float_pow : float -> float -> float)
    (splitext : string -> string * string) (lower : string -> string)
    (temporary_file_name : string -> string)
    (iteration_order : list string -> list string)
    (file : upload_file) (material : string) (infill layer_height : float)
    (include_supports : option bool) :
  set_mem (snd (splitext (lower (upload_filename file)))) allowed_extensions
    = true ->
  ((Z.of_nat (List.length (upload_content file))) < size_limit)%Z ->
  dict_mem MATERIALS material = true -> is_zero layer_height = false ->
  exists r q,
    analyze_3d_file_simple float_pow
      (temporary_file_name (snd (splitext (lower (upload_filename file)))))
      (Z.of_nat (List.length (upload_content file))) = Ok r /\
    calculate_price r material infill layer_height include_supports = Ok q /\
    analyze_file float_pow splitext lower temporary_file_name iteration_order
      file material infill layer_height include_supports =
    Return {| filename := upload_filename file;
              file_size_bytes := (Z.of_nat (List.length (upload_content file)));
              response_analysis := r;
              pricing := q;
              status := "success" |} /\
    ((Fin 0 <= infill)%F -> (Fin 0 < layer_height)%F ->
     (layer_height <= FMAX)%F ->
     (minimum_price PRICING_CONFIG <= total (costs q))%F).
Proof.
  intros A B Hm Z.
  destruct (analyze_file_returns float_pow splitext lower temporary_file_name
              iteration_order file material infill layer_height
              include_supports A B Hm Z) as (r & q & E & Eq & R).
  exists r, q. split; [exact E|]. split; [exact Eq|]. split; [exact R|].
  intros Hi Hlh Lhi.
  destruct (estimated_analysis_in_range _ _ _ _
              (Nat2Z.is_nonneg (List.length (upload_content file))) E)
    as (Vlo & _ & Clo & _).
  destruct (calculate_price_returns r material infill layer_height
              include_supports Hm Hlh) as (p & Hp & G & Eq').
  rewrite Eq' in Eq. apply Ok_inj in Eq. subst q.
  cbn [costs total].
  apply round_nd_minimum_price. now apply total_price_v_ge.
Qed.

Lemma X17_analyze_file_success_witness :
  exists r q,
    analyze_3d_file_simple pow_stub "/tmp/tmp0.stl" 0 = Ok r /\
    calculate_price r "PLA" (lit 20) (lit (2 # 10)) None = Ok q /\
    analyze_file pow_stub splitext_stub lower_stub temporary_file_name_stub
      iteration_order_stub
      {| upload_filename := "model.stl"; upload_content := [] |}
      "PLA" (lit 20) (lit (2 # 10)) None =
    Return {| filename := "model.stl";
              file_size_bytes := 0;
              response_analysis := r;
              pricing := q;
              status := "success" |} /\
    (minimum_price PRICING_CONFIG <= total (costs q))%F.
Proof.
  destruct (X17_analyze_file_success pow_stub splitext_stub lower_stub
              temporary_file_name_stub iteration_order_stub
              {| upload_filename := "model.stl"; upload_content := [] |}
              "PLA" (lit 20) (lit (2 # 10)) None)
    as (r & q & E & Eq & R & H);
    [vm_compute; reflexivity|vm_compute; reflexivity|vm_compute; reflexivity
    |vm_compute; reflexivity|].
  exists r, q. split; [exact E|]. split; [exact Eq|]. split; [exact R|].
  apply H; vm_compute; reflexivity.
Defined.

(** ** The minimum price never binds *)

Section MinimumPrice.

Variable p : mat_props.
Hypothesis G : good_material p.
Variable a : analysis.
Hypothesis Vlo : (lit 1 <= volume_cm3 a)%F.
Hypothesis Clo : (Fin 0 <= complexity_factor a)%F.
Variable lh : float.
Hypothesis Lpos : (Fin 0 < lh)%F.
Hypothesis Lhi : (lh <= FMAX)%F.
Variable infill : float.
Hypothesis Hi : (Fin 0 <= infill)%F.
Variable inc : bool.

(** The subtotal with its margin is at least 5.0 + 5.0 * 0.25. *)
Lemma with_margin_ge :
  (lit (625 # 100) <=
   subtotal_v p a infill lh inc + margin_amount_v p a infill lh inc)%F.
Proof.
  unfold margin_amount_v.
  apply fle_trans with (lit 5 + lit 5 * margin PRICING_CONFIG)%F; [fconst|].
  apply with_margin_mono; [fconst|now apply subtotal_v_ge].
Qed.

Lemma total_price_v_unfloored :
  total_price_v p a infill lh inc =
  (subtotal_v p a infill lh inc + margin_amount_v p a infill lh inc)%F.
Proof.
  unfold total_price_v, py_max, fgt.
  assert (L : (minimum_price PRICING_CONFIG <=
               subtotal_v p a infill lh inc +
               margin_amount_v p a infill lh inc)%F).
  { apply fle_trans with (lit (625 # 100)); [fconst|apply with_margin_ge]. }
  now rewrite (flt_irrefl_le _ _ L).
Qed.

End MinimumPrice.

(** X18: the minimum price never binds.  For an analysis record with
    volume >= 1.0 and complexity >= 0, a catalog material, an infill
    >= 0 and a finite layer height > 0, the post-processing base of
    5.0 with its margin already exceeds the minimum price: the total
    before rounding is the subtotal plus the margin, untouched by the
    floor, so that the returned subtotal is at least 5.0 and the
    returned total at least 6.25. *)
Theorem X18_minimum_price_never_binds (a : analysis) (m : string)
    (infill lh : float) (s : option bool) :
  dict_mem MATERIALS m = true ->
  (lit 1 <= volume_cm3 a)%F -> (Fin 0 <= complexity_factor a)%F ->
  (Fin 0 <= infill)%F -> (Fin 0 < lh)%F -> (lh <= FMAX)%F ->
  exists q,
    calculate_price a m infill lh s = Ok q /\
    (lit 5 <= subtotal (costs q))%F /\
    (lit (625 # 100) <= total (costs q))%F.
Proof.
  intros Hm Vlo Clo Hi Hlh Lhi.
  destruct (calculate_price_returns a m infill lh s Hm Hlh) as (p & Hp & G & ->).
  eexists. split; [reflexivity|].
  cbn [costs subtotal total].
  rewrite (total_price_v_unfloored p G a Vlo Clo lh Hlh Lhi infill Hi).
  split; (apply round_nd_ge_const; [lia|fconst|]).
  - now apply subtotal_v_ge.
  - now apply with_margin_ge.
Qed.

Lemma X18_minimum_price_never_binds_witness :
  exists q,
    calculate_price unit_cube "PLA" (lit 20) (lit (2 # 10)) None = Ok q /\
    (lit (625 # 100) <= total (costs q))%F.
Proof.
  destruct (X18_minimum_price_never_binds unit_cube "PLA" (lit 20)
              (lit (2 # 10)) None)
    as (q & E & _ & H);
    [vm_compute; reflexivity|vm_compute; reflexivity|vm_compute; reflexivity
    |vm_compute; reflexivity|vm_compute; reflexivity|vm_compute; reflexivity|].
  exists q. split; [exact E|exact H].
Defined.
